(** * Document classification pipeline: decision engine

    A shallow embedding of the decision logic of the classifier:
    - [src/config.py]                          (module [Config])
    - [src/classification/accuracy_tracker.py]  (module [AccuracyTracker])
    - [src/classification/content_safety.py]    (module [ContentSafety])
    - [src/classification/classifier.py]        (module [GeminiClassifier])
    - [src/classification/enhanced_classifier.py] (module [Enhanced])
    - [src/processing/batch_processor.py]       (module [Batch])
    - [src/ui/enhanced_endpoints.py]            (module [Endpoints])

    Modelling conventions.
    - A Python [float] is an exact rational ([Q]); [round(x, n)] rounds
      half to even on that rational.  Comparisons against the literals of
      the source ([0.95], [0.9], [0.85], [0.75]) are therefore exact.
    - A Python [int] is a [Z], a [str] a [string], [Optional[str]] an
      [option string]; truthiness is written out ([truthy_str], ...).
    - A [dict] used as a map is a [gmap]; a [defaultdict] is a [gmap]
      together with the flag that says whether a missing key is created
      (fresh tracker) or raises [KeyError] (tracker re-loaded from its
      JSON file, where [json.load] returns plain dicts).
    - A raised exception is [None] in the option monad (tracker) or
      [Raise] in the effect monad [Eff] (classifiers); [Eff] also records
      the calls made to the external oracle and between components.
    - The external oracle (the generative model) answers a request either
      with a failure (the call raises, or [json.loads] rejects the text)
      or with a reply that carries the fields the prompt asks for. *)

From Stdlib Require Import ZArith QArith Qround Qabs Lqa String List Bool Lia Permutation.
From stdpp Require Import gmap strings list fin_maps.

Open Scope Q_scope.

(** ** Python numerics on rationals *)

Definition Qlt_bool (a b : Q) : bool := negb (Qle_bool b a).

(** [min(a, b)]: the first minimal argument. *)
Definition py_min (a b : Q) : Q := if Qlt_bool b a then b else a.

(** [max(a, b)]: the first maximal argument. *)
Definition py_max (a b : Q) : Q := if Qlt_bool a b then b else a.

(** [int(x)] on a float: truncation towards zero. *)
Definition py_int (x : Q) : Z := Z.quot (Qnum x) (Zpos (Qden x)).

(** Round to the nearest integer, ties to the even one. *)
Definition round_half_even (x : Q) : Z :=
  let f := Qfloor x in
  let r := x - inject_Z f in
  if Qlt_bool r (1 # 2) then f
  else if Qlt_bool (1 # 2) r then (f + 1)%Z
  else if Z.even f then f else (f + 1)%Z.

(** [round(x, ndigits)]. *)
Definition py_round (x : Q) (ndigits : nat) : Q :=
  let scale := inject_Z (10 ^ Z.of_nat ndigits) in
  inject_Z (round_half_even (x * scale)) / scale.

(** [abs(x)]. *)
Definition py_abs (x : Q) : Q := Qabs x.

(** Truthiness of a [str] and of an [Optional[str]]. *)
Definition truthy_str (s : string) : bool := negb (String.eqb s EmptyString).

Definition truthy_opt_str (o : option string) : bool :=
  match o with
  | Some s => truthy_str s
  | None => false
  end.

(** Truthiness of a value that is [None], [True] or [False]. *)
Definition truthy_opt_bool (o : option bool) : bool :=
  match o with
  | Some b => b
  | None => false
  end.

(** ** src/config.py *)

Module Config.

Record t := mk {
  CONFIDENCE_THRESHOLD : Q;
  DUAL_VALIDATION_ENABLED : bool
}.

(** The values taken when the environment sets nothing. *)
Definition default : t :=
  {| CONFIDENCE_THRESHOLD := 0.9; DUAL_VALIDATION_ENABLED := true |}.

(** [CATEGORIES] is a class constant, not read from the environment. *)
Definition CATEGORIES : list string :=
  ["PUBLIC"; "SENSITIVE"; "CONFIDENTIAL"; "UNSAFE"]%string.

End Config.

(** ** src/classification/accuracy_tracker.py *)

Module AccuracyTracker.

(** One entry of [metrics['category_stats']]. *)
Record CategoryStats := mkStats {
  true_positives : Z;
  false_positives : Z;
  false_negatives : Z;
  precision : Q;
  recall : Q;
  f1_score : Q
}.

(** The value the [defaultdict] factory of [category_stats] builds. *)
Definition fresh_stats : CategoryStats :=
  {| true_positives := 0; false_positives := 0; false_negatives := 0;
     precision := 0; recall := 0; f1_score := 0 |}.

(** One element of a confidence bin. *)
Record BinEntry := mkBinEntry {
  be_predicted : string;
  be_ground_truth : option string;
  be_correct : option bool;
  be_document_id : string
}.

(** One element of [metrics['hitl_corrections']]. *)
Record Correction := mkCorrection {
  co_document_id : string;
  co_original : string;
  co_corrected : string;
  co_confidence : Q;
  co_timestamp : Q
}.

(** [self.metrics].  A confidence bin is stored under the key
    [str(int(confidence * 10) / 10)]; the key is represented by the
    integer [int(confidence * 10)], so that key [k] stands for the
    string of [k / 10].  [defaulting] is [true] for the dictionaries
    [_load_metrics] builds itself ([defaultdict]) and [false] for the
    ones it reads back from the metrics file. *)
Record Metrics := mkMetrics {
  total_predictions : Z;
  total_ground_truth : Z;
  confusion_matrix : gmap string (gmap string Z);
  confidence_bins : gmap Z (list BinEntry);
  category_stats : gmap string CategoryStats;
  hitl_corrections : list Correction;
  defaulting : bool
}.

(** [_load_metrics] when no metrics file exists. *)
Definition empty_metrics : Metrics :=
  {| total_predictions := 0; total_ground_truth := 0;
     confusion_matrix := ∅; confidence_bins := ∅; category_stats := ∅;
     hitl_corrections := []; defaulting := true |}.

(** [d[k]] on a dictionary that is a [defaultdict] when [dflt] holds:
    the stored value, the factory's value, or [KeyError]. *)
Definition getitem {K V} `{Countable K} (dflt : bool) (factory : V)
    (d : gmap K V) (k : K) : option V :=
  match d !! k with
  | Some v => Some v
  | None => if dflt then Some factory else None
  end.

Definition set_bins (m : Metrics) (b : gmap Z (list BinEntry)) : Metrics :=
  {| total_predictions := total_predictions m;
     total_ground_truth := total_ground_truth m;
     confusion_matrix := confusion_matrix m;
     confidence_bins := b;
     category_stats := category_stats m;
     hitl_corrections := hitl_corrections m;
     defaulting := defaulting m |}.

Definition set_confusion (m : Metrics) (c : gmap string (gmap string Z)) : Metrics :=
  {| total_predictions := total_predictions m;
     total_ground_truth := total_ground_truth m;
     confusion_matrix := c;
     confidence_bins := confidence_bins m;
     category_stats := category_stats m;
     hitl_corrections := hitl_corrections m;
     defaulting := defaulting m |}.

Definition set_stats (m : Metrics) (s : gmap string CategoryStats) : Metrics :=
  {| total_predictions := total_predictions m;
     total_ground_truth := total_ground_truth m;
     confusion_matrix := confusion_matrix m;
     confidence_bins := confidence_bins m;
     category_stats := s;
     hitl_corrections := hitl_corrections m;
     defaulting := defaulting m |}.

Definition set_totals (m : Metrics) (p g : Z) : Metrics :=
  {| total_predictions := p;
     total_ground_truth := g;
     confusion_matrix := confusion_matrix m;
     confidence_bins := confidence_bins m;
     category_stats := category_stats m;
     hitl_corrections := hitl_corrections m;
     defaulting := defaulting m |}.

Definition set_corrections (m : Metrics) (l : list Correction) : Metrics :=
  {| total_predictions := total_predictions m;
     total_ground_truth := total_ground_truth m;
     confusion_matrix := confusion_matrix m;
     confidence_bins := confidence_bins m;
     category_stats := category_stats m;
     hitl_corrections := l;
     defaulting := defaulting m |}.

(** The confidence bin of a score: [int(confidence * 10)]. *)
Definition confidence_bin (confidence : Q) : Z := py_int (confidence * 10).

(** The value [float(bin_str)] of the key of bin [k]. *)
Definition bin_value (k : Z) : Q := inject_Z k / 10.

Definition add_tp (s : CategoryStats) : CategoryStats :=
  {| true_positives := true_positives s + 1;
     false_positives := false_positives s;
     false_negatives := false_negatives s;
     precision := precision s; recall := recall s; f1_score := f1_score s |}.

Definition add_fp (s : CategoryStats) : CategoryStats :=
  {| true_positives := true_positives s;
     false_positives := false_positives s + 1;
     false_negatives := false_negatives s;
     precision := precision s; recall := recall s; f1_score := f1_score s |}.

Definition add_fn (s : CategoryStats) : CategoryStats :=
  {| true_positives := true_positives s;
     false_positives := false_positives s;
     false_negatives := false_negatives s + 1;
     precision := precision s; recall := recall s; f1_score := f1_score s |}.

(** The body of the loop [for category in Config.CATEGORIES] of
    [record_prediction]: which counter of [category] the pair
    (predicted, ground truth) increments, if any. *)
Definition update_category (dflt : bool) (predicted ground_truth : string)
    (stats : gmap string CategoryStats) (category : string)
    : option (gmap string CategoryStats) :=
  let bump (f : CategoryStats -> CategoryStats) :=
    s ← getitem dflt fresh_stats stats category;
    Some (<[category := f s]> stats) in
  if String.eqb predicted category && String.eqb ground_truth category
  then bump add_tp
  else if String.eqb predicted category && negb (String.eqb ground_truth category)
  then bump add_fp
  else if negb (String.eqb predicted category) && String.eqb ground_truth category
  then bump add_fn
  else Some stats.

(** A [for] loop over a list whose body may raise. *)
Fixpoint for_each {S A} (body : S -> A -> option S) (s : S) (l : list A)
    : option S :=
  match l with
  | [] => Some s
  | a :: l' => s' ← body s a; for_each body s' l'
  end.

(** The three ratios of one category, from its counters. *)
Definition recalculate (s : CategoryStats) : CategoryStats :=
  let tp := true_positives s in
  let fp := false_positives s in
  let fn := false_negatives s in
  let p := if (0 <? tp + fp)%Z then inject_Z tp / inject_Z (tp + fp) else 0 in
  let r := if (0 <? tp + fn)%Z then inject_Z tp / inject_Z (tp + fn) else 0 in
  let f1 := if Qlt_bool 0 (p + r) then 2 * (p * r) / (p + r) else 0 in
  {| true_positives := tp; false_positives := fp; false_negatives := fn;
     precision := py_round p 4;
     recall := py_round r 4;
     f1_score := py_round f1 4 |}.

(** [_recalculate_metrics]. *)
Definition _recalculate_metrics (dflt : bool) (stats : gmap string CategoryStats)
    : option (gmap string CategoryStats) :=
  for_each
    (fun st category =>
       s ← getitem dflt fresh_stats st category;
       Some (<[category := recalculate s]> st))
    stats Config.CATEGORIES.

(** [record_prediction].  [_save_metrics] writes the metrics file and
    leaves [self.metrics] as it is; the file is not part of the model.
    [None] is an exception ([KeyError] on a dictionary re-loaded from
    the file). *)
Definition record_prediction (m : Metrics) (predicted : string)
    (ground_truth : option string) (confidence : Q) (document_id : string)
    : option Metrics :=
  let dflt := defaulting m in
  let m1 := set_totals m (total_predictions m + 1) (total_ground_truth m) in
  let k := confidence_bin confidence in
  bin ← getitem dflt [] (confidence_bins m1) k;
  let entry :=
    {| be_predicted := predicted;
       be_ground_truth := ground_truth;
       be_correct :=
         match ground_truth with
         | Some g => if truthy_str g then Some (String.eqb predicted g) else None
         | None => None
         end;
       be_document_id := document_id |} in
  let m2 := set_bins m1 (<[k := bin ++ [entry]]> (confidence_bins m1)) in
  match ground_truth with
  | Some g =>
      if truthy_str g then
        let m3 := set_totals m2 (total_predictions m2) (total_ground_truth m2 + 1) in
        row ← getitem dflt ∅ (confusion_matrix m3) g;
        cell ← getitem dflt 0%Z row predicted;
        let m4 :=
          set_confusion m3 (<[g := <[predicted := (cell + 1)%Z]> row]> (confusion_matrix m3)) in
        st ← for_each (update_category dflt predicted g) (category_stats m4)
               Config.CATEGORIES;
        st' ← _recalculate_metrics dflt st;
        Some (set_stats m4 st')
      else Some m2
  | None => Some m2
  end.

(** [record_hitl_correction]; [now] is the value of [time.time()]. *)
Definition record_hitl_correction (m : Metrics) (now : Q) (document_id : string)
    (original corrected : string) (confidence : Q) : option Metrics :=
  let m1 :=
    set_corrections m
      (hitl_corrections m ++
       [{| co_document_id := document_id; co_original := original;
           co_corrected := corrected; co_confidence := confidence;
           co_timestamp := now |}]) in
  record_prediction m1 original (Some corrected) confidence document_id.

(** One entry of the calibration report. *)
Record CalibrationEntry := mkCal {
  expected : Q;
  actual : Q;
  samples : Z;
  calibration_error : Q
}.

(** [sum(1 for p in predictions if p['correct'] is True)]. *)
Definition count_correct (predictions : list BinEntry) : Z :=
  Z.of_nat
    (length (filter (fun p => be_correct p = Some true) predictions)).

(** The report entry of one bin, when the bin is not empty. *)
Definition calibration_of_bin (k : Z) (predictions : list BinEntry)
    : option CalibrationEntry :=
  let correct := count_correct predictions in
  let total := Z.of_nat (length predictions) in
  if (0 <? total)%Z then
    let actual_accuracy := inject_Z correct / inject_Z total in
    let expected_confidence := bin_value k in
    Some {| expected := expected_confidence;
            actual := py_round actual_accuracy 4;
            samples := total;
            calibration_error :=
              py_round (py_abs (expected_confidence - actual_accuracy)) 4 |}
  else None.

(** [get_confidence_calibration]. *)
Definition get_confidence_calibration (m : Metrics) : gmap Z CalibrationEntry :=
  map_imap calibration_of_bin (confidence_bins m).

(** [sum(stats['true_positives'] for stats in category_stats.values())]. *)
Definition total_true_positives (st : gmap string CategoryStats) : Z :=
  map_fold (fun _ stats acc => (true_positives stats + acc)%Z) 0%Z st.

(** [get_overall_accuracy]: a percentage. *)
Definition get_overall_accuracy (m : Metrics) : Q :=
  if (total_ground_truth m =? 0)%Z then 0.0
  else
    let correct := total_true_positives (category_stats m) in
    py_round (inject_Z correct / inject_Z (total_ground_truth m) * 100) 2.

(** The list [f1_scores] of [get_macro_f1]: the F1 scores above zero.
    The dictionary is walked in the order of [map_to_list]; the mean
    below does not depend on the order. *)
Definition positive_f1_scores (st : gmap string CategoryStats) : list Q :=
  List.filter (fun f1 => Qlt_bool 0 f1)
    (map (fun entry => f1_score (snd entry)) (map_to_list st)).

(** [sum(l)]. *)
Definition py_sum (l : list Q) : Q := fold_left Qplus l 0.

(** [get_macro_f1]. *)
Definition get_macro_f1 (m : Metrics) : Q :=
  let f1_scores := positive_f1_scores (category_stats m) in
  match f1_scores with
  | [] => 0.0
  | _ => py_round (py_sum f1_scores / inject_Z (Z.of_nat (length f1_scores))) 4
  end.

(** [_get_hitl_correction_rate]: a percentage. *)
Definition _get_hitl_correction_rate (m : Metrics) : Q :=
  if (total_predictions m =? 0)%Z then 0.0
  else
    let corrections := Z.of_nat (length (hitl_corrections m)) in
    py_round (inject_Z corrections / inject_Z (total_predictions m) * 100) 2.

(** The dictionary [get_detailed_report] returns. *)
Record Report := mkReport {
  overall_accuracy : Q;
  macro_f1_score : Q;
  report_total_predictions : Z;
  total_with_ground_truth : Z;
  category_metrics : gmap string CategoryStats;
  report_confusion_matrix : gmap string (gmap string Z);
  confidence_calibration : gmap Z CalibrationEntry;
  hitl_correction_rate : Q
}.

(** [get_detailed_report]. *)
Definition get_detailed_report (m : Metrics) : Report :=
  {| overall_accuracy := get_overall_accuracy m;
     macro_f1_score := get_macro_f1 m;
     report_total_predictions := total_predictions m;
     total_with_ground_truth := total_ground_truth m;
     category_metrics := category_stats m;
     report_confusion_matrix := confusion_matrix m;
     confidence_calibration := get_confidence_calibration m;
     hitl_correction_rate := _get_hitl_correction_rate m |}.

(** The JSON document of the metrics file: the dictionary [serializable]
    of [_save_metrics].  Numbers, strings, [None] and the nesting of
    dictionaries and lists survive [json.dump] and [json.load] as they
    are; what does not survive is that a dictionary was a
    [defaultdict]. *)
Record MetricsFile := mkFile {
  file_total_predictions : Z;
  file_total_ground_truth : Z;
  file_confusion_matrix : gmap string (gmap string Z);
  file_confidence_bins : gmap Z (list BinEntry);
  file_category_stats : gmap string CategoryStats;
  file_hitl_corrections : list Correction
}.

(** [_save_metrics]: the content written to the metrics file. *)
Definition _save_metrics (m : Metrics) : MetricsFile :=
  {| file_total_predictions := total_predictions m;
     file_total_ground_truth := total_ground_truth m;
     file_confusion_matrix := confusion_matrix m;
     file_confidence_bins := confidence_bins m;
     file_category_stats := category_stats m;
     file_hitl_corrections := hitl_corrections m |}.

(** [_load_metrics]: what [json.load] reads when the file exists, the
    empty [defaultdict] structure otherwise. *)
Definition _load_metrics (metrics_file : option MetricsFile) : Metrics :=
  match metrics_file with
  | Some f =>
      {| total_predictions := file_total_predictions f;
         total_ground_truth := file_total_ground_truth f;
         confusion_matrix := file_confusion_matrix f;
         confidence_bins := file_confidence_bins f;
         category_stats := file_category_stats f;
         hitl_corrections := file_hitl_corrections f;
         defaulting := false |}
  | None => empty_metrics
  end.

End AccuracyTracker.

(** ** Effects: calls and exceptions *)

(** The three policy checks of the cascade. *)
Inductive CheckKind := Safety | Confidential | Sensitive.

(** A request sent to the generative model ([model.generate_content]). *)
Inductive Request :=
| AiSafetyCheck (content_sample : string)
| ChildSafetyCheck (content_sample : string)
| PolicyCheck (kind : CheckKind) (document_content : string)
    (validation_pass : Z) (temperature : Q).

(** What a computation is seen doing: a request to the model, or a call
    from one component of the pipeline into another ([validate],
    [GeminiClassifier.classify], [_classify_single],
    [_calibrate_confidence], [_enhanced_hitl_decision],
    [record_prediction]), recorded when the call is made. *)
Inductive Event :=
| Generate (r : Request)
| CallValidate
| CallBaseClassify
| CallClassifySingle (validation_pass : Z)
| CallCalibrate
| CallHitlDecision
| CallRecordPrediction.

(** The answer to a request: [Failed msg] when [generate_content],
    [response.text] or [json.loads] raises an exception [e] with
    [str(e) = msg]; [Parsed a] when the text parses to the fields the
    prompt asks for. *)
Inductive Reply (A : Type) :=
| Failed (msg : string)
| Parsed (a : A).
Arguments Failed {A} msg.
Arguments Parsed {A} a.

Inductive Res (A : Type) :=
| Ok (a : A)
| Raise (msg : string).
Arguments Ok {A} a.
Arguments Raise {A} msg.

(** A computation: the events it produces, in order, and its outcome. *)
Definition Eff (A : Type) : Type := list Event * Res A.

Definition ret {A} (a : A) : Eff A := ([], Ok a).

Definition bind {A B} (m : Eff A) (k : A -> Eff B) : Eff B :=
  match m with
  | (tr, Ok a) => let '(tr', r) := k a in (tr ++ tr', r)
  | (tr, Raise msg) => (tr, Raise msg)
  end.

Definition emit (e : Event) : Eff unit := ([e], Ok tt).

Definition events {A} (m : Eff A) : list Event := fst m.
Definition outcome {A} (m : Eff A) : Res A := snd m.

(** An operation of the tracker inside a computation. *)
Definition lift_option {A} (o : option A) : Eff A :=
  match o with
  | Some a => ret a
  | None => ([], Raise "KeyError")
  end.

Declare Scope eff_scope.
Delimit Scope eff_scope with eff.
Notation "'let*' x ':=' m 'in' k" := (bind m (fun x => k))
  (at level 10, x name, m at level 100, k at level 200) : eff_scope.
Notation "'run' m 'in' k" := (bind m (fun _ => k))
  (at level 10, m at level 100, k at level 200) : eff_scope.

(** [s[:n] if len(s) > n else s]. *)
Definition py_prefix (n : nat) (s : string) : string :=
  if (n <? String.length s)%nat then String.substring 0 n s else s.

(** ** src/classification/content_safety.py *)

Module ContentSafety.

(** The fields of the reply of the deep safety check. *)
Record AiReply := mkAiReply {
  ai_is_safe : bool;
  ai_safety_score : Q;
  ai_violations : list string;
  ai_categories : list string;
  ai_severity : string;
  ai_reasoning : string
}.

(** The fields of the reply of the child-safety check. *)
Record ChildReply := mkChildReply {
  is_child_safe : bool;
  age_appropriate : string;
  concerns : list string;
  reason : string
}.

(** What the validator relies on outside itself. *)
Record World := mkWorld {
  (** the model, asked by [_ai_safety_check] *)
  gen_ai_safety : string -> Reply AiReply;
  (** the model, asked by [_child_safety_check] *)
  gen_child_safety : string -> Reply ChildReply;
  (** [str.lower] *)
  str_lower : string -> string;
  (** [re.findall(pattern, text, re.IGNORECASE)], each match printed *)
  re_findall : string -> string -> list string;
  (** the text of a list of matches inside an f-string *)
  fmt_list : list string -> string;
  (** [list(set(l))]: the distinct elements of [l], in the order the
      interpreter enumerates the set *)
  list_of_set : list string -> list string
}.

(** [_build_unsafe_patterns], in the order of the dictionary literal. *)
Definition unsafe_patterns : list (string * list string) :=
  [ ("violence",
     [ "\b(kill|murder|assault|attack|weapon|gun|knife|bomb|explosive)\b";
       "\b(violence|violent|harm|hurt|injure|wound)\b";
       "\b(threat|threatening|terroris[mt]|radical)\b" ]);
    ("hate_speech",
     [ "\b(hate|hatred|racist|racism|sexist|sexism|discrimination)\b";
       "\b(slur|derogatory|offensive|insult)\b";
       "\b(supremac[yi]|extremis[mt]|bigot)\b" ]);
    ("explicit_content",
     [ "\b(porn|pornograph[yi]|xxx|explicit|sexual|nude|naked)\b";
       "\b(adult content|nsfw|mature content)\b" ]);
    ("child_safety",
     [ "\b(child|children|minor|kid|teen|adolescent|youth)\b.*\b(abuse|exploitation|harm|danger)";
       "\b(predator|grooming|inappropriate contact)\b";
       "\b(age.*verification|parental.*consent)\b" ]);
    ("dangerous_activities",
     [ "\b(suicide|self-harm|self harm)\b";
       "\b(drug|narcotic|illegal substance)\b";
       "\b(instruct.*\w*.*harm|how to.*\w*.*damage)\b" ]);
    ("illegal_content",
     [ "\b(illegal|unlawful|criminal|contraband)\b";
       "\b(fraud|scam|phishing|malware)\b";
       "\b(piracy|counterfeit|stolen)\b" ]) ]%string.

Record PatternResult := mkPattern {
  flagged : bool;
  categories : list string;
  pattern_violations : list string
}.

(** The inner loop of [_pattern_based_check]: the first pattern of the
    category that matches, reported once ([break]). *)
Fixpoint first_match (w : World) (content_lower : string) (patterns : list string)
    : option (list string) :=
  match patterns with
  | [] => None
  | pattern :: rest =>
      match re_findall w pattern content_lower with
      | [] => first_match w content_lower rest
      | matches => Some matches
      end
  end.

(** [_pattern_based_check]. *)
Definition _pattern_based_check (w : World) (content : string) : PatternResult :=
  let content_lower := str_lower w content in
  let step (acc : list string * list string) (entry : string * list string) :=
    let '(flagged_categories, violations) := acc in
    let '(category, patterns) := entry in
    match first_match w content_lower patterns with
    | Some matches =>
        (flagged_categories ++ [category],
         violations ++
           [(category ++ ": Pattern match found - " ++ fmt_list w (firstn 3 matches))%string])
    | None => acc
    end in
  let '(flagged_categories, violations) := fold_left step unsafe_patterns ([], []) in
  {| flagged := (0 <? length flagged_categories)%nat;
     categories := flagged_categories;
     pattern_violations := violations |}.

(** [_ai_safety_check]: the reply of the model, or the conservative
    result of the [except] branch. *)
Definition _ai_safety_check (w : World) (content : string) : Eff AiReply :=
  let content_sample := py_prefix 5000 content in
  (run emit (Generate (AiSafetyCheck content_sample)) in
   match gen_ai_safety w content_sample with
   | Parsed result => ret result
   | Failed e =>
       ret {| ai_is_safe := false;
              ai_safety_score := 0.5;
              ai_violations := [("Safety check failed: " ++ e)%string];
              ai_categories := ["check_error"%string];
              ai_severity := "medium";
              ai_reasoning := "Unable to complete safety validation" |}
   end)%eff.

(** [_child_safety_check]. *)
Definition _child_safety_check (w : World) (content : string) : Eff ChildReply :=
  let content_sample := py_prefix 3000 content in
  (run emit (Generate (ChildSafetyCheck content_sample)) in
   match gen_child_safety w content_sample with
   | Parsed result => ret result
   | Failed e =>
       ret {| is_child_safe := false;
              age_appropriate := "18+";
              concerns := ["Unable to verify child safety"%string];
              reason := ("Safety check error: " ++ e)%string |}
   end)%eff.

(** ['c' in flagged_categories]. *)
Definition mem (c : string) (l : list string) : bool :=
  existsb (String.eqb c) l.

(** [_generate_recommendations]. *)
Definition _generate_recommendations (flagged_categories : list string) : list string :=
  let add (c r : string) (acc : list string) :=
    if mem c flagged_categories then acc ++ [r] else acc in
  let r1 := add "violence"
    "Content contains violent or threatening material. Mark as UNSAFE and require escalation." [] in
  let r2 := add "hate_speech"
    "Content contains hate speech or discriminatory language. Immediate rejection required." r1 in
  let r3 := add "explicit_content"
    "Explicit or adult content detected. Mark as UNSAFE and restrict access." r2 in
  let r4 := add "child_safety"
    "Child safety concerns identified. URGENT: Escalate to compliance team immediately." r3 in
  let r5 := add "dangerous_activities"
    "Content promotes dangerous activities. Mark as UNSAFE and consider reporting." r4 in
  let r6 := add "illegal_content"
    "Potentially illegal content detected. Legal review required." r5 in
  match r6 with
  | [] => ["General safety violation detected. Review required before classification."%string]
  | _ => r6
  end.

Record Detail := mkDetail {
  pattern_check : PatternResult;
  ai_check : AiReply;
  child_safety_check : ChildReply
}.

(** The dictionary [validate] returns. *)
Record SafetyResult := mkSafety {
  is_safe : bool;
  safety_score : Q;
  violations : list string;
  categories_flagged : list string;
  recommendations : list string;
  child_safe : bool;
  detail : Detail
}.

(** [validate].  The three layers all run, in order.  When the pattern
    layer flags, [result['categories_flagged']] is the very list
    [pattern_results['categories']], so the [extend] of the second layer
    also shows in the pattern result kept under [detail]. *)
Definition validate (w : World) (content document_id : string) : Eff SafetyResult :=
  (run emit CallValidate in
   let pattern_results := _pattern_based_check w content in
   let is_safe1 := negb (flagged pattern_results) in
   let violations1 := if flagged pattern_results then pattern_violations pattern_results else [] in
   let flagged1 := if flagged pattern_results then categories pattern_results else [] in
   let* ai_results := _ai_safety_check w content in
   let unsafe2 := negb (ai_is_safe ai_results) in
   let is_safe2 := if unsafe2 then false else is_safe1 in
   let violations2 := if unsafe2 then violations1 ++ ai_violations ai_results else violations1 in
   let flagged2 := if unsafe2 then flagged1 ++ ai_categories ai_results else flagged1 in
   let score2 := if unsafe2 then py_min 1.0 (ai_safety_score ai_results) else 1.0 in
   let pattern_results' :=
     if flagged pattern_results
     then {| flagged := flagged pattern_results;
             categories := flagged2;
             pattern_violations := pattern_violations pattern_results |}
     else pattern_results in
   let* child_safety := _child_safety_check w content in
   let unsafe3 := negb (is_child_safe child_safety) in
   let is_safe3 := if unsafe3 then false else is_safe2 in
   let violations3 := if unsafe3 then violations2 ++ [reason child_safety] else violations2 in
   let recs := if negb is_safe3 then _generate_recommendations flagged2 else [] in
   ret {| is_safe := is_safe3;
          safety_score := score2;
          violations := list_of_set w violations3;
          categories_flagged := list_of_set w flagged2;
          recommendations := recs;
          child_safe := is_child_safe child_safety;
          detail := {| pattern_check := pattern_results';
                       ai_check := ai_results;
                       child_safety_check := child_safety |} |})%eff.

End ContentSafety.

(** ** The processed document handed to the classifiers *)

Record TextBlock := mkBlock {
  block_index : Z;
  bbox : list Q;
  text : string
}.

Record Page := mkPage { text_blocks : list TextBlock }.

Record DocumentData := mkDoc {
  doc_id : string;
  full_text : string;
  cached_content : string;
  pages : list Page
}.

(** ** src/classification/classifier.py *)

Module GeminiClassifier.

(** The dictionary a policy check returns.  [flag] is the key
    [is_unsafe], [is_confidential] or [is_sensitive] of the check;
    [citation] and [pii_found] are keys the reply may leave out. *)
Record CheckResult := mkCheck {
  flag : bool;
  confidence : Q;
  reasoning : string;
  citation : option string;
  pii_found : option (list string)
}.

(** The model behind the three checks. *)
Definition Oracle : Type := CheckKind -> string -> Z -> Reply CheckResult.

(** [temperature=0.1 if validation_pass == 1 else 0.3]. *)
Definition temperature (validation_pass : Z) : Q :=
  if (validation_pass =? 1)%Z then 0.1 else 0.3.

(** [_check_safety]. *)
Definition _check_safety (gen : Oracle) (document_content : string)
    (validation_pass : Z) : Eff CheckResult :=
  (run emit (Generate (PolicyCheck Safety document_content validation_pass
                         (temperature validation_pass))) in
   match gen Safety document_content validation_pass with
   | Parsed result => ret result
   | Failed e =>
       ret {| flag := false; confidence := 0.5;
              reasoning := ("Error: " ++ e)%string;
              citation := Some EmptyString; pii_found := None |}
   end)%eff.

(** [_check_confidential]. *)
Definition _check_confidential (gen : Oracle) (document_content : string)
    (validation_pass : Z) : Eff CheckResult :=
  (run emit (Generate (PolicyCheck Confidential document_content validation_pass
                         (temperature validation_pass))) in
   match gen Confidential document_content validation_pass with
   | Parsed result => ret result
   | Failed e =>
       ret {| flag := false; confidence := 0.5;
              reasoning := ("Error: " ++ e)%string;
              citation := Some EmptyString; pii_found := Some [] |}
   end)%eff.

(** [_check_sensitive]. *)
Definition _check_sensitive (gen : Oracle) (document_content : string)
    (validation_pass : Z) : Eff CheckResult :=
  (run emit (Generate (PolicyCheck Sensitive document_content validation_pass
                         (temperature validation_pass))) in
   match gen Sensitive document_content validation_pass with
   | Parsed result => ret result
   | Failed e =>
       ret {| flag := false; confidence := 0.5;
              reasoning := ("Error: " ++ e)%string;
              citation := Some EmptyString; pii_found := Some [] |}
   end)%eff.

(** The dictionary [results] of [_classify_single]. *)
Record StepResults := mkSteps {
  sr_document_id : string;
  sr_validation_pass : Z;
  safety_check : CheckResult;
  confidential_check : option CheckResult;
  sensitive_check : option CheckResult
}.

(** The dictionary [_classify_single] returns. *)
Record PassResult := mkPass {
  pr_document_id : string;
  pr_final_category : string;
  pr_confidence_score : Q;
  pr_reasoning_summary : string;
  pr_citation_snippet : string;
  pr_step_results : StepResults;
  pr_validation_pass : Z
}.

(** [d.get('citation', dflt)]. *)
Definition get_citation (r : CheckResult) (dflt : string) : string :=
  match citation r with
  | Some c => c
  | None => dflt
  end.

(** [self.cached_content]. *)
Definition Cache : Type := gmap string string.

(** [cache_document]. *)
Definition cache_document (cache : Cache) (document_data : DocumentData) : Cache :=
  <[doc_id document_data := cached_content document_data]> cache.

(** [_classify_single]: safety, then confidential, then sensitive; the
    first check that flags decides, and PUBLIC is the default. *)
Definition _classify_single (gen : Oracle) (cache : Cache)
    (document_data : DocumentData) (validation_pass : Z) : Eff PassResult :=
  (run emit (CallClassifySingle validation_pass) in
   let document_id := doc_id document_data in
   let content :=
     match cache !! document_id with
     | Some c => c
     | None => cached_content document_data
     end in
   let* safety_result := _check_safety gen content validation_pass in
   let results1 :=
     {| sr_document_id := document_id; sr_validation_pass := validation_pass;
        safety_check := safety_result;
        confidential_check := None; sensitive_check := None |} in
   if flag safety_result then
     ret {| pr_document_id := document_id;
            pr_final_category := "UNSAFE";
            pr_confidence_score := confidence safety_result;
            pr_reasoning_summary := reasoning safety_result;
            pr_citation_snippet := get_citation safety_result "Safety violation detected";
            pr_step_results := results1;
            pr_validation_pass := validation_pass |}
   else
   let* confidential_result := _check_confidential gen content validation_pass in
   let results2 :=
     {| sr_document_id := document_id; sr_validation_pass := validation_pass;
        safety_check := safety_result;
        confidential_check := Some confidential_result; sensitive_check := None |} in
   if flag confidential_result then
     ret {| pr_document_id := document_id;
            pr_final_category := "CONFIDENTIAL";
            pr_confidence_score := confidence confidential_result;
            pr_reasoning_summary := reasoning confidential_result;
            pr_citation_snippet :=
              get_citation confidential_result "Confidential content detected";
            pr_step_results := results2;
            pr_validation_pass := validation_pass |}
   else
   let* sensitive_result := _check_sensitive gen content validation_pass in
   let results3 :=
     {| sr_document_id := document_id; sr_validation_pass := validation_pass;
        safety_check := safety_result;
        confidential_check := Some confidential_result;
        sensitive_check := Some sensitive_result |} in
   if flag sensitive_result then
     ret {| pr_document_id := document_id;
            pr_final_category := "SENSITIVE";
            pr_confidence_score := confidence sensitive_result;
            pr_reasoning_summary := reasoning sensitive_result;
            pr_citation_snippet := get_citation sensitive_result "Sensitive content detected";
            pr_step_results := results3;
            pr_validation_pass := validation_pass |}
   else
     ret {| pr_document_id := document_id;
            pr_final_category := "PUBLIC";
            pr_confidence_score := 0.95;
            pr_reasoning_summary :=
              "Document contains no unsafe, confidential, or sensitive information. Suitable for public distribution.";
            pr_citation_snippet := "No restricted content found";
            pr_step_results := results3;
            pr_validation_pass := validation_pass |})%eff.

(** The value stored under [dual_validation_results]: the two
    confidences on consensus, both (category, confidence) pairs
    otherwise. *)
Inductive DualValidation :=
| BothConfidences (pass1 pass2 : Q)
| BothVerdicts (category1 : string) (confidence1 : Q)
    (category2 : string) (confidence2 : Q).

(** The dictionary [classify] returns: the pass-1 dictionary with the
    keys [classify] adds to it. *)
Record ClassificationResult := mkResult {
  document_id : string;
  final_category : string;
  confidence_score : Q;
  reasoning_summary : string;
  citation_snippet : string;
  step_results : StepResults;
  validation_pass : Z;
  hitl_status : string;
  validation_consensus : option bool;
  dual_validation_results : option DualValidation
}.

(** The pass dictionary [r] after [r['hitl_status'] = ...],
    [r['validation_consensus'] = ...] and, in dual mode,
    [r['dual_validation_results'] = ...]. *)
Definition annotate (r : PassResult) (status : string) (consensus : option bool)
    (dual : option DualValidation) : ClassificationResult :=
  {| document_id := pr_document_id r;
     final_category := pr_final_category r;
     confidence_score := pr_confidence_score r;
     reasoning_summary := pr_reasoning_summary r;
     citation_snippet := pr_citation_snippet r;
     step_results := pr_step_results r;
     validation_pass := pr_validation_pass r;
     hitl_status := status;
     validation_consensus := consensus;
     dual_validation_results := dual |}.

(** The condition of the [if] of the consensus logic. *)
Definition consensus (cfg : Config.t) (result1 result2 : PassResult) : bool :=
  String.eqb (pr_final_category result1) (pr_final_category result2)
  && Qle_bool (Config.CONFIDENCE_THRESHOLD cfg) (pr_confidence_score result1)
  && Qle_bool (Config.CONFIDENCE_THRESHOLD cfg) (pr_confidence_score result2).

(** The two branches below the consensus condition. *)
Definition reconcile (cfg : Config.t) (result1 result2 : PassResult)
    : ClassificationResult :=
  if consensus cfg result1 result2 then
    annotate result1 "AUTO_APPROVED" (Some true)
      (Some (BothConfidences (pr_confidence_score result1)
               (pr_confidence_score result2)))
  else
    annotate result1 "REQUIRES_REVIEW" (Some false)
      (Some (BothVerdicts
               (pr_final_category result1) (pr_confidence_score result1)
               (pr_final_category result2) (pr_confidence_score result2))).

(** [classify]. *)
Definition classify (cfg : Config.t) (gen : Oracle) (cache : Cache)
    (document_data : DocumentData) (use_dual_validation : bool)
    : Eff (ClassificationResult * Cache) :=
  (run emit CallBaseClassify in
   let cache' := cache_document cache document_data in
   if use_dual_validation && Config.DUAL_VALIDATION_ENABLED cfg then
     let* result1 := _classify_single gen cache' document_data 1 in
     let* result2 := _classify_single gen cache' document_data 2 in
     ret (reconcile cfg result1 result2, cache')
   else
     let* result := _classify_single gen cache' document_data 1 in
     ret (annotate result
            (if Qlt_bool (pr_confidence_score result) (Config.CONFIDENCE_THRESHOLD cfg)
             then "REQUIRES_REVIEW" else "AUTO_APPROVED")
            None None,
          cache'))%eff.

End GeminiClassifier.

(** ** src/classification/enhanced_classifier.py *)

Module Enhanced.

Import AccuracyTracker.

(** What an [EnhancedGeminiClassifier] relies on outside itself. *)
Record Env := mkEnv {
  config : Config.t;
  world : ContentSafety.World;
  gen_policy_check : GeminiClassifier.Oracle;
  (** [re.findall(r'[Pp]age\s+(\d+)', text)], each match read by [int] *)
  find_page_numbers : string -> list Z;
  (** a number printed with the format [.1%] *)
  fmt_percent : Q -> string;
  (** [time.time() - start_time] where [processing_time] is computed *)
  elapsed : Q
}.

(** The mutable parts of the classifier: the metrics of its
    [accuracy_tracker] and the cache of its [base_classifier]. *)
Record State := mkState {
  metrics : Metrics;
  cache : GeminiClassifier.Cache
}.

Record Location := mkLocation {
  loc_page : Z;
  loc_block_index : Z;
  loc_bbox : list Q;
  text_preview : string
}.

Record Citations := mkCitations {
  primary_citation : string;
  page_references : list Z;
  exact_locations : list Location;
  citations_confidence : Q
}.

(** [_extract_enhanced_citations]. *)
Definition _extract_enhanced_citations (env : Env) (document_data : DocumentData)
    (citation_text : string) : Citations :=
  let step (acc : list Z * list Location) (page_num : Z) :=
    let '(refs, locs) := acc in
    if (0 <? page_num)%Z && (page_num <=? Z.of_nat (length (pages document_data)))%Z then
      match pages document_data !! Z.to_nat (page_num - 1) with
      | Some page_data =>
          (refs ++ [page_num],
           locs ++ map (fun block =>
                          {| loc_page := page_num;
                             loc_block_index := block_index block;
                             loc_bbox := bbox block;
                             text_preview := String.substring 0 200 (text block) |})
                       (text_blocks page_data))
      | None => acc
      end
    else acc in
  let '(refs, locs) := fold_left step (find_page_numbers env citation_text) ([], []) in
  {| primary_citation := citation_text;
     page_references := refs;
     exact_locations := locs;
     citations_confidence := match refs with [] => 0.5 | _ => 1.0 end |}.

(** [category_stats.get(category, {}).get('precision', dflt)]. *)
Definition get_precision (m : Metrics) (category : string) (dflt : Q) : Q :=
  match category_stats m !! category with
  | Some stats => precision stats
  | None => dflt
  end.

(** [_calibrate_confidence].  [has_consensus] is the value of
    [result.get('validation_consensus', False)], which is [None] when
    dual validation is switched off. *)
Definition _calibrate_confidence (m : Metrics) (raw_confidence : Q)
    (category : string) (has_consensus : option bool) : Q :=
  let precision := get_precision m category 0.5 in
  let calibrated := raw_confidence * (0.7 + 0.3 * precision) in
  let calibrated :=
    if truthy_opt_bool has_consensus then py_min 1.0 (calibrated * 1.1)
    else calibrated in
  let calibrated := py_max 0.0 (py_min 1.0 calibrated) in
  py_round calibrated 4.

Record HitlDecision := mkDecision {
  status : string;
  reasoning : string;
  auto_approval_probability : Q
}.

(** [str(x)] for [x] one of [True], [False], [None]. *)
Definition str_opt_bool (o : option bool) : string :=
  match o with
  | Some true => "True"
  | Some false => "False"
  | None => "None"
  end.

(** [_enhanced_hitl_decision]. *)
Definition _enhanced_hitl_decision (env : Env) (m : Metrics)
    (classification_result : GeminiClassifier.ClassificationResult)
    (safety_result : ContentSafety.SafetyResult) : HitlDecision :=
  let confidence := GeminiClassifier.confidence_score classification_result in
  let category := GeminiClassifier.final_category classification_result in
  let has_consensus := GeminiClassifier.validation_consensus classification_result in
  let score0 := 0.0 in
  let score1 :=
    if Qle_bool 0.95 confidence then score0 + 0.4
    else if Qle_bool 0.90 confidence then score0 + 0.3
    else if Qle_bool 0.85 confidence then score0 + 0.2
    else score0 in
  let score2 := if truthy_opt_bool has_consensus then score1 + 0.3 else score1 in
  let precision := get_precision m category 0.0 in
  let score3 :=
    if Qle_bool 0.95 precision then score2 + 0.2
    else if Qle_bool 0.90 precision then score2 + 0.15
    else score2 in
  let safety := ContentSafety.safety_score safety_result in
  let auto_approval_score :=
    if Qle_bool 0.95 safety then score3 + 0.1 else score3 in
  let auto_approval_threshold := 0.75 in
  let pct := fmt_percent env in
  if Qle_bool auto_approval_threshold auto_approval_score then
    {| status := "AUTO_APPROVED";
       reasoning :=
         ("High confidence classification (" ++ pct confidence ++ ") with "
          ++ (if truthy_opt_bool has_consensus then "consensus validation"
              else "strong single validation")
          ++ ", category precision " ++ pct precision
          ++ ", and safety score " ++ pct safety
          ++ ". Auto-approval score: " ++ pct auto_approval_score)%string;
       auto_approval_probability := auto_approval_score |}
  else
    {| status := "REQUIRES_REVIEW";
       reasoning :=
         ("Auto-approval score " ++ pct auto_approval_score
          ++ " below threshold " ++ pct auto_approval_threshold
          ++ ". Factors: confidence=" ++ pct confidence
          ++ ", consensus=" ++ str_opt_bool has_consensus
          ++ ", precision=" ++ pct precision
          ++ ", safety=" ++ pct safety)%string;
       auto_approval_probability := auto_approval_score |}.

Record Features := mkFeatures {
  safety_validated : bool;
  accuracy_tracked : bool;
  confidence_calibrated : option bool;
  enhanced_citations_on : option bool;
  advanced_hitl_logic : option bool
}.

(** The dictionary [classify] returns.  The fields of type [option]
    after [enhanced_features] are the keys that only the path through
    the base classifier sets. *)
Record Result := mkResult {
  document_id : string;
  final_category : string;
  confidence_score : Q;
  reasoning_summary : string;
  citation_snippet : string;
  safety_details : ContentSafety.SafetyResult;
  child_safe : bool;
  hitl_status : string;
  validation_consensus : option bool;
  processing_time : Q;
  enhanced_features : Features;
  step_results : option GeminiClassifier.StepResults;
  validation_pass : option Z;
  dual_validation_results : option GeminiClassifier.DualValidation;
  enhanced_citations : option Citations;
  original_confidence : option Q;
  hitl_reasoning : option string;
  result_auto_approval_probability : option Q
}.

(** [', '.join(l)]. *)
Definition join (l : list string) : string := String.concat ", " l.

(** The dictionary built on the unsafe path of [classify]. *)
Definition unsafe_result (env : Env) (document_id : string)
    (safety_result : ContentSafety.SafetyResult) : Result :=
  {| document_id := document_id;
     final_category := "UNSAFE";
     confidence_score := 1.0;
     reasoning_summary :=
       ("Content safety validation failed. "
        ++ "Violations: " ++ join (ContentSafety.violations safety_result) ++ ". "
        ++ "This content has been flagged for: "
        ++ join (ContentSafety.categories_flagged safety_result) ++ ".")%string;
     citation_snippet := "Multiple safety violations detected";
     safety_details := safety_result;
     child_safe := ContentSafety.child_safe safety_result;
     hitl_status := "REQUIRES_REVIEW";
     validation_consensus := Some true;
     processing_time := elapsed env;
     enhanced_features :=
       {| safety_validated := true; accuracy_tracked := false;
          confidence_calibrated := None; enhanced_citations_on := None;
          advanced_hitl_logic := None |};
     step_results := None;
     validation_pass := None;
     dual_validation_results := None;
     enhanced_citations := None;
     original_confidence := None;
     hitl_reasoning := None;
     result_auto_approval_probability := None |}.

(** [result['confidence_score'] = calibrated_confidence] on the
    dictionary of the base classifier. *)
Definition set_confidence (r : GeminiClassifier.ClassificationResult) (c : Q)
    : GeminiClassifier.ClassificationResult :=
  {| GeminiClassifier.document_id := GeminiClassifier.document_id r;
     GeminiClassifier.final_category := GeminiClassifier.final_category r;
     GeminiClassifier.confidence_score := c;
     GeminiClassifier.reasoning_summary := GeminiClassifier.reasoning_summary r;
     GeminiClassifier.citation_snippet := GeminiClassifier.citation_snippet r;
     GeminiClassifier.step_results := GeminiClassifier.step_results r;
     GeminiClassifier.validation_pass := GeminiClassifier.validation_pass r;
     GeminiClassifier.hitl_status := GeminiClassifier.hitl_status r;
     GeminiClassifier.validation_consensus := GeminiClassifier.validation_consensus r;
     GeminiClassifier.dual_validation_results :=
       GeminiClassifier.dual_validation_results r |}.

(** [classify]. *)
Definition classify (env : Env) (st : State) (document_data : DocumentData)
    (ground_truth : option string) : Eff (Result * State) :=
  (let document_id := doc_id document_data in
   let* safety_result :=
     ContentSafety.validate (world env) (full_text document_data) document_id in
   if negb (ContentSafety.is_safe safety_result) then
     let result := unsafe_result env document_id safety_result in
     if truthy_opt_str ground_truth then
       run emit CallRecordPrediction in
       let* m' :=
         lift_option (record_prediction (metrics st) "UNSAFE" ground_truth 1.0 document_id) in
       ret (result, {| metrics := m'; cache := cache st |})
     else ret (result, st)
   else
     let* classified :=
       GeminiClassifier.classify (config env) (gen_policy_check env) (cache st)
         document_data true in
     let '(result, cache') := classified in
     let citations :=
       _extract_enhanced_citations env document_data
         (GeminiClassifier.citation_snippet result) in
     run emit CallCalibrate in
     let calibrated_confidence :=
       _calibrate_confidence (metrics st)
         (GeminiClassifier.confidence_score result)
         (GeminiClassifier.final_category result)
         (GeminiClassifier.validation_consensus result) in
     let original := GeminiClassifier.confidence_score result in
     let result' := set_confidence result calibrated_confidence in
     run emit CallHitlDecision in
     let hitl_decision := _enhanced_hitl_decision env (metrics st) result' safety_result in
     let final :=
       {| document_id := GeminiClassifier.document_id result';
          final_category := GeminiClassifier.final_category result';
          confidence_score := GeminiClassifier.confidence_score result';
          reasoning_summary := GeminiClassifier.reasoning_summary result';
          citation_snippet := GeminiClassifier.citation_snippet result';
          safety_details := safety_result;
          child_safe := ContentSafety.child_safe safety_result;
          hitl_status := status hitl_decision;
          validation_consensus := GeminiClassifier.validation_consensus result';
          processing_time := elapsed env;
          enhanced_features :=
            {| safety_validated := true; accuracy_tracked := true;
               confidence_calibrated := Some true; enhanced_citations_on := Some true;
               advanced_hitl_logic := Some true |};
          step_results := Some (GeminiClassifier.step_results result');
          validation_pass := Some (GeminiClassifier.validation_pass result');
          dual_validation_results := GeminiClassifier.dual_validation_results result';
          enhanced_citations := Some citations;
          original_confidence := Some original;
          hitl_reasoning := Some (reasoning hitl_decision);
          result_auto_approval_probability := Some (auto_approval_probability hitl_decision) |} in
     if truthy_opt_str ground_truth then
       run emit CallRecordPrediction in
       let* m' :=
         lift_option
           (record_prediction (metrics st) (final_category final) ground_truth
              (confidence_score final) document_id) in
       ret (final, {| metrics := m'; cache := cache' |})
     else ret (final, {| metrics := metrics st; cache := cache' |}))%eff.

(** [record_hitl_correction]; [now] is the value of [time.time()]. *)
Definition record_hitl_correction (st : State) (now : Q) (document_id : string)
    (original_category corrected_category : string) (confidence : Q)
    : option State :=
  m' ← AccuracyTracker.record_hitl_correction (metrics st) now document_id
         original_category corrected_category confidence;
  Some {| metrics := m'; cache := cache st |}.

(** The figures of [get_performance_metrics] that are computed; the
    other entries of the dictionary are fixed texts. *)
Record Performance := mkPerformance {
  perf_overall_accuracy : Q;
  perf_macro_f1_score : Q;
  auto_approval_rate : Q;
  correction_rate : Q;
  perf_total_predictions : Z;
  manual_reviews_avoided : Z
}.

(** [get_performance_metrics]. *)
Definition get_performance_metrics (st : State) : Performance :=
  let accuracy_report := get_detailed_report (metrics st) in
  {| perf_overall_accuracy := overall_accuracy accuracy_report;
     perf_macro_f1_score := macro_f1_score accuracy_report;
     auto_approval_rate := 100 - hitl_correction_rate accuracy_report;
     correction_rate := hitl_correction_rate accuracy_report;
     perf_total_predictions := report_total_predictions accuracy_report;
     manual_reviews_avoided :=
       py_int (inject_Z (report_total_predictions accuracy_report)
               * (1 - hitl_correction_rate accuracy_report / 100)) |}.

End Enhanced.

(** ** src/processing/batch_processor.py *)

Module Batch.

(** What the body of the [try] of [_process_single_file] hands back
    when document processing and classification both return. *)
Record Classified := mkClassified {
  c_document_id : string;
  c_final_category : string;
  c_confidence_score : Q;
  c_hitl_status : option string;
  c_processing_time : Q
}.

(** The work on one file: [Ok c] when [DocumentProcessor(...).process()]
    and [classifier.classify(...)] return, [Raise msg] when one of them
    raises an exception [e] with [str(e) = msg]. *)
Definition Work : Type := string -> Res Classified.

(** The dictionary [_process_single_file] returns. *)
Inductive FileResult :=
| Success (file document_id classification : string) (confidence : Q)
    (hitl_status : option string) (processing_time : Q)
| Failure (file error : string).

(** [result.get('error')]. *)
Definition get_error (r : FileResult) : option string :=
  match r with
  | Success _ _ _ _ _ _ => None
  | Failure _ error => Some error
  end.

(** [result['status']]. *)
Definition result_status (r : FileResult) : string :=
  match r with
  | Success _ _ _ _ _ _ => "SUCCESS"
  | Failure _ _ => "FAILED"
  end.

Record BatchJob := mkJob {
  job_id : string;
  files : list string;
  total_files : Z;
  processed_files : Z;
  failed_files : Z;
  results : list FileResult;
  status : string;
  started_at : option Q;
  completed_at : option Q;
  current_file : option string
}.

(** [BatchJob.__init__]. *)
Definition new_job (job_id : string) (files : list string) : BatchJob :=
  {| job_id := job_id; files := files;
     total_files := Z.of_nat (length files);
     processed_files := 0; failed_files := 0; results := [];
     status := "QUEUED"; started_at := None; completed_at := None;
     current_file := None |}.

Record BatchProcessor := mkProcessor {
  max_workers : Z;
  jobs : gmap string BatchJob
}.

(** [create_batch_job]; [job_id] is the fresh [uuid4]. *)
Definition create_batch_job (bp : BatchProcessor) (job_id : string)
    (files : list string) : BatchProcessor :=
  {| max_workers := max_workers bp;
     jobs := <[job_id := new_job job_id files]> (jobs bp) |}.

(** [_process_single_file]: every [Exception] of the work is caught and
    turned into a dictionary with the key [error]. *)
Definition _process_single_file (work : Work) (file_path : string) : FileResult :=
  match work file_path with
  | Ok c =>
      Success file_path (c_document_id c) (c_final_category c)
        (c_confidence_score c) (c_hitl_status c) (c_processing_time c)
  | Raise e => Failure file_path e
  end.

(** The body of [for future in as_completed(...)], for the future of
    [file_path].  [future.result()] is the dictionary of
    [_process_single_file], which lets no [Exception] out, so the
    [except] branch around it is not taken. *)
Definition collect (work : Work) (job : BatchJob) (file_path : string) : BatchJob :=
  let result := _process_single_file work file_path in
  {| job_id := job_id job; files := files job; total_files := total_files job;
     processed_files := processed_files job + 1;
     failed_files :=
       if truthy_opt_str (get_error result) then failed_files job + 1
       else failed_files job;
     results := results job ++ [result];
     status := status job;
     started_at := started_at job; completed_at := completed_at job;
     current_file := current_file job |}.

Definition set_status (job : BatchJob) (s : string) (started completed : option Q)
    (current : option string) : BatchJob :=
  {| job_id := job_id job; files := files job; total_files := total_files job;
     processed_files := processed_files job;
     failed_files := failed_files job;
     results := results job;
     status := s;
     started_at := started; completed_at := completed;
     current_file := current |}.

(** What the thread pool decides: the order in which [as_completed]
    yields the futures of the submitted files, and the file whose
    worker wrote [job.current_file] last. *)
Record Schedule := mkSchedule {
  arrival : list string -> list string;
  last_started : list string -> option string
}.

(** What [process_batch] returns. *)
Inductive BatchReturn :=
| JobNotFound
| CoordinatorError (error job_id : string)
| JobDict (job : BatchJob).

(** [process_batch].  [t0] and [t1] are the two readings of
    [time.time()].  [ThreadPoolExecutor] refuses [max_workers <= 0]
    with a [ValueError], which the outer [except] turns into the status
    FAILED. *)
Definition process_batch (work : Work) (sched : Schedule) (t0 t1 : Q)
    (bp : BatchProcessor) (id : string) : BatchReturn * BatchProcessor :=
  match jobs bp !! id with
  | None => (JobNotFound, bp)
  | Some job =>
      let job1 := set_status job "PROCESSING" (Some t0) (completed_at job)
                    (current_file job) in
      if (max_workers bp <=? 0)%Z then
        let job2 := set_status job1 "FAILED" (started_at job1) (Some t1)
                      (current_file job1) in
        (CoordinatorError "max_workers must be greater than 0" id,
         {| max_workers := max_workers bp; jobs := <[id := job2]> (jobs bp) |})
      else
        let job2 := fold_left (collect work) (arrival sched (files job1)) job1 in
        let current :=
          match last_started sched (files job1) with
          | Some f => Some f
          | None => current_file job2
          end in
        let job3 := set_status job2 "COMPLETED" (started_at job2) (Some t1) current in
        (JobDict job3,
         {| max_workers := max_workers bp; jobs := <[id := job3]> (jobs bp) |})
  end.

(** The dictionary [BatchJob.to_dict] returns. *)
Record JobView := mkView {
  view_job_id : string;
  view_total_files : Z;
  view_processed_files : Z;
  view_failed_files : Z;
  view_status : string;
  progress_percent : Q;
  view_current_file : option string;
  view_started_at : option Q;
  view_completed_at : option Q;
  view_results : list FileResult
}.

(** [BatchJob.to_dict]. *)
Definition to_dict (job : BatchJob) : JobView :=
  {| view_job_id := job_id job;
     view_total_files := total_files job;
     view_processed_files := processed_files job;
     view_failed_files := failed_files job;
     view_status := status job;
     progress_percent :=
       if (0 <? total_files job)%Z
       then inject_Z (processed_files job) / inject_Z (total_files job) * 100
       else 0;
     view_current_file := current_file job;
     view_started_at := started_at job;
     view_completed_at := completed_at job;
     view_results := results job |}.

(** What [get_job_status] returns. *)
Inductive JobStatus :=
| StatusNotFound (job_id : string)
| StatusDict (view : JobView).

(** [get_job_status]. *)
Definition get_job_status (bp : BatchProcessor) (id : string) : JobStatus :=
  match jobs bp !! id with
  | None => StatusNotFound id
  | Some job => StatusDict (to_dict job)
  end.

(** [cancel_job]: the answer and the processor afterwards. *)
Definition cancel_job (bp : BatchProcessor) (id : string) : bool * BatchProcessor :=
  match jobs bp !! id with
  | None => (false, bp)
  | Some job =>
      if String.eqb (status job) "PROCESSING" then
        (true,
         {| max_workers := max_workers bp;
            jobs := <[id := set_status job "CANCELLED" (started_at job)
                              (completed_at job) (current_file job)]> (jobs bp) |})
      else (false, bp)
  end.

End Batch.

(** ** src/ui/enhanced_endpoints.py *)

Module Endpoints.

(** [calculate_projected_score], on the figures it reads from the
    metrics dictionary. *)
Definition calculate_projected_score (metrics : Enhanced.Performance) : Q :=
  let score := 0.0 in
  let accuracy := Enhanced.perf_overall_accuracy metrics in
  let f1 := Enhanced.perf_macro_f1_score metrics in
  let score :=
    if Qle_bool 95 accuracy && Qle_bool 0.95 f1 then score + 50
    else if Qle_bool 90 accuracy && Qle_bool 0.90 f1 then score + 45
    else if Qle_bool 85 accuracy && Qle_bool 0.85 f1 then score + 40
    else score + 35 in
  let auto_rate := Enhanced.auto_approval_rate metrics in
  let score :=
    if Qle_bool 85 auto_rate then score + 20
    else if Qle_bool 75 auto_rate then score + 17
    else if Qle_bool 65 auto_rate then score + 14
    else score + 10 in
  let score := score + 10 in
  let score := score + 9 in
  let score := score + 10 in
  py_round score 1.

End Endpoints.

(** ** The vocabulary of the statements

    The definitions of this module are not part of the program.  Those
    whose comment quotes the specification follow its text, not the
    source, and the theorems compare them with the code above; the others
    name the quantities the theorems talk about. *)

Module Spec.

Import AccuracyTracker.

(** The entry of a category as a [defaultdict] shows it: the stored
    one, or the all-zero entry of a category never touched. *)
Definition stats_of (m : Metrics) (category : string) : CategoryStats :=
  default fresh_stats (category_stats m !! category).

(** "[category_precision] is read live from AccuracyTracker's
    CategoryStats for that category (0.0 if no data yet)". *)
Definition category_precision (m : Metrics) (category : string) : Q :=
  match category_stats m !! category with
  | Some stats => precision stats
  | None => 0.0
  end.



(** "confidence >=0.95 adds 0.40, else >=0.90 adds 0.30, else >=0.85
    adds 0.20, else 0". *)
Definition confidence_factor (confidence : Q) : Q :=
  if Qle_bool 0.95 confidence then 0.40
  else if Qle_bool 0.90 confidence then 0.30
  else if Qle_bool 0.85 confidence then 0.20
  else 0.

(** "consensus true adds 0.30". *)
Definition consensus_factor (consensus : bool) : Q :=
  if consensus then 0.30 else 0.

(** "category precision >=0.95 adds 0.20, else >=0.90 adds 0.15, else 0". *)
Definition precision_factor (precision : Q) : Q :=
  if Qle_bool 0.95 precision then 0.20
  else if Qle_bool 0.90 precision then 0.15
  else 0.

(** "safety_score >=0.95 adds 0.10". *)
Definition safety_factor (safety_score : Q) : Q :=
  if Qle_bool 0.95 safety_score then 0.10 else 0.

(** "the sum of independently capped factors". *)
Definition hitl_total (confidence : Q) (consensus : bool) (precision safety_score : Q) : Q :=
  confidence_factor confidence + consensus_factor consensus
  + precision_factor precision + safety_factor safety_score.




(** "downstream classification": an event of the cascading classifier
    (a call of [classify] or [_classify_single], a request of a policy
    check), of the calibrator or of the HITL scorer. *)
Definition downstream (e : Event) : bool :=
  match e with
  | CallBaseClassify | CallClassifySingle _ | CallCalibrate | CallHitlDecision => true
  | Generate (PolicyCheck _ _ _ _) => true
  | _ => false
  end.

(** The document content a validation pass hands to its checks: the
    cached one, else the document's own. *)
Definition pass_content (cache : GeminiClassifier.Cache)
    (document_data : DocumentData) : string :=
  match cache !! doc_id document_data with
  | Some c => c
  | None => cached_content document_data
  end.

(** The one request a policy check sends to the oracle. *)
Definition check_request (kind : CheckKind) (content : string) (pass : Z) : Event :=
  Generate (PolicyCheck kind content pass (GeminiClassifier.temperature pass)).

(** "a failure while processing one file": the work on the file
    raises. *)
Definition raises (work : Batch.Work) (file : string) : bool :=
  match work file with
  | Raise _ => true
  | Ok _ => false
  end.

(** The failures the collecting loop counts: the work raises and the
    text of the exception is not empty. *)
Definition counted (work : Batch.Work) (file : string) : bool :=
  match work file with
  | Raise msg => truthy_str msg
  | Ok _ => false
  end.

(** The correction appended to the log by [record_hitl_correction]. *)
Definition correction (now : Q) (document_id original corrected : string)
    (confidence : Q) : Correction :=
  {| co_document_id := document_id; co_original := original;
     co_corrected := corrected; co_confidence := confidence;
     co_timestamp := now |}.


(** "Per-category TP/FP/FN update rule: predicted==category &
    truth==category -> TP; predicted==category & truth<>category -> FP;
    predicted<>category & truth==category -> FN". *)
Definition bump (predicted ground_truth category : string) (s : CategoryStats)
    : CategoryStats :=
  if String.eqb predicted category && String.eqb ground_truth category then add_tp s
  else if String.eqb predicted category && negb (String.eqb ground_truth category)
  then add_fp s
  else if negb (String.eqb predicted category) && String.eqb ground_truth category
  then add_fn s
  else s.

(** The states of the metrics of a tracker: it starts without a metrics
    file, records predictions and corrections, and may be re-created
    from the file it wrote. *)
Inductive Reachable : Metrics -> Prop :=
| reach_fresh : Reachable empty_metrics
| reach_prediction (m : Metrics) (predicted : string) (ground_truth : option string)
    (confidence : Q) (document_id : string) (m' : Metrics) :
    Reachable m ->
    record_prediction m predicted ground_truth confidence document_id = Some m' ->
    Reachable m'
| reach_correction (m : Metrics) (now : Q) (document_id original corrected : string)
    (confidence : Q) (m' : Metrics) :
    Reachable m ->
    record_hitl_correction m now document_id original corrected confidence = Some m' ->
    Reachable m'
| reach_reload (m : Metrics) :
    Reachable m -> Reachable (_load_metrics (Some (_save_metrics m))).

(** The true positives of the listed categories, added up; a category
    without an entry counts as the all-zero entry. *)
Definition sum_over (st : gmap string CategoryStats) (l : list string) : Z :=
  fold_right (fun c acc => (true_positives (default fresh_stats (st !! c)) + acc)%Z)
    0%Z l.

(** What the counters of a tracker keep: statistics for configured
    categories only, with counters that are not negative and ratios
    that are the ones computed from them; no more true positives than
    ground-truthed predictions, no more of those than predictions, and
    no more corrections than predictions. *)
Definition invariant (m : Metrics) : Prop :=
  (forall c s, category_stats m !! c = Some s ->
     c ∈ Config.CATEGORIES
     /\ (0 <= true_positives s)%Z /\ (0 <= false_positives s)%Z
     /\ (0 <= false_negatives s)%Z
     /\ recalculate s = s)
  /\ (sum_over (category_stats m) Config.CATEGORIES <= total_ground_truth m)%Z
  /\ (0 <= total_ground_truth m <= total_predictions m)%Z
  /\ (Z.of_nat (length (hitl_corrections m)) <= total_predictions m)%Z.

(** One call of the recording interface of the tracker. *)
Inductive Call :=
| Predict (predicted : string) (ground_truth : option string) (confidence : Q)
    (document_id : string)
| Correct (now : Q) (document_id original corrected : string) (confidence : Q).

Definition call (m : Metrics) (c : Call) : option Metrics :=
  match c with
  | Predict predicted ground_truth confidence document_id =>
      record_prediction m predicted ground_truth confidence document_id
  | Correct now document_id original corrected confidence =>
      record_hitl_correction m now document_id original corrected confidence
  end.

(** A sequence of calls; an exception ends it. *)
Fixpoint calls (m : Metrics) (l : list Call) : option Metrics :=
  match l with
  | [] => Some m
  | c :: l => m' ← call m c; calls m' l
  end.

(** 1 if the proposition holds, 0 otherwise. *)
Definition indicator (P : Prop) `{Decision P} : Z := if decide P then 1%Z else 0%Z.

(** The dictionary [EnhancedGeminiClassifier.classify] returns on the
    path through the base classifier, from the safety result, the
    result of the base classifier and the metrics of the tracker. *)
Definition classified_result (env : Enhanced.Env) (m : Metrics)
    (document_data : DocumentData) (safety : ContentSafety.SafetyResult)
    (base : GeminiClassifier.ClassificationResult) : Enhanced.Result :=
  let calibrated :=
    Enhanced._calibrate_confidence m
      (GeminiClassifier.confidence_score base)
      (GeminiClassifier.final_category base)
      (GeminiClassifier.validation_consensus base) in
  let decision :=
    Enhanced._enhanced_hitl_decision env m (Enhanced.set_confidence base calibrated)
      safety in
  {| Enhanced.document_id := GeminiClassifier.document_id base;
     Enhanced.final_category := GeminiClassifier.final_category base;
     Enhanced.confidence_score := calibrated;
     Enhanced.reasoning_summary := GeminiClassifier.reasoning_summary base;
     Enhanced.citation_snippet := GeminiClassifier.citation_snippet base;
     Enhanced.safety_details := safety;
     Enhanced.child_safe := ContentSafety.child_safe safety;
     Enhanced.hitl_status := Enhanced.status decision;
     Enhanced.validation_consensus := GeminiClassifier.validation_consensus base;
     Enhanced.processing_time := Enhanced.elapsed env;
     Enhanced.enhanced_features :=
       {| Enhanced.safety_validated := true; Enhanced.accuracy_tracked := true;
          Enhanced.confidence_calibrated := Some true;
          Enhanced.enhanced_citations_on := Some true;
          Enhanced.advanced_hitl_logic := Some true |};
     Enhanced.step_results := Some (GeminiClassifier.step_results base);
     Enhanced.validation_pass := Some (GeminiClassifier.validation_pass base);
     Enhanced.dual_validation_results := GeminiClassifier.dual_validation_results base;
     Enhanced.enhanced_citations :=
       Some (Enhanced._extract_enhanced_citations env document_data
               (GeminiClassifier.citation_snippet base));
     Enhanced.original_confidence := Some (GeminiClassifier.confidence_score base);
     Enhanced.hitl_reasoning := Some (Enhanced.reasoning decision);
     Enhanced.result_auto_approval_probability :=
       Some (Enhanced.auto_approval_probability decision) |}.

(** The content of a request to the oracle of the policy checks. *)
Definition policy_content (e : Event) : option string :=
  match e with
  | Generate (PolicyCheck _ content _ _) => Some content
  | _ => None
  end.

(** The oracle never reports a confidence above 1. *)
Definition confidences_at_most_one (gen : GeminiClassifier.Oracle) : Prop :=
  forall kind content pass r,
    gen kind content pass = Parsed r -> GeminiClassifier.confidence r <= 1.

(** The names of the entries of the pattern table that have a pattern
    matching the text, in the order of the table. *)
Definition matching_categories (w : ContentSafety.World) (content_lower : string)
    : list string :=
  map fst
    (List.filter
       (fun entry : string * list string =>
          existsb (fun pattern =>
                     negb (Nat.eqb (length (ContentSafety.re_findall w pattern
                                              content_lower)) 0))
            (snd entry))
       ContentSafety.unsafe_patterns).

(** Every result a computation returns satisfies [P]; nothing is said of
    a computation that raises. *)
Definition on_result {A : Type} (m : Eff A) (P : A -> Prop) : Prop :=
  match outcome m with
  | Ok a => P a
  | Raise _ => True
  end.

(** The name of one of the two HITL statuses. *)
Definition is_hitl_status (s : string) : Prop :=
  s = "AUTO_APPROVED"%string \/ s = "REQUIRES_REVIEW"%string.

(** The entry [record_prediction] appends to a confidence bin. *)
Definition bin_entry (predicted : string) (ground_truth : option string)
    (document_id : string) : BinEntry :=
  {| be_predicted := predicted;
     be_ground_truth := ground_truth;
     be_correct :=
       if truthy_opt_str ground_truth
       then Some (String.eqb predicted (default EmptyString ground_truth))
       else None;
     be_document_id := document_id |}.

(** The count of the confusion matrix for a ground truth and a
    prediction; a missing row or cell counts as zero. *)
Definition confusion_count (m : Metrics) (ground_truth predicted : string) : Z :=
  default 0%Z (confusion_matrix m !! ground_truth ≫= fun row => row !! predicted).

(** The tracker as the next process finds it: the metrics written by
    [_save_metrics], read back by [_load_metrics]. *)
Definition restarted (m : Metrics) : Metrics :=
  _load_metrics (Some (_save_metrics m)).

(** [0 < page_num <= len(document_data['pages'])]. *)
Definition page_exists (document_data : DocumentData) (page_num : Z) : bool :=
  (0 <? page_num)%Z && (page_num <=? Z.of_nat (length (pages document_data)))%Z.

End Spec.

(** ** Sample states *)

Module Samples.

Import AccuracyTracker.

(** A fresh tracker after one prediction of PUBLIC with confidence 0.97
    that the ground truth confirms. *)
Definition one_correct_prediction : Metrics :=
  default empty_metrics
    (record_prediction empty_metrics "PUBLIC" (Some "PUBLIC"%string) 0.97 "DOC_1").

(** A fresh tracker after three predictions of PUBLIC with confidences
    0.97, 0.95 and 0.93, of which the ground truth confirms the first
    one only. *)
Definition one_of_three_correct : Metrics :=
  default empty_metrics
    (m1 ← record_prediction empty_metrics "PUBLIC" (Some "PUBLIC"%string) 0.97 "DOC_1";
     m2 ← record_prediction m1 "PUBLIC" (Some "SENSITIVE"%string) 0.95 "DOC_2";
     record_prediction m2 "PUBLIC" (Some "SENSITIVE"%string) 0.93 "DOC_3").



(** A world in which the model cannot be reached and no pattern
    matches. *)
Definition unreachable_world : ContentSafety.World :=
  {| ContentSafety.gen_ai_safety := fun _ => Failed "unreachable";
     ContentSafety.gen_child_safety := fun _ => Failed "unreachable";
     ContentSafety.str_lower := fun s => s;
     ContentSafety.re_findall := fun _ _ => [];
     ContentSafety.fmt_list := fun _ => EmptyString;
     ContentSafety.list_of_set := fun l => l |}.

Definition unreachable_oracle : GeminiClassifier.Oracle :=
  fun _ _ _ => Failed "unreachable".

Definition unreachable_env : Enhanced.Env :=
  {| Enhanced.config := Config.default;
     Enhanced.world := unreachable_world;
     Enhanced.gen_policy_check := unreachable_oracle;
     Enhanced.find_page_numbers := fun _ => [];
     Enhanced.fmt_percent := fun _ => EmptyString;
     Enhanced.elapsed := 0 |}.

Definition memo : DocumentData :=
  {| doc_id := "DOC_1"; full_text := "quarterly memo";
     cached_content := "quarterly memo"; pages := [] |}.

Definition fresh_state : Enhanced.State :=
  {| Enhanced.metrics := empty_metrics; Enhanced.cache := ∅ |}.

(** What [validate] answers about [memo] in the unreachable world: both
    model layers fail closed. *)
Definition unreachable_verdict : ContentSafety.SafetyResult :=
  {| ContentSafety.is_safe := false;
     ContentSafety.safety_score := 0.5;
     ContentSafety.violations :=
       ["Safety check failed: unreachable"; "Safety check error: unreachable"]%string;
     ContentSafety.categories_flagged := ["check_error"%string];
     ContentSafety.recommendations :=
       ["General safety violation detected. Review required before classification."%string];
     ContentSafety.child_safe := false;
     ContentSafety.detail :=
       {| ContentSafety.pattern_check :=
            {| ContentSafety.flagged := false; ContentSafety.categories := [];
               ContentSafety.pattern_violations := [] |};
          ContentSafety.ai_check :=
            {| ContentSafety.ai_is_safe := false;
               ContentSafety.ai_safety_score := 0.5;
               ContentSafety.ai_violations := ["Safety check failed: unreachable"%string];
               ContentSafety.ai_categories := ["check_error"%string];
               ContentSafety.ai_severity := "medium";
               ContentSafety.ai_reasoning := "Unable to complete safety validation" |};
          ContentSafety.child_safety_check :=
            {| ContentSafety.is_child_safe := false;
               ContentSafety.age_appropriate := "18+";
               ContentSafety.concerns := ["Unable to verify child safety"%string];
               ContentSafety.reason := "Safety check error: unreachable" |} |} |}.

(** An oracle that finds the document sensitive on both passes, with
    confidence 0.92 on the first and 0.93 on the second. *)
Definition agreeing_oracle : GeminiClassifier.Oracle :=
  fun kind _ pass =>
    match kind with
    | Sensitive =>
        Parsed {| GeminiClassifier.flag := true;
                  GeminiClassifier.confidence := if (pass =? 1)%Z then 0.92 else 0.93;
                  GeminiClassifier.reasoning := "internal memo";
                  GeminiClassifier.citation := Some "page 1"%string;
                  GeminiClassifier.pii_found := Some [] |}
    | _ =>
        Parsed {| GeminiClassifier.flag := false;
                  GeminiClassifier.confidence := 0.99;
                  GeminiClassifier.reasoning := "nothing found";
                  GeminiClassifier.citation := None;
                  GeminiClassifier.pii_found := None |}
    end.

(** The two pass results of [agreeing_oracle] on [memo]. *)
Definition sensitive_pass (pass : Z) (confidence : Q) : GeminiClassifier.PassResult :=
  let clean :=
    {| GeminiClassifier.flag := false; GeminiClassifier.confidence := 0.99;
       GeminiClassifier.reasoning := "nothing found";
       GeminiClassifier.citation := None; GeminiClassifier.pii_found := None |} in
  let hit :=
    {| GeminiClassifier.flag := true; GeminiClassifier.confidence := confidence;
       GeminiClassifier.reasoning := "internal memo";
       GeminiClassifier.citation := Some "page 1"%string;
       GeminiClassifier.pii_found := Some [] |} in
  {| GeminiClassifier.pr_document_id := "DOC_1";
     GeminiClassifier.pr_final_category := "SENSITIVE";
     GeminiClassifier.pr_confidence_score := confidence;
     GeminiClassifier.pr_reasoning_summary := "internal memo";
     GeminiClassifier.pr_citation_snippet := "page 1";
     GeminiClassifier.pr_step_results :=
       {| GeminiClassifier.sr_document_id := "DOC_1";
          GeminiClassifier.sr_validation_pass := pass;
          GeminiClassifier.safety_check := clean;
          GeminiClassifier.confidential_check := Some clean;
          GeminiClassifier.sensitive_check := Some hit |};
     GeminiClassifier.pr_validation_pass := pass |}.

(** A batch of five files; the work on the third raises an exception
    whose [str()] is empty, as [MemoryError()] does. *)
Definition five_files : list string :=
  ["a.pdf"; "b.pdf"; "c.pdf"; "d.pdf"; "e.pdf"]%string.

Definition third_raises (msg : string) : Batch.Work :=
  fun file =>
    if String.eqb file "c.pdf" then Raise msg
    else Ok {| Batch.c_document_id := ("DOC_" ++ file)%string;
               Batch.c_final_category := "PUBLIC";
               Batch.c_confidence_score := 0.95;
               Batch.c_hitl_status := Some "REQUIRES_REVIEW"%string;
               Batch.c_processing_time := 1 |}.

(** Futures complete in the order of submission. *)
Definition in_order : Batch.Schedule :=
  {| Batch.arrival := fun files => files;
     Batch.last_started := fun files => last files |}.

Definition five_file_processor : Batch.BatchProcessor :=
  Batch.create_batch_job {| Batch.max_workers := 3; Batch.jobs := ∅ |}
    "JOB_1" five_files.

(** What [validate] answers when no layer objects. *)
Definition clean_verdict : ContentSafety.SafetyResult :=
  {| ContentSafety.is_safe := true;
     ContentSafety.safety_score := 1.0;
     ContentSafety.violations := [];
     ContentSafety.categories_flagged := [];
     ContentSafety.recommendations := [];
     ContentSafety.child_safe := true;
     ContentSafety.detail :=
       {| ContentSafety.pattern_check :=
            {| ContentSafety.flagged := false; ContentSafety.categories := [];
               ContentSafety.pattern_violations := [] |};
          ContentSafety.ai_check :=
            {| ContentSafety.ai_is_safe := true;
               ContentSafety.ai_safety_score := 1.0;
               ContentSafety.ai_violations := [];
               ContentSafety.ai_categories := [];
               ContentSafety.ai_severity := "low";
               ContentSafety.ai_reasoning := "nothing found" |};
          ContentSafety.child_safety_check :=
            {| ContentSafety.is_child_safe := true;
               ContentSafety.age_appropriate := "all_ages";
               ContentSafety.concerns := [];
               ContentSafety.reason := "nothing found" |} |} |}.

(** A world whose safety layers find nothing. *)
Definition clean_world : ContentSafety.World :=
  {| ContentSafety.gen_ai_safety :=
       fun _ => Parsed (ContentSafety.ai_check (ContentSafety.detail clean_verdict));
     ContentSafety.gen_child_safety :=
       fun _ => Parsed (ContentSafety.child_safety_check
                          (ContentSafety.detail clean_verdict));
     ContentSafety.str_lower := fun s => s;
     ContentSafety.re_findall := fun _ _ => [];
     ContentSafety.fmt_list := fun _ => EmptyString;
     ContentSafety.list_of_set := fun l => l |}.

(** The result of the base classifier for the two agreeing passes, with
    the confidence of the first pass set to [confidence]. *)
Definition agreed_result (confidence : Q) : GeminiClassifier.ClassificationResult :=
  GeminiClassifier.annotate (sensitive_pass 1 confidence) "AUTO_APPROVED" (Some true)
    (Some (GeminiClassifier.BothConfidences confidence 0.93)).

(** An environment with clean safety layers and the agreeing oracle. *)
Definition agreeing_env (dual : bool) : Enhanced.Env :=
  {| Enhanced.config :=
       {| Config.CONFIDENCE_THRESHOLD := 0.9; Config.DUAL_VALIDATION_ENABLED := dual |};
     Enhanced.world := clean_world;
     Enhanced.gen_policy_check := agreeing_oracle;
     Enhanced.find_page_numbers := fun _ => [1%Z; 7%Z];
     Enhanced.fmt_percent := fun _ => EmptyString;
     Enhanced.elapsed := 0 |}.

(** A one-page document. *)
Definition one_page : DocumentData :=
  {| doc_id := "DOC_1"; full_text := "quarterly memo";
     cached_content := "quarterly memo";
     pages := [ {| text_blocks :=
                     [ {| block_index := 0; bbox := [0; 0; 10; 10];
                          text := "quarterly memo" |} ] |} ] |}.

End Samples.

(** * Properties *)

(** ** Numerics *)

Lemma Qlt_bool_iff (a b : Q) : Qlt_bool a b = true <-> a < b.
Proof.
  unfold Qlt_bool. rewrite negb_true_iff. split.
  - intros H. apply Qnot_le_lt. intros Hle.
    apply Qle_bool_iff in Hle. congruence.
  - intros H. destruct (Qle_bool b a) eqn:E; [|reflexivity].
    apply Qle_bool_iff in E. exfalso. exact (Qlt_not_le _ _ H E).
Qed.

Lemma Qlt_bool_comp (a a' b b' : Q) :
  a == a' -> b == b' -> Qlt_bool a b = Qlt_bool a' b'.
Proof. intros Ha Hb. unfold Qlt_bool. now rewrite Ha, Hb. Qed.

Lemma round_half_even_comp (x y : Q) :
  x == y -> round_half_even x = round_half_even y.
Proof.
  intros H. unfold round_half_even.
  rewrite (Qfloor_comp _ _ H).
  assert (Hr : x - inject_Z (Qfloor y) == y - inject_Z (Qfloor y))
    by now rewrite H.
  rewrite (Qlt_bool_comp _ _ _ _ Hr (Qeq_refl _)).
  now rewrite (Qlt_bool_comp _ _ _ _ (Qeq_refl (1 # 2)) Hr).
Qed.

(** Rounding sees the value of its argument, not the way it is written. *)
Lemma py_round_comp (x y : Q) (n : nat) : x == y -> py_round x n = py_round y n.
Proof.
  intros H. unfold py_round.
  now rewrite (round_half_even_comp (x * _) (y * _)) by now rewrite H.
Qed.


Lemma Qlt_bool_false_iff (a b : Q) : Qlt_bool a b = false <-> b <= a.
Proof.
  unfold Qlt_bool. rewrite negb_false_iff. apply Qle_bool_iff.
Qed.


(** A confidence that is not negative lies in the bin whose key
    [confidence_bin] gives: between the value of the key and one tenth
    above it. *)
Lemma confidence_bin_range (c : Q) :
  0 <= c ->
  AccuracyTracker.bin_value (AccuracyTracker.confidence_bin c) <= c
  /\ c < AccuracyTracker.bin_value (AccuracyTracker.confidence_bin c) + 0.1.
Proof.
  intros Hc.
  unfold AccuracyTracker.bin_value, AccuracyTracker.confidence_bin, py_int.
  assert (Hn : (0 <= Qnum (c * 10))%Z).
  { destruct c as [n d]. unfold Qle in Hc. simpl in *. lia. }
  rewrite Z.quot_div_nonneg by (auto; lia).
  change (Qnum (c * 10) `div` Z.pos (Qden (c * 10)))%Z with (Qfloor (c * 10)).
  pose proof (Qfloor_le (c * 10)) as Hlo.
  pose proof (Qlt_floor (c * 10)) as Hhi.
  rewrite inject_Z_plus in Hhi.
  change (inject_Z 1) with 1 in Hhi.
  generalize dependent (inject_Z (Qfloor (c * 10))). intros f Hlo Hhi.
  assert (Hdiv : f / 10 == f * (1 # 10)) by reflexivity.
  split; lra.
Qed.

(** ** The accuracy tracker *)

Section TrackerLoops.

Import AccuracyTracker.

Lemma categories_nodup : NoDup Config.CATEGORIES.
Proof. apply (bool_decide_unpack _). vm_compute. reflexivity. Qed.

(** A successful lookup gives what a [defaultdict] would show. *)
Lemma getitem_stats (dflt : bool) (st : gmap string CategoryStats) (c : string)
    (s : CategoryStats) :
  getitem dflt fresh_stats st c = Some s -> s = default fresh_stats (st !! c).
Proof.
  unfold getitem. destruct (st !! c) as [s0|]; simpl.
  - congruence.
  - destruct dflt; congruence.
Qed.

Lemma getitem_defaulting {K V} `{Countable K} (factory : V) (d : gmap K V) (k : K) :
  is_Some (getitem true factory d k).
Proof. unfold getitem. destruct (d !! k); eauto. Qed.

(** A loop whose body rewrites only the entry of the category it
    visits rewrites, over a list without repetition, each visited
    entry once. *)
Lemma for_each_pointwise
    (body : gmap string CategoryStats -> string -> option (gmap string CategoryStats))
    (F : string -> CategoryStats -> CategoryStats) :
  (forall st a st1, body st a = Some st1 ->
     (forall c, c <> a -> st1 !! c = st !! c)
     /\ default fresh_stats (st1 !! a) = F a (default fresh_stats (st !! a))) ->
  forall l st st', for_each body st l = Some st' -> NoDup l ->
    forall c,
      (c ∈ l -> default fresh_stats (st' !! c) = F c (default fresh_stats (st !! c)))
      /\ (c ∉ l -> st' !! c = st !! c).
Proof.
  intros Hbody. induction l as [|a l IH]; intros st st' Hrun Hnd c; simpl in Hrun.
  - injection Hrun as <-. split; [intros Hin; inversion Hin | reflexivity].
  - destruct (body st a) as [st1|] eqn:Hb; simpl in Hrun; [|discriminate].
    apply NoDup_cons in Hnd as [Hnotin Hnd].
    destruct (Hbody _ _ _ Hb) as [Hother Hat].
    destruct (IH _ _ Hrun Hnd c) as [IHin IHout].
    split.
    + intros Hin. apply elem_of_cons in Hin as [->|Hin].
      * destruct (IH _ _ Hrun Hnd a) as [_ Hkeep].
        rewrite (Hkeep Hnotin). exact Hat.
      * rewrite (IHin Hin). rewrite Hother; [reflexivity|].
        intros ->. contradiction.
    + intros Hout. apply not_elem_of_cons in Hout as [Hne Hout].
      rewrite (IHout Hout). apply Hother. exact Hne.
Qed.

Lemma update_category_local (dflt : bool) (p g : string)
    (st : gmap string CategoryStats) (a : string) (st1 : gmap string CategoryStats) :
  update_category dflt p g st a = Some st1 ->
  (forall c, c <> a -> st1 !! c = st !! c)
  /\ default fresh_stats (st1 !! a) = Spec.bump p g a (default fresh_stats (st !! a)).
Proof.
  unfold update_category, Spec.bump. intros H.
  repeat match type of H with
  | (if ?b then _ else _) = _ => destruct b
  end;
  try (destruct (getitem dflt fresh_stats st a) as [s|] eqn:Hg; simpl in H;
       [|discriminate];
       injection H as <-; apply getitem_stats in Hg; subst s;
       split; [intros c Hc; now rewrite lookup_insert_ne by congruence
              | now rewrite lookup_insert_eq]).
  injection H as <-. split; [reflexivity | reflexivity].
Qed.

Lemma recalculate_local (dflt : bool) (st : gmap string CategoryStats) (a : string)
    (st1 : gmap string CategoryStats) :
  (s ← getitem dflt fresh_stats st a; Some (<[a := recalculate s]> st)) = Some st1 ->
  (forall c, c <> a -> st1 !! c = st !! c)
  /\ default fresh_stats (st1 !! a) = recalculate (default fresh_stats (st !! a)).
Proof.
  intros H.
  destruct (getitem dflt fresh_stats st a) as [s|] eqn:Hg; simpl in H; [|discriminate].
  injection H as <-. apply getitem_stats in Hg. subst s.
  split; [intros c Hc; now rewrite lookup_insert_ne by congruence
         | now rewrite lookup_insert_eq].
Qed.

(** After [_recalculate_metrics] every configured category has an
    entry. *)
Lemma recalculate_defines (dflt : bool) :
  forall l st st',
    for_each (fun (st : gmap string CategoryStats) (category : string) =>
                s ← getitem dflt fresh_stats st category;
                Some (<[category := recalculate s]> st)) st l = Some st' ->
    forall c, (c ∈ l \/ is_Some (st !! c)) -> is_Some (st' !! c).
Proof.
  induction l as [|a l IH]; intros st st' Hrun c Hc; simpl in Hrun.
  - injection Hrun as <-. destruct Hc as [Hc|Hc]; [inversion Hc | exact Hc].
  - destruct (getitem dflt fresh_stats st a) as [s|] eqn:Hg; simpl in Hrun;
      [|discriminate].
    apply (IH _ _ Hrun). destruct (decide (c = a)) as [->|Hne].
    + right. rewrite lookup_insert_eq. eauto.
    + destruct Hc as [Hc|Hc].
      * apply elem_of_cons in Hc as [->|Hc]; [contradiction | now left].
      * right. now rewrite lookup_insert_ne by congruence.
Qed.

End TrackerLoops.

Section TrackerRecords.

Import AccuracyTracker.

Local Opaque Config.CATEGORIES.

(** What a ground-truthed [record_prediction] leaves in
    [category_stats]: for each configured category, the entry it had,
    moved by the update rule and then recomputed. *)
Lemma record_prediction_stats (m : Metrics) (p g : string) (conf : Q) (id : string)
    (m' : Metrics) :
  truthy_str g = true ->
  record_prediction m p (Some g) conf id = Some m' ->
  forall c, c ∈ Config.CATEGORIES ->
    category_stats m' !! c
    = Some (recalculate (Spec.bump p g c (Spec.stats_of m c))).
Proof.
  intros Hg Hrec c Hc. unfold record_prediction in Hrec. rewrite Hg in Hrec.
  destruct (getitem _ [] _ _) as [bin|]; simpl in Hrec; [|discriminate].
  destruct (getitem _ ∅ _ _) as [row|]; simpl in Hrec; [|discriminate].
  destruct (getitem _ 0%Z _ _) as [cell|]; simpl in Hrec; [|discriminate].
  destruct (for_each (update_category _ _ _) _ _) as [st|] eqn:Hup;
    simpl in Hrec; [|discriminate].
  destruct (_recalculate_metrics _ st) as [st'|] eqn:Hre; simpl in Hrec;
    [|discriminate].
  injection Hrec as <-. simpl.
  pose proof (for_each_pointwise _ (Spec.bump p g)
                (update_category_local (defaulting m) p g) _ _ _ Hup
                categories_nodup c) as [Hbump _].
  unfold _recalculate_metrics in Hre.
  pose proof (for_each_pointwise _ (fun _ => recalculate)
                (recalculate_local (defaulting m)) _ _ _ Hre
                categories_nodup c) as [Hcalc _].
  destruct (recalculate_defines _ _ _ _ Hre c (or_introl Hc)) as [s Hs].
  rewrite Hs in Hcalc |- *. simpl in Hcalc.
  rewrite (Hcalc Hc), (Hbump Hc). reflexivity.
Qed.

(** [record_prediction] neither reads nor writes the correction log. *)
Lemma record_prediction_corrections (m : Metrics) (l : list Correction)
    (p : string) (gt : option string) (conf : Q) (id : string) :
  record_prediction (set_corrections m l) p gt conf id
  = (fun m1 => set_corrections m1 l) <$> record_prediction m p gt conf id.
Proof.
  unfold record_prediction. simpl.
  destruct (getitem _ [] _ _) as [bin|]; simpl; [|reflexivity].
  destruct gt as [g|]; [|reflexivity].
  destruct (truthy_str g); [|reflexivity].
  destruct (getitem _ ∅ _ _) as [row|]; simpl; [|reflexivity].
  destruct (getitem _ 0%Z _ _) as [cell|]; simpl; [|reflexivity].
  destruct (for_each (update_category _ _ _) _ _) as [st|]; simpl; [|reflexivity].
  destruct (_recalculate_metrics _ st) as [st'|]; simpl; reflexivity.
Qed.

(** Loops over dictionaries that create missing keys do not raise. *)
Lemma update_loop_defaulting (p g : string) :
  forall l st, is_Some (for_each (update_category true p g) st l).
Proof.
  induction l as [|a l IH]; intros st; simpl; [eauto|].
  assert (Hstep : is_Some (update_category true p g st a)).
  { unfold update_category.
    destruct (getitem_defaulting fresh_stats st a) as [s Hs].
    repeat match goal with
    | |- is_Some (if ?b then _ else _) => destruct b
    end; rewrite ?Hs; simpl; eauto. }
  destruct Hstep as [st1 ->]. simpl. apply IH.
Qed.

Lemma recalculate_loop_defaulting :
  forall l st,
    is_Some (for_each (fun (st : gmap string CategoryStats) (category : string) =>
                         s ← getitem true fresh_stats st category;
                         Some (<[category := recalculate s]> st)) st l).
Proof.
  induction l as [|a l IH]; intros st; simpl; [eauto|].
  destruct (getitem_defaulting fresh_stats st a) as [s ->]. simpl. apply IH.
Qed.

(** On a tracker that was not re-loaded from its file,
    [record_prediction] always returns. *)
Lemma record_prediction_defaulting (m : Metrics) (p : string) (gt : option string)
    (conf : Q) (id : string) :
  defaulting m = true ->
  exists m', record_prediction m p gt conf id = Some m' /\ defaulting m' = true.
Proof.
  intros Hd. unfold record_prediction. rewrite Hd. simpl.
  destruct (getitem_defaulting [] (confidence_bins m) (confidence_bin conf))
    as [bin ->]. simpl.
  destruct gt as [g|]; [|eexists; split; [reflexivity|exact Hd]].
  destruct (truthy_str g); [|eexists; split; [reflexivity|exact Hd]].
  destruct (getitem_defaulting ∅ (confusion_matrix m) g) as [row ->]. simpl.
  destruct (getitem_defaulting 0%Z row p) as [cell ->]. simpl.
  destruct (update_loop_defaulting p g Config.CATEGORIES (category_stats m))
    as [st ->]. simpl.
  unfold _recalculate_metrics.
  destruct (recalculate_loop_defaulting Config.CATEGORIES st) as [st' ->]. simpl.
  eexists; split; [reflexivity|exact Hd].
Qed.

Local Transparent Config.CATEGORIES.

End TrackerRecords.

(** ** Calibration report (claim C8) *)

Section CalibrationReport.

Import AccuracyTracker.





End CalibrationReport.

(** ** HITL correction feedback (claim C7) *)

Section CorrectionFeedback.

Import AccuracyTracker.




End CorrectionFeedback.

(** ** Confidence calibration (claim C5) *)

Section Calibration.

Import AccuracyTracker.




End Calibration.

(** ** HITL decision (claim C6) *)

Section HitlDecision.

Import AccuracyTracker.

(** The decision compares one number with 0.75 and returns that
    number. *)
Lemma hitl_decision_threshold (env : Enhanced.Env) (m : Metrics)
    (r : GeminiClassifier.ClassificationResult) (safety : ContentSafety.SafetyResult) :
  let d := Enhanced._enhanced_hitl_decision env m r safety in
  Enhanced.status d
  = if Qle_bool 0.75 (Enhanced.auto_approval_probability d)
    then "AUTO_APPROVED"%string else "REQUIRES_REVIEW"%string.
Proof.
  unfold Enhanced._enhanced_hitl_decision. cbv zeta.
  match goal with
  | |- context [if Qle_bool 0.75 ?s then _ else _] =>
      destruct (Qle_bool 0.75 s) eqn:E; simpl; rewrite E; reflexivity
  end.
Qed.

(** The number returned is the sum of the four factors. *)
Lemma hitl_decision_total (env : Enhanced.Env) (m : Metrics)
    (r : GeminiClassifier.ClassificationResult) (safety : ContentSafety.SafetyResult) :
  Enhanced.auto_approval_probability (Enhanced._enhanced_hitl_decision env m r safety)
  == Spec.hitl_total
       (GeminiClassifier.confidence_score r)
       (truthy_opt_bool (GeminiClassifier.validation_consensus r))
       (Spec.category_precision m (GeminiClassifier.final_category r))
       (ContentSafety.safety_score safety).
Proof.
  change (Spec.category_precision m (GeminiClassifier.final_category r))
    with (Enhanced.get_precision m (GeminiClassifier.final_category r) 0.0).
  unfold Enhanced._enhanced_hitl_decision. cbv zeta.
  generalize (Enhanced.get_precision m (GeminiClassifier.final_category r) 0.0).
  generalize (GeminiClassifier.confidence_score r).
  generalize (ContentSafety.safety_score safety).
  generalize (truthy_opt_bool (GeminiClassifier.validation_consensus r)).
  intros consensus safety_score confidence precision.
  match goal with
  | |- context [if Qle_bool 0.75 ?s then _ else _] => destruct (Qle_bool 0.75 s)
  end;
  unfold Spec.hitl_total, Spec.confidence_factor, Spec.consensus_factor,
    Spec.precision_factor, Spec.safety_factor;
  cbn [Enhanced.auto_approval_probability];
  destruct (Qle_bool 0.95 confidence);
  destruct (Qle_bool 0.90 confidence);
  destruct (Qle_bool 0.85 confidence);
  destruct consensus;
  destruct (Qle_bool 0.95 precision);
  destruct (Qle_bool 0.90 precision);
  destruct (Qle_bool 0.95 safety_score);
  reflexivity.
Qed.

(** C6: the score of the HITL decision is the sum of the four capped
    factors (confidence, consensus, category precision, safety score),
    the status is AUTO_APPROVED exactly when that total is at least
    0.75 and REQUIRES_REVIEW otherwise, and the returned
    auto_approval_probability is the total. *)
Theorem hitl_decision_score (env : Enhanced.Env) (m : Metrics)
    (r : GeminiClassifier.ClassificationResult) (safety : ContentSafety.SafetyResult) :
  let d := Enhanced._enhanced_hitl_decision env m r safety in
  let total :=
    Spec.hitl_total
      (GeminiClassifier.confidence_score r)
      (truthy_opt_bool (GeminiClassifier.validation_consensus r))
      (Spec.category_precision m (GeminiClassifier.final_category r))
      (ContentSafety.safety_score safety) in
  Enhanced.auto_approval_probability d == total
  /\ (Enhanced.status d = "AUTO_APPROVED"%string <-> 0.75 <= total)
  /\ (Enhanced.status d = "REQUIRES_REVIEW"%string <-> total < 0.75).
Proof.
  intros d total.
  pose proof (hitl_decision_total env m r safety) as Hsum.
  pose proof (hitl_decision_threshold env m r safety) as Hthr.
  fold d in Hsum, Hthr. fold total in Hsum.
  cbv zeta in Hthr.
  split; [exact Hsum|].
  destruct (Qle_bool 0.75 (Enhanced.auto_approval_probability d)) eqn:E;
    rewrite Hthr.
  - apply Qle_bool_iff in E. rewrite Hsum in E.
    split; split; intros H; try reflexivity; try exact E; try discriminate.
    exfalso. exact (Qlt_not_le _ _ H E).
  - assert (Hlt : total < 0.75).
    { rewrite <- Hsum. apply Qnot_le_lt. intros Hle.
      apply Qle_bool_iff in Hle. congruence. }
    split; split; intros H; try reflexivity; try exact Hlt; try discriminate.
    exfalso. exact (Qlt_not_le _ _ Hlt H).
Qed.

End HitlDecision.

(** ** The unsafe path of the enhanced classifier (claims C1 and C10) *)

Section UnsafePath.

Import AccuracyTracker.

(** [validate] always returns, after the call itself and one request
    per model layer. *)
Lemma validate_runs (w : ContentSafety.World) (content document_id : string) :
  exists s,
    ContentSafety.validate w content document_id
    = ([ CallValidate;
         Generate (AiSafetyCheck (py_prefix 5000 content));
         Generate (ChildSafetyCheck (py_prefix 3000 content)) ],
       Ok s).
Proof.
  unfold ContentSafety.validate, ContentSafety._ai_safety_check,
    ContentSafety._child_safety_check.
  destruct (ContentSafety.gen_ai_safety w (py_prefix 5000 content));
    destruct (ContentSafety.gen_child_safety w (py_prefix 3000 content));
    simpl; eexists; reflexivity.
Qed.

(** What [classify] does once the validator has answered unsafe. *)
Lemma classify_unsafe (env : Enhanced.Env) (st : Enhanced.State)
    (document_data : DocumentData) (ground_truth : option string)
    (safety : ContentSafety.SafetyResult) (tr : list Event) :
  ContentSafety.validate (Enhanced.world env) (full_text document_data)
    (doc_id document_data) = (tr, Ok safety) ->
  ContentSafety.is_safe safety = false ->
  Enhanced.classify env st document_data ground_truth
  = if truthy_opt_str ground_truth then
      (tr ++ [CallRecordPrediction],
       match record_prediction (Enhanced.metrics st) "UNSAFE" ground_truth 1.0
               (doc_id document_data) with
       | Some m' =>
           Ok (Enhanced.unsafe_result env (doc_id document_data) safety,
               {| Enhanced.metrics := m'; Enhanced.cache := Enhanced.cache st |})
       | None => Raise "KeyError"
       end)
    else (tr, Ok (Enhanced.unsafe_result env (doc_id document_data) safety, st)).
Proof.
  intros Hval Hunsafe. unfold Enhanced.classify. rewrite Hval. simpl.
  rewrite Hunsafe. simpl.
  destruct (truthy_opt_str ground_truth); simpl.
  - destruct (record_prediction _ _ _ _ _); simpl; reflexivity.
  - now rewrite app_nil_r.
Qed.

Lemma validate_not_downstream (w : ContentSafety.World) (content document_id : string) :
  forallb (fun e => negb (Spec.downstream e))
    (events (ContentSafety.validate w content document_id)) = true.
Proof.
  destruct (validate_runs w content document_id) as [s ->]. reflexivity.
Qed.

(** C1: when the validator answers unsafe, the result [classify]
    returns has final_category UNSAFE, confidence_score 1.0 and
    hitl_status REQUIRES_REVIEW, whatever the tracker holds; it carries
    no auto-approval score; the run consists of the validator's events
    and, with a ground truth, the recording of the prediction, so that
    neither the cascading classifier nor the calibrator nor the HITL
    scorer is called; and [classify] does return when no ground truth is
    given or the tracker was not re-loaded from its file. *)
Theorem unsafe_forces_review (env : Enhanced.Env) (st : Enhanced.State)
    (document_data : DocumentData) (ground_truth : option string)
    (safety : ContentSafety.SafetyResult) :
  outcome (ContentSafety.validate (Enhanced.world env) (full_text document_data)
             (doc_id document_data)) = Ok safety ->
  ContentSafety.is_safe safety = false ->
  let execution := Enhanced.classify env st document_data ground_truth in
  (forall r st', outcome execution = Ok (r, st') ->
     Enhanced.final_category r = "UNSAFE"%string
     /\ Enhanced.confidence_score r == 1
     /\ Enhanced.hitl_status r = "REQUIRES_REVIEW"%string
     /\ Enhanced.result_auto_approval_probability r = None)
  /\ events execution
     = events (ContentSafety.validate (Enhanced.world env) (full_text document_data)
                 (doc_id document_data))
       ++ (if truthy_opt_str ground_truth then [CallRecordPrediction] else [])
  /\ forallb (fun e => negb (Spec.downstream e)) (events execution) = true
  /\ (truthy_opt_str ground_truth = false \/ defaulting (Enhanced.metrics st) = true ->
      exists r st', outcome execution = Ok (r, st')).
Proof.
  intros Hval Hunsafe execution.
  destruct (ContentSafety.validate (Enhanced.world env) (full_text document_data)
              (doc_id document_data)) as [tr res] eqn:Hrun.
  simpl in Hval. subst res.
  pose proof (validate_not_downstream (Enhanced.world env) (full_text document_data)
                (doc_id document_data)) as Hquiet.
  rewrite Hrun in Hquiet. simpl in Hquiet.
  unfold execution. rewrite (classify_unsafe env st document_data ground_truth safety tr Hrun Hunsafe).
  destruct (truthy_opt_str ground_truth) eqn:Hgt; simpl.
  - split; [|split; [|split]].
    + destruct (record_prediction _ _ _ _ _); [|discriminate].
      intros r st' H. injection H as <- <-. repeat split; reflexivity.
    + reflexivity.
    + rewrite forallb_app, Hquiet. reflexivity.
    + intros [H|H]; [discriminate|].
      destruct (record_prediction_defaulting (Enhanced.metrics st) "UNSAFE"
                  ground_truth 1.0 (doc_id document_data) H) as (m' & -> & _).
      eauto.
  - split; [|split; [|split]].
    + intros r st' H. injection H as <- <-. repeat split; reflexivity.
    + now rewrite app_nil_r.
    + exact Hquiet.
    + intros _. eauto.
Qed.

Lemma unsafe_forces_review_witness :
  let execution :=
    Enhanced.classify Samples.unreachable_env Samples.fresh_state Samples.memo None in
  (forall r st', outcome execution = Ok (r, st') ->
     Enhanced.final_category r = "UNSAFE"%string
     /\ Enhanced.confidence_score r == 1
     /\ Enhanced.hitl_status r = "REQUIRES_REVIEW"%string
     /\ Enhanced.result_auto_approval_probability r = None)
  /\ events execution
     = events (ContentSafety.validate Samples.unreachable_world "quarterly memo" "DOC_1")
       ++ []
  /\ forallb (fun e => negb (Spec.downstream e)) (events execution) = true
  /\ (false = false \/ true = true -> exists r st', outcome execution = Ok (r, st')).
Proof.
  apply (unsafe_forces_review Samples.unreachable_env Samples.fresh_state
           Samples.memo None Samples.unreachable_verdict).
  - reflexivity.
  - reflexivity.
Defined.

(** C10: when the validator answers unsafe, the result [classify]
    returns has validation_consensus True although no validation pass
    ran (the result carries no pass number, no step results and no
    dual-validation record), its child_safe is the one of the safety
    result, and the run contains no event of the cascading
    classifier. *)
Theorem unsafe_result_claims_consensus (env : Enhanced.Env) (st : Enhanced.State)
    (document_data : DocumentData) (ground_truth : option string)
    (safety : ContentSafety.SafetyResult) :
  outcome (ContentSafety.validate (Enhanced.world env) (full_text document_data)
             (doc_id document_data)) = Ok safety ->
  ContentSafety.is_safe safety = false ->
  let execution := Enhanced.classify env st document_data ground_truth in
  (forall r st', outcome execution = Ok (r, st') ->
     Enhanced.validation_consensus r = Some true
     /\ Enhanced.child_safe r = ContentSafety.child_safe safety
     /\ Enhanced.safety_details r = safety
     /\ Enhanced.validation_pass r = None
     /\ Enhanced.step_results r = None
     /\ Enhanced.dual_validation_results r = None)
  /\ (forall e, e ∈ events execution ->
        e <> CallBaseClassify
        /\ (forall p, e <> CallClassifySingle p)
        /\ (forall k c p t, e <> Generate (PolicyCheck k c p t)))
  /\ (truthy_opt_str ground_truth = false ->
      outcome execution = Ok (Enhanced.unsafe_result env (doc_id document_data) safety, st)).
Proof.
  intros Hval Hunsafe execution.
  destruct (ContentSafety.validate (Enhanced.world env) (full_text document_data)
              (doc_id document_data)) as [tr res] eqn:Hrun.
  simpl in Hval. subst res.
  destruct (validate_runs (Enhanced.world env) (full_text document_data)
              (doc_id document_data)) as [s Hs].
  rewrite Hrun in Hs. injection Hs as -> ->.
  unfold execution.
  rewrite (classify_unsafe env st document_data ground_truth s _ Hrun Hunsafe).
  assert (Hev : forall e extra,
             e ∈ [ CallValidate;
                   Generate (AiSafetyCheck (py_prefix 5000 (full_text document_data)));
                   Generate (ChildSafetyCheck (py_prefix 3000 (full_text document_data))) ]
                 ++ extra ->
             extra = [] \/ extra = [CallRecordPrediction] ->
             e <> CallBaseClassify
             /\ (forall p, e <> CallClassifySingle p)
             /\ (forall k c p t, e <> Generate (PolicyCheck k c p t))).
  { intros e extra Hin Hextra.
    assert (He : e = CallValidate
                 \/ e = Generate (AiSafetyCheck (py_prefix 5000 (full_text document_data)))
                 \/ e = Generate (ChildSafetyCheck (py_prefix 3000 (full_text document_data)))
                 \/ e = CallRecordPrediction).
    { destruct Hextra as [-> | ->]; simpl in Hin;
        repeat (apply elem_of_cons in Hin as [Hin|Hin]; [tauto|]);
        inversion Hin. }
    destruct He as [-> | [-> | [-> | ->]]]; repeat split; intros; discriminate. }
  destruct (truthy_opt_str ground_truth) eqn:Hgt; simpl.
  - split; [|split].
    + destruct (record_prediction _ _ _ _ _); [|discriminate].
      intros r st' H. injection H as <- <-. repeat split; reflexivity.
    + intros e Hin. apply (Hev e [CallRecordPrediction]); [exact Hin | now right].
    + discriminate.
  - split; [|split].
    + intros r st' H. injection H as <- <-. repeat split; reflexivity.
    + intros e Hin. apply (Hev e []); [now rewrite app_nil_r | now left].
    + reflexivity.
Qed.

Lemma unsafe_result_claims_consensus_witness :
  let execution :=
    Enhanced.classify Samples.unreachable_env Samples.fresh_state Samples.memo None in
  (forall r st', outcome execution = Ok (r, st') ->
     Enhanced.validation_consensus r = Some true
     /\ Enhanced.child_safe r = false
     /\ Enhanced.safety_details r = Samples.unreachable_verdict
     /\ Enhanced.validation_pass r = None
     /\ Enhanced.step_results r = None
     /\ Enhanced.dual_validation_results r = None)
  /\ (forall e, e ∈ events execution ->
        e <> CallBaseClassify
        /\ (forall p, e <> CallClassifySingle p)
        /\ (forall k c p t, e <> Generate (PolicyCheck k c p t)))
  /\ outcome execution
     = Ok (Enhanced.unsafe_result Samples.unreachable_env "DOC_1"
             Samples.unreachable_verdict,
           Samples.fresh_state).
Proof.
  destruct (unsafe_result_claims_consensus Samples.unreachable_env Samples.fresh_state
              Samples.memo None Samples.unreachable_verdict eq_refl eq_refl)
    as (Hfields & Hevents & Hreturns).
  split; [exact Hfields|]. split; [exact Hevents|].
  apply Hreturns. reflexivity.
Defined.

End UnsafePath.

(** ** The cascade of policy checks (claims C3 and C4) *)

Section Cascade.

Import GeminiClassifier.

Variable gen : Oracle.

(** Each check sends one request and returns. *)
Lemma check_safety_runs (content : string) (pass : Z) :
  exists r, _check_safety gen content pass = ([Spec.check_request Safety content pass], Ok r).
Proof.
  unfold _check_safety. destruct (gen Safety content pass); simpl; eauto.
Qed.

Lemma check_confidential_runs (content : string) (pass : Z) :
  exists r,
    _check_confidential gen content pass = ([Spec.check_request Confidential content pass], Ok r).
Proof.
  unfold _check_confidential. destruct (gen Confidential content pass); simpl; eauto.
Qed.

Lemma check_sensitive_runs (content : string) (pass : Z) :
  exists r, _check_sensitive gen content pass = ([Spec.check_request Sensitive content pass], Ok r).
Proof.
  unfold _check_sensitive. destruct (gen Sensitive content pass); simpl; eauto.
Qed.

(** A pass, written over the results of its checks. *)
Lemma classify_single_unfold (cache : Cache) (document_data : DocumentData) (pass : Z)
    (rs rc rn : CheckResult) :
  let content := Spec.pass_content cache document_data in
  outcome (_check_safety gen content pass) = Ok rs ->
  outcome (_check_confidential gen content pass) = Ok rc ->
  outcome (_check_sensitive gen content pass) = Ok rn ->
  _classify_single gen cache document_data pass
  = if flag rs then
      ([CallClassifySingle pass; Spec.check_request Safety content pass],
       Ok {| pr_document_id := doc_id document_data;
             pr_final_category := "UNSAFE";
             pr_confidence_score := confidence rs;
             pr_reasoning_summary := reasoning rs;
             pr_citation_snippet := get_citation rs "Safety violation detected";
             pr_step_results :=
               {| sr_document_id := doc_id document_data; sr_validation_pass := pass;
                  safety_check := rs; confidential_check := None;
                  sensitive_check := None |};
             pr_validation_pass := pass |})
    else if flag rc then
      ([CallClassifySingle pass; Spec.check_request Safety content pass;
        Spec.check_request Confidential content pass],
       Ok {| pr_document_id := doc_id document_data;
             pr_final_category := "CONFIDENTIAL";
             pr_confidence_score := confidence rc;
             pr_reasoning_summary := reasoning rc;
             pr_citation_snippet := get_citation rc "Confidential content detected";
             pr_step_results :=
               {| sr_document_id := doc_id document_data; sr_validation_pass := pass;
                  safety_check := rs; confidential_check := Some rc;
                  sensitive_check := None |};
             pr_validation_pass := pass |})
    else if flag rn then
      ([CallClassifySingle pass; Spec.check_request Safety content pass;
        Spec.check_request Confidential content pass; Spec.check_request Sensitive content pass],
       Ok {| pr_document_id := doc_id document_data;
             pr_final_category := "SENSITIVE";
             pr_confidence_score := confidence rn;
             pr_reasoning_summary := reasoning rn;
             pr_citation_snippet := get_citation rn "Sensitive content detected";
             pr_step_results :=
               {| sr_document_id := doc_id document_data; sr_validation_pass := pass;
                  safety_check := rs; confidential_check := Some rc;
                  sensitive_check := Some rn |};
             pr_validation_pass := pass |})
    else
      ([CallClassifySingle pass; Spec.check_request Safety content pass;
        Spec.check_request Confidential content pass; Spec.check_request Sensitive content pass],
       Ok {| pr_document_id := doc_id document_data;
             pr_final_category := "PUBLIC";
             pr_confidence_score := 0.95;
             pr_reasoning_summary :=
               "Document contains no unsafe, confidential, or sensitive information. Suitable for public distribution.";
             pr_citation_snippet := "No restricted content found";
             pr_step_results :=
               {| sr_document_id := doc_id document_data; sr_validation_pass := pass;
                  safety_check := rs; confidential_check := Some rc;
                  sensitive_check := Some rn |};
             pr_validation_pass := pass |}).
Proof.
  intros content Hs Hc Hn.
  destruct (check_safety_runs content pass) as [rs' Es].
  destruct (check_confidential_runs content pass) as [rc' Ec].
  destruct (check_sensitive_runs content pass) as [rn' En].
  rewrite Es in Hs. rewrite Ec in Hc. rewrite En in Hn.
  simpl in Hs, Hc, Hn. injection Hs as ->. injection Hc as ->. injection Hn as ->.
  unfold _classify_single. fold (Spec.pass_content cache document_data). fold content.
  fold (Spec.check_request Safety content pass) in Es.
  fold (Spec.check_request Confidential content pass) in Ec.
  fold (Spec.check_request Sensitive content pass) in En.
  rewrite Es. cbn [bind emit ret app].
  destruct (flag rs); [reflexivity|].
  rewrite Ec. cbn [bind emit ret app].
  destruct (flag rc); [reflexivity|].
  rewrite En. cbn [bind emit ret app].
  destruct (flag rn); reflexivity.
Qed.


End Cascade.

Section CascadeClaims.

Import GeminiClassifier.

(** C3: when none of the three checks flags, a validation pass returns
    exactly PUBLIC with confidence 0.95 and the fixed reasoning and
    citation texts, and it has sent the three requests of the checks
    and no other: the fallback itself asks the oracle nothing. *)
Theorem no_flag_is_public (gen : Oracle) (cache : Cache) (document_data : DocumentData)
    (pass : Z) (rs rc rn : CheckResult) :
  let content := Spec.pass_content cache document_data in
  outcome (_check_safety gen content pass) = Ok rs ->
  outcome (_check_confidential gen content pass) = Ok rc ->
  outcome (_check_sensitive gen content pass) = Ok rn ->
  flag rs = false -> flag rc = false -> flag rn = false ->
  exists r,
    outcome (_classify_single gen cache document_data pass) = Ok r
    /\ pr_final_category r = "PUBLIC"%string
    /\ pr_confidence_score r = 0.95
    /\ pr_reasoning_summary r
       = "Document contains no unsafe, confidential, or sensitive information. Suitable for public distribution."%string
    /\ pr_citation_snippet r = "No restricted content found"%string
    /\ pr_validation_pass r = pass
    /\ events (_classify_single gen cache document_data pass)
       = [ CallClassifySingle pass;
           Spec.check_request Safety content pass;
           Spec.check_request Confidential content pass;
           Spec.check_request Sensitive content pass ].
Proof.
  intros content Hs Hc Hn Fs Fc Fn.
  rewrite (classify_single_unfold gen cache document_data pass rs rc rn Hs Hc Hn).
  rewrite Fs, Fc, Fn. eexists. repeat split; reflexivity.
Qed.

Lemma no_flag_is_public_witness :
  exists r,
    outcome (_classify_single Samples.unreachable_oracle ∅ Samples.memo 1) = Ok r
    /\ pr_final_category r = "PUBLIC"%string
    /\ pr_confidence_score r = 0.95
    /\ pr_reasoning_summary r
       = "Document contains no unsafe, confidential, or sensitive information. Suitable for public distribution."%string
    /\ pr_citation_snippet r = "No restricted content found"%string
    /\ pr_validation_pass r = 1%Z
    /\ events (_classify_single Samples.unreachable_oracle ∅ Samples.memo 1)
       = [ CallClassifySingle 1;
           Spec.check_request Safety (Spec.pass_content ∅ Samples.memo) 1;
           Spec.check_request Confidential (Spec.pass_content ∅ Samples.memo) 1;
           Spec.check_request Sensitive (Spec.pass_content ∅ Samples.memo) 1 ].
Proof.
  apply (no_flag_is_public Samples.unreachable_oracle ∅ Samples.memo 1
           {| flag := false; confidence := 0.5; reasoning := "Error: unreachable";
              citation := Some EmptyString; pii_found := None |}
           {| flag := false; confidence := 0.5; reasoning := "Error: unreachable";
              citation := Some EmptyString; pii_found := Some [] |}
           {| flag := false; confidence := 0.5; reasoning := "Error: unreachable";
              citation := Some EmptyString; pii_found := Some [] |});
    reflexivity.
Defined.



End CascadeClaims.

(** ** Dual validation (claim C2) *)

Section DualValidation.

Import GeminiClassifier.




End DualValidation.

(** ** Batch processing (claim C9) *)

Section BatchCounting.

Import Batch.

Variable work : Work.

(** What the collecting loop adds to a job. *)
Lemma collect_all (l : list string) :
  forall job,
    let job' := fold_left (collect work) l job in
    processed_files job' = (processed_files job + Z.of_nat (length l))%Z
    /\ failed_files job'
       = (failed_files job
          + Z.of_nat (length (List.filter (Spec.counted work) l)))%Z
    /\ results job' = results job ++ map (_process_single_file work) l
    /\ status job' = status job
    /\ files job' = files job.
Proof.
  induction l as [|f l IH]; intros job; cbn [fold_left].
  - cbn. repeat split; try lia. now rewrite app_nil_r.
  - destruct (IH (collect work job f)) as (Hp & Hf & Hr & Hs & Hfiles).
    cbv zeta. rewrite Hp, Hf, Hr, Hs, Hfiles.
    unfold collect at 1 2 3 4 5. cbn [processed_files failed_files results status files].
    repeat split.
    + cbn [length]. lia.
    + unfold Spec.counted, _process_single_file. cbn [List.filter].
      destruct (work f) as [c|msg]; cbn [get_error truthy_opt_str].
      * lia.
      * destruct (truthy_str msg); cbn [length]; lia.
    + cbn [map]. now rewrite <- app_assoc.
Qed.

(** The count does not depend on the order of arrival. *)
Lemma counted_permutation (l l' : list string) :
  Permutation l l' ->
  Permutation (List.filter (Spec.counted work) l) (List.filter (Spec.counted work) l').
Proof.
  induction 1 as [|x l l' _ IH|x y l|l l' l'' _ IH1 _ IH2]; cbn [List.filter].
  - apply perm_nil.
  - destruct (Spec.counted work x); [now apply perm_skip|assumption].
  - destruct (Spec.counted work x); destruct (Spec.counted work y);
      try reflexivity. apply perm_swap.
  - etransitivity; eassumption.
Qed.

(** Every raised exception is recorded as a failed entry of the file. *)
Lemma failure_recorded (file : string) (msg : string) :
  work file = Raise msg ->
  _process_single_file work file = Failure file msg
  /\ result_status (_process_single_file work file) = "FAILED"%string.
Proof. intros H. unfold _process_single_file. rewrite H. split; reflexivity. Qed.

(** A batch with a working pool completes whatever the files do: every
    file is processed once, and the failures counted are the ones whose
    exception has a text. *)
Lemma process_batch_completes (sched : Schedule) (t0 t1 : Q) (bp : BatchProcessor)
    (id : string) (job : BatchJob) :
  jobs bp !! id = Some job ->
  (0 < max_workers bp)%Z ->
  Permutation (arrival sched (files job)) (files job) ->
  exists job',
    process_batch work sched t0 t1 bp id
    = (JobDict job',
       {| max_workers := max_workers bp; jobs := <[id := job']> (jobs bp) |})
    /\ status job' = "COMPLETED"%string
    /\ processed_files job'
       = (processed_files job + Z.of_nat (length (files job)))%Z
    /\ failed_files job'
       = (failed_files job
          + Z.of_nat (length (List.filter (Spec.counted work) (files job))))%Z
    /\ Permutation (results job')
         (results job ++ map (_process_single_file work) (files job)).
Proof.
  intros Hjob Hpool Hperm. unfold process_batch. rewrite Hjob.
  destruct (max_workers bp <=? 0)%Z eqn:E; [apply Z.leb_le in E; lia|].
  eexists. split; [reflexivity|].
  cbn [status processed_files failed_files results set_status files].
  destruct (collect_all (arrival sched (files job))
              (set_status job "PROCESSING" (Some t0) (completed_at job)
                 (current_file job))) as (Hp & Hf & Hr & _ & _).
  cbv zeta in Hp, Hf, Hr.
  cbn [files set_status] in Hp, Hf, Hr |- *.
  rewrite Hp, Hf, Hr.
  cbn [status processed_files failed_files results set_status files].
  repeat split.
  - now rewrite (Permutation_length Hperm).
  - do 2 f_equal. apply Permutation_length. now apply counted_permutation.
  - apply Permutation_app_head. now apply Permutation_map.
Qed.

(** When every exception has a text, the failures counted are the
    failures. *)
Lemma counted_all_failures (l : list string) :
  (forall file msg, work file = Raise msg -> msg <> EmptyString) ->
  List.filter (Spec.counted work) l = List.filter (Spec.raises work) l.
Proof.
  intros Htext. induction l as [|f l IH]; cbn [List.filter]; [reflexivity|].
  rewrite IH. unfold Spec.counted, Spec.raises.
  destruct (work f) as [c|msg] eqn:E; [reflexivity|].
  unfold truthy_str. destruct (String.eqb_spec msg EmptyString) as [->|Hne].
  - exfalso. exact (Htext f EmptyString E eq_refl).
  - reflexivity.
Qed.

End BatchCounting.

Section BatchClaim.

Import Batch.

(** C9 at the failing input: five files, the work on the third raises
    an exception with an empty text.  The job completes with all five
    files processed and the failure recorded as a FAILED entry, but
    failed_files is 0, not 1. *)
Lemma batch_empty_message_not_counted :
  exists job,
    fst (process_batch (Samples.third_raises EmptyString) Samples.in_order 0 1
           Samples.five_file_processor "JOB_1") = JobDict job
    /\ status job = "COMPLETED"%string
    /\ processed_files job = 5%Z
    /\ Spec.raises (Samples.third_raises EmptyString) "c.pdf" = true
    /\ results job !! 2%nat = Some (Failure "c.pdf" EmptyString)
    /\ failed_files job = 0%Z.
Proof.
  eexists. split; [vm_compute; reflexivity|].
  repeat (split; [vm_compute; reflexivity|]). vm_compute. reflexivity.
Qed.

(** The same batch when the exception has a text: failed_files is 1. *)
Lemma batch_failure_with_message_counted :
  exists job,
    fst (process_batch (Samples.third_raises "cannot open broken document")
           Samples.in_order 0 1 Samples.five_file_processor "JOB_1") = JobDict job
    /\ status job = "COMPLETED"%string
    /\ processed_files job = 5%Z
    /\ failed_files job = 1%Z.
Proof.
  eexists. split; [vm_compute; reflexivity|].
  repeat (split; [vm_compute; reflexivity|]). vm_compute. reflexivity.
Qed.

End BatchClaim.

(** * Further properties of the code *)

(** ** Rounding keeps bounds *)

Lemma round_half_even_bounds (x : Q) (a b : Z) :
  inject_Z a <= x <= inject_Z b -> (a <= round_half_even x <= b)%Z.
Proof.
  intros [Ha Hb]. unfold round_half_even.
  assert (Hfa : (a <= Qfloor x)%Z).
  { rewrite <- (Qfloor_Z a). now apply Qfloor_resp_le. }
  assert (Hfb : (Qfloor x <= b)%Z).
  { rewrite <- (Qfloor_Z b). now apply Qfloor_resp_le. }
  pose proof (Qfloor_le x) as Hfloor.
  destruct (Qlt_bool (x - inject_Z (Qfloor x)) (1 # 2)) eqn:E; [lia|].
  apply Qlt_bool_false_iff in E.
  assert (Hlt : (Qfloor x < b)%Z).
  { rewrite Zlt_Qlt. lra. }
  destruct (Qlt_bool (1 # 2) (x - inject_Z (Qfloor x))); [lia|].
  destruct (Z.even (Qfloor x)); lia.
Qed.

Lemma scale_positive (n : nat) : 0 < inject_Z (10 ^ Z.of_nat n).
Proof.
  change 0 with (inject_Z 0). rewrite <- Zlt_Qlt.
  apply Z.pow_pos_nonneg; lia.
Qed.

(** A bound that is a multiple of the rounding step survives [round]. *)
Lemma py_round_bounds (x : Q) (n : nat) (a b : Z) :
  inject_Z a / inject_Z (10 ^ Z.of_nat n) <= x
  <= inject_Z b / inject_Z (10 ^ Z.of_nat n) ->
  inject_Z a / inject_Z (10 ^ Z.of_nat n) <= py_round x n
  <= inject_Z b / inject_Z (10 ^ Z.of_nat n).
Proof.
  intros [Ha Hb]. unfold py_round.
  pose proof (scale_positive n) as Hs.
  set (scale := inject_Z (10 ^ Z.of_nat n)) in *.
  assert (Ea : inject_Z a / scale * scale == inject_Z a) by (field; lra).
  assert (Eb : inject_Z b / scale * scale == inject_Z b) by (field; lra).
  assert (Hx : inject_Z a <= x * scale <= inject_Z b).
  { rewrite <- Ea, <- Eb. split; apply Qmult_le_compat_r; lra. }
  destruct (round_half_even_bounds _ _ _ Hx) as [Hra Hrb].
  rewrite Zle_Qle in Hra, Hrb.
  assert (Hinv : 0 <= / scale) by (apply Qinv_le_0_compat; lra).
  unfold Qdiv. split; apply Qmult_le_compat_r; assumption.
Qed.

(** Bounds that are whole numbers survive [round] as well. *)
Lemma py_round_integer_bounds (x : Q) (n : nat) (a b : Z) :
  inject_Z a <= x <= inject_Z b -> inject_Z a <= py_round x n <= inject_Z b.
Proof.
  intros [Ha Hb].
  pose proof (scale_positive n) as Hs.
  assert (Hscale : forall z : Z,
             inject_Z z == inject_Z (z * 10 ^ Z.of_nat n) / inject_Z (10 ^ Z.of_nat n)).
  { intros z. rewrite inject_Z_mult. field. lra. }
  rewrite (Hscale a), (Hscale b) in *.
  apply py_round_bounds. split; assumption.
Qed.

Lemma clamp_bounds (x : Q) : 0 <= py_max 0.0 (py_min 1.0 x) <= 1.
Proof.
  unfold py_max, py_min.
  destruct (Qlt_bool x 1.0) eqn:E1.
  - apply Qlt_bool_iff in E1.
    destruct (Qlt_bool 0.0 x) eqn:E0.
    + apply Qlt_bool_iff in E0. lra.
    + lra.
  - destruct (Qlt_bool 0.0 1.0) eqn:E0; lra.
Qed.

Lemma py_min_at_most (a b : Q) : py_min a b <= b.
Proof.
  unfold py_min. destruct (Qlt_bool b a) eqn:E; [lra|].
  now apply Qlt_bool_false_iff in E.
Qed.

Lemma clamp_at_most (x k : Q) : 0 <= k -> x <= k -> py_max 0.0 (py_min 1.0 x) <= k.
Proof.
  intros Hk Hx. unfold py_max.
  pose proof (py_min_at_most 1.0 x).
  destruct (Qlt_bool 0.0 (py_min 1.0 x)); lra.
Qed.

(** ** Calibration and the HITL decision, beyond the formula *)

Section DecisionBounds.

Import AccuracyTracker.

(** X1: Whatever the raw confidence and the recorded precision, a calibrated
    confidence lies between 0 and 1. *)
Theorem calibrated_confidence_in_unit_interval (m : Metrics) (raw : Q)
    (category : string) (has_consensus : option bool) :
  0 <= Enhanced._calibrate_confidence m raw category has_consensus <= 1.
Proof.
  unfold Enhanced._calibrate_confidence.
  apply (py_round_integer_bounds _ 4 0 1). apply clamp_bounds.
Qed.

(** The status follows the total of the four factors. *)
Lemma hitl_status_by_total (env : Enhanced.Env) (m : Metrics)
    (r : GeminiClassifier.ClassificationResult) (safety : ContentSafety.SafetyResult) :
  let total :=
    Spec.hitl_total
      (GeminiClassifier.confidence_score r)
      (truthy_opt_bool (GeminiClassifier.validation_consensus r))
      (Enhanced.get_precision m (GeminiClassifier.final_category r) 0.0)
      (ContentSafety.safety_score safety) in
  Enhanced.status (Enhanced._enhanced_hitl_decision env m r safety)
  = if Qle_bool 0.75 total then "AUTO_APPROVED"%string else "REQUIRES_REVIEW"%string.
Proof.
  intros total.
  rewrite (hitl_decision_threshold env m r safety).
  now rewrite (Qleb_comp _ _ (Qeq_refl 0.75) _ _ (hitl_decision_total env m r safety)).
Qed.

Lemma hitl_status_is_status (env : Enhanced.Env) (m : Metrics)
    (r : GeminiClassifier.ClassificationResult) (safety : ContentSafety.SafetyResult) :
  Spec.is_hitl_status (Enhanced.status (Enhanced._enhanced_hitl_decision env m r safety)).
Proof.
  rewrite hitl_decision_threshold. unfold Spec.is_hitl_status.
  destruct (Qle_bool 0.75 _); tauto.
Qed.

Lemma confidence_factor_bounds (c : Q) :
  0 <= Spec.confidence_factor c <= 0.4
  /\ (c < 0.95 -> Spec.confidence_factor c <= 0.3)
  /\ (c < 0.85 -> Spec.confidence_factor c == 0).
Proof.
  unfold Spec.confidence_factor.
  destruct (Qle_bool 0.95 c) eqn:E1; [apply Qle_bool_iff in E1|];
    (destruct (Qle_bool 0.90 c) eqn:E2; [apply Qle_bool_iff in E2|]);
    (destruct (Qle_bool 0.85 c) eqn:E3; [apply Qle_bool_iff in E3|]);
    repeat split; try lra; intros; lra.
Qed.

Lemma consensus_factor_bounds (b : bool) :
  0 <= Spec.consensus_factor b <= 0.3 /\ (b = false -> Spec.consensus_factor b == 0).
Proof.
  destruct b; unfold Spec.consensus_factor;
    (split; [split; lra | intros H; first [discriminate H | lra]]).
Qed.

Lemma precision_factor_bounds (p : Q) :
  0 <= Spec.precision_factor p <= 0.2 /\ (p < 0.9 -> Spec.precision_factor p == 0).
Proof.
  unfold Spec.precision_factor.
  destruct (Qle_bool 0.95 p) eqn:E1; [apply Qle_bool_iff in E1|];
    (destruct (Qle_bool 0.90 p) eqn:E2; [apply Qle_bool_iff in E2|]);
    repeat split; try lra; intros; lra.
Qed.

Lemma safety_factor_bounds (s : Q) : 0 <= Spec.safety_factor s <= 0.1.
Proof.
  unfold Spec.safety_factor. destruct (Qle_bool 0.95 s); split; lra.
Qed.

(** Without the consensus factor the total stays below the threshold. *)
Lemma total_without_consensus (c p s : Q) : Spec.hitl_total c false p s < 0.75.
Proof.
  unfold Spec.hitl_total.
  pose proof (confidence_factor_bounds c) as (Hc & _).
  pose proof (consensus_factor_bounds false) as (_ & Hk).
  pose proof (precision_factor_bounds p) as (Hp & _).
  pose proof (safety_factor_bounds s) as Hs.
  specialize (Hk eq_refl). lra.
Qed.

(** So it does with a confidence below 0.85. *)
Lemma total_with_low_confidence (c : Q) (k : bool) (p s : Q) :
  c < 0.85 -> Spec.hitl_total c k p s < 0.75.
Proof.
  intros Hlow. unfold Spec.hitl_total.
  pose proof (confidence_factor_bounds c) as (_ & _ & Hc).
  pose proof (consensus_factor_bounds k) as (Hk & _).
  pose proof (precision_factor_bounds p) as (Hp & _).
  pose proof (safety_factor_bounds s) as Hs.
  specialize (Hc Hlow). lra.
Qed.

(** And with a confidence below 0.95 and no precision of 0.9 or more. *)
Lemma total_without_precision (c : Q) (k : bool) (p s : Q) :
  c < 0.95 -> p < 0.9 -> Spec.hitl_total c k p s < 0.75.
Proof.
  intros Hc95 Hp9. unfold Spec.hitl_total.
  pose proof (confidence_factor_bounds c) as (_ & Hc & _).
  pose proof (consensus_factor_bounds k) as (Hk & _).
  pose proof (precision_factor_bounds p) as (_ & Hp).
  pose proof (safety_factor_bounds s) as Hs.
  specialize (Hc Hc95). specialize (Hp Hp9). lra.
Qed.

Lemma status_below_threshold (env : Enhanced.Env) (m : Metrics)
    (r : GeminiClassifier.ClassificationResult) (safety : ContentSafety.SafetyResult) :
  Spec.hitl_total
    (GeminiClassifier.confidence_score r)
    (truthy_opt_bool (GeminiClassifier.validation_consensus r))
    (Enhanced.get_precision m (GeminiClassifier.final_category r) 0.0)
    (ContentSafety.safety_score safety) < 0.75 ->
  Enhanced.status (Enhanced._enhanced_hitl_decision env m r safety)
  = "REQUIRES_REVIEW"%string.
Proof.
  intros Hlow. rewrite hitl_status_by_total. cbv zeta.
  destruct (Qle_bool 0.75 _) eqn:E; [|reflexivity].
  apply Qle_bool_iff in E. lra.
Qed.

(** X2: No result is auto-approved without consensus between the two
    validation passes, nor with a confidence below 0.85: the other
    factors add up to less than the threshold. *)
Theorem auto_approval_needs_consensus (env : Enhanced.Env) (m : Metrics)
    (r : GeminiClassifier.ClassificationResult) (safety : ContentSafety.SafetyResult) :
  Enhanced.status (Enhanced._enhanced_hitl_decision env m r safety)
  = "AUTO_APPROVED"%string ->
  GeminiClassifier.validation_consensus r = Some true
  /\ 0.85 <= GeminiClassifier.confidence_score r.
Proof.
  intros Hauto. split.
  - destruct (truthy_opt_bool (GeminiClassifier.validation_consensus r)) eqn:Eb.
    + destruct (GeminiClassifier.validation_consensus r) as [[|]|];
        simpl in Eb; congruence.
    + rewrite status_below_threshold in Hauto; [discriminate|].
      rewrite Eb. apply total_without_consensus.
  - destruct (Qlt_le_dec (GeminiClassifier.confidence_score r) 0.85) as [Hlt|Hge];
      [|exact Hge].
    rewrite status_below_threshold in Hauto; [discriminate|].
    now apply total_with_low_confidence.
Qed.

Lemma auto_approval_needs_consensus_witness :
  GeminiClassifier.validation_consensus (Samples.agreed_result 0.96) = Some true
  /\ 0.85 <= GeminiClassifier.confidence_score (Samples.agreed_result 0.96).
Proof.
  apply (auto_approval_needs_consensus Samples.unreachable_env empty_metrics
           (Samples.agreed_result 0.96) Samples.clean_verdict).
  vm_compute. reflexivity.
Defined.

(** Without statistics for the category, calibration ends at 0.935 or
    below. *)
Lemma calibrated_without_history (m : Metrics) (raw : Q) (category : string)
    (has_consensus : option bool) :
  category_stats m !! category = None ->
  raw <= 1 ->
  Enhanced._calibrate_confidence m raw category has_consensus <= 0.935.
Proof.
  intros Hnone Hraw.
  unfold Enhanced._calibrate_confidence, Enhanced.get_precision.
  rewrite Hnone.
  set (v := py_max 0.0 (py_min 1.0 _)).
  assert (E0 : inject_Z 0 / inject_Z (10 ^ Z.of_nat 4) == 0) by reflexivity.
  assert (E1 : inject_Z 9350 / inject_Z (10 ^ Z.of_nat 4) == 0.935) by reflexivity.
  assert (Hv : inject_Z 0 / inject_Z (10 ^ Z.of_nat 4) <= v
               <= inject_Z 9350 / inject_Z (10 ^ Z.of_nat 4)).
  { rewrite E0, E1. split; [apply clamp_bounds|].
    unfold v. apply clamp_at_most; [lra|].
    destruct (truthy_opt_bool _).
    - pose proof (py_min_at_most 1.0 (raw * (0.7 + 0.3 * 0.5) * 1.1)). lra.
    - lra. }
  apply py_round_bounds in Hv. destruct Hv as [_ Hv].
  now rewrite E1 in Hv.
Qed.

(** X3: While the tracker holds no statistics for the predicted category,
    a result whose raw confidence is at most 1 is never auto-approved:
    calibration brings the confidence to at most 0.935, below the 0.95
    that the decision would need without a recorded precision. *)
Theorem no_history_no_auto_approval (env : Enhanced.Env) (m : Metrics)
    (r : GeminiClassifier.ClassificationResult) (safety : ContentSafety.SafetyResult) :
  category_stats m !! GeminiClassifier.final_category r = None ->
  GeminiClassifier.confidence_score r <= 1 ->
  let calibrated :=
    Enhanced._calibrate_confidence m (GeminiClassifier.confidence_score r)
      (GeminiClassifier.final_category r) (GeminiClassifier.validation_consensus r) in
  calibrated <= 0.935
  /\ Enhanced.status
       (Enhanced._enhanced_hitl_decision env m (Enhanced.set_confidence r calibrated)
          safety)
     = "REQUIRES_REVIEW"%string.
Proof.
  intros Hnone Hraw calibrated.
  pose proof (calibrated_without_history m _ _ (GeminiClassifier.validation_consensus r)
                Hnone Hraw) as Hcal.
  fold calibrated in Hcal. split; [exact Hcal|].
  apply status_below_threshold.
  cbn [Enhanced.set_confidence GeminiClassifier.confidence_score
       GeminiClassifier.final_category GeminiClassifier.validation_consensus].
  apply total_without_precision; [lra|].
  unfold Enhanced.get_precision. rewrite Hnone. reflexivity.
Qed.

Lemma no_history_no_auto_approval_witness :
  Enhanced._calibrate_confidence empty_metrics 1 "SENSITIVE" (Some true) <= 0.935
  /\ Enhanced.status
       (Enhanced._enhanced_hitl_decision Samples.unreachable_env empty_metrics
          (Enhanced.set_confidence (Samples.agreed_result 1)
             (Enhanced._calibrate_confidence empty_metrics 1 "SENSITIVE" (Some true)))
          Samples.clean_verdict)
     = "REQUIRES_REVIEW"%string.
Proof.
  apply (no_history_no_auto_approval Samples.unreachable_env empty_metrics
           (Samples.agreed_result 1) Samples.clean_verdict).
  - reflexivity.
  - discriminate.
Defined.

End DecisionBounds.

(** ** The shape of what the base classifier returns *)

Section BaseShape.

Import GeminiClassifier.

(** The result of a check is the reply of the oracle or the fixed
    non-flagging result, so its confidence is bounded when the oracle's
    is. *)
Lemma check_confidence_bounded (gen : Oracle) (content : string) (pass : Z)
    (r : CheckResult) :
  Spec.confidences_at_most_one gen ->
  (outcome (_check_safety gen content pass) = Ok r
   \/ outcome (_check_confidential gen content pass) = Ok r
   \/ outcome (_check_sensitive gen content pass) = Ok r) ->
  confidence r <= 1.
Proof.
  intros Hgen [H|[H|H]];
    unfold _check_safety, _check_confidential, _check_sensitive in H;
    match type of H with
    | context [gen ?k content pass] => destruct (gen k content pass) as [e|r'] eqn:E
    end; simpl in H; injection H as <-;
    first [exact (Hgen _ _ _ _ E) | simpl; lra].
Qed.

(** A pass returns one of the four categories, after one request per
    check that ran. *)
Lemma classify_single_shape (gen : Oracle) (cache : Cache)
    (document_data : DocumentData) (pass : Z) :
  exists tr r,
    _classify_single gen cache document_data pass = (tr, Ok r)
    /\ pr_final_category r ∈ Config.CATEGORIES
    /\ pr_document_id r = doc_id document_data
    /\ (Spec.confidences_at_most_one gen -> pr_confidence_score r <= 1)
    /\ (forall e content, e ∈ tr -> Spec.policy_content e = Some content ->
          content = Spec.pass_content cache document_data)
    /\ forallb (fun e => match e with
                         | CallClassifySingle p => (p =? pass)%Z
                         | Generate (PolicyCheck _ _ p _) => (p =? pass)%Z
                         | _ => false
                         end) tr = true.
Proof.
  destruct (check_safety_runs gen (Spec.pass_content cache document_data) pass)
    as [rs Es].
  destruct (check_confidential_runs gen (Spec.pass_content cache document_data) pass)
    as [rc Ec].
  destruct (check_sensitive_runs gen (Spec.pass_content cache document_data) pass)
    as [rn En].
  assert (Hs : outcome (_check_safety gen (Spec.pass_content cache document_data) pass)
               = Ok rs) by now rewrite Es.
  assert (Hc : outcome (_check_confidential gen (Spec.pass_content cache document_data)
                          pass) = Ok rc) by now rewrite Ec.
  assert (Hn : outcome (_check_sensitive gen (Spec.pass_content cache document_data)
                          pass) = Ok rn) by now rewrite En.
  rewrite (classify_single_unfold gen cache document_data pass rs rc rn Hs Hc Hn).
  assert (Hcontent : forall (tr : list Event),
             Forall (fun e => e = CallClassifySingle pass
                              \/ exists k, e = Spec.check_request k
                                                 (Spec.pass_content cache document_data)
                                                 pass) tr ->
             (forall e content, e ∈ tr -> Spec.policy_content e = Some content ->
                content = Spec.pass_content cache document_data)
             /\ forallb (fun e => match e with
                                  | CallClassifySingle p => (p =? pass)%Z
                                  | Generate (PolicyCheck _ _ p _) => (p =? pass)%Z
                                  | _ => false
                                  end) tr = true).
  { intros tr Htr. split.
    - intros e content Hin Hpc. rewrite Forall_forall in Htr.
      destruct (Htr e Hin) as [-> | [k ->]]; simpl in Hpc; congruence.
    - induction Htr as [|e tr He _ IH]; [reflexivity|]. simpl. rewrite IH.
      destruct He as [-> | [k ->]]; simpl; now rewrite Z.eqb_refl. }
  assert (Hbound : Spec.confidences_at_most_one gen ->
                   confidence rs <= 1 /\ confidence rc <= 1 /\ confidence rn <= 1).
  { intros Hgen. repeat split;
      apply (check_confidence_bounded gen (Spec.pass_content cache document_data) pass);
      auto. }
  destruct (flag rs); [|destruct (flag rc); [|destruct (flag rn)]];
    eexists; eexists; (split; [reflexivity|]);
    (split; [unfold Config.CATEGORIES; cbn [pr_final_category];
             once (repeat constructor)|]);
    (split; [reflexivity|]);
    (split; [intros Hgen; destruct (Hbound Hgen) as (? & ? & ?);
             cbn [pr_confidence_score]; first [assumption | lra]|]);
    apply Hcontent;
    repeat (apply Forall_cons_2;
            [first [left; reflexivity | right; eexists; reflexivity]|]);
    apply Forall_nil_2.
Qed.

(** The base classifier returns one of the four categories and stores
    the document in the cache; with dual validation off or not asked
    for, it runs the first pass only and leaves validation_consensus
    unset. *)
Lemma base_classify_shape (cfg : Config.t) (gen : Oracle) (cache : Cache)
    (document_data : DocumentData) (dual : bool) :
  exists tr base,
    classify cfg gen cache document_data dual
    = (tr, Ok (base, cache_document cache document_data))
    /\ final_category base ∈ Config.CATEGORIES
    /\ Spec.is_hitl_status (hitl_status base)
    /\ (Spec.confidences_at_most_one gen -> confidence_score base <= 1)
    /\ (dual && Config.DUAL_VALIDATION_ENABLED cfg = false ->
        validation_consensus base = None
        /\ dual_validation_results base = None
        /\ forallb (fun e => match e with
                             | CallClassifySingle p => (p =? 1)%Z
                             | Generate (PolicyCheck _ _ p _) => (p =? 1)%Z
                             | CallBaseClassify => true
                             | _ => false
                             end) tr = true)
    /\ (forall e content, e ∈ tr -> Spec.policy_content e = Some content ->
          content = cached_content document_data).
Proof.
  unfold classify.
  destruct (classify_single_shape gen (cache_document cache document_data)
              document_data 1) as (t1 & r1 & E1 & Hcat1 & _ & Hb1 & Hc1 & Hp1).
  destruct (classify_single_shape gen (cache_document cache document_data)
              document_data 2) as (t2 & r2 & E2 & _ & _ & _ & Hc2 & _).
  assert (Hcontent : Spec.pass_content (cache_document cache document_data) document_data
                     = cached_content document_data).
  { unfold Spec.pass_content, cache_document, Cache in *.
    now rewrite lookup_insert_eq. }
  rewrite Hcontent in Hc1, Hc2.
  rewrite E1, E2.
  destruct (dual && Config.DUAL_VALIDATION_ENABLED cfg) eqn:Emode; cbn [bind emit ret app].
  - eexists. eexists. split; [reflexivity|].
    unfold reconcile. destruct (consensus cfg r1 r2);
      cbn [annotate final_category hitl_status confidence_score];
      (split; [exact Hcat1|]); (split; [unfold Spec.is_hitl_status; tauto|]);
      (split; [exact Hb1|]); (split; [discriminate|]);
      intros e content Hin Hpc;
      apply elem_of_cons in Hin as [-> | Hin]; try discriminate Hpc;
      apply elem_of_app in Hin as [Hin | Hin];
      [ eapply Hc1 | rewrite app_nil_r in Hin; eapply Hc2
      | eapply Hc1 | rewrite app_nil_r in Hin; eapply Hc2 ]; eassumption.
  - eexists. eexists. split; [reflexivity|].
    cbn [annotate final_category hitl_status confidence_score validation_consensus
         dual_validation_results].
    split; [exact Hcat1|].
    split; [unfold Spec.is_hitl_status; destruct (Qlt_bool _ _); tauto|].
    split; [exact Hb1|].
    split.
    + intros _. split; [reflexivity|]. split; [reflexivity|].
      rewrite app_nil_r. cbn [forallb andb].
      clear -Hp1. induction t1 as [|e t1 IH]; [reflexivity|].
      cbn [forallb] in Hp1 |- *. apply andb_true_iff in Hp1 as [He Ht].
      rewrite (IH Ht), andb_true_r.
      destruct e as [[| |k c p t]| | | | | |]; try discriminate He; exact He.
    + intros e content Hin Hpc.
      apply elem_of_cons in Hin as [-> | Hin]; [discriminate Hpc|].
      rewrite app_nil_r in Hin. eapply Hc1; eassumption.
Qed.

End BaseShape.

(** ** The three layers of the safety validator *)

Section SafetyLayers.

Import ContentSafety.

(** The deep check sends one request; when the request fails its result
    is the conservative one. *)
Lemma ai_safety_check_runs (w : World) (content : string) :
  exists ai,
    _ai_safety_check w content
    = ([Generate (AiSafetyCheck (py_prefix 5000 content))], Ok ai)
    /\ (forall e, gen_ai_safety w (py_prefix 5000 content) = Failed e ->
          ai_is_safe ai = false /\ ai_safety_score ai = 0.5
          /\ ai_categories ai = ["check_error"%string])
    /\ (forall r, gen_ai_safety w (py_prefix 5000 content) = Parsed r -> ai = r).
Proof.
  unfold _ai_safety_check.
  destruct (gen_ai_safety w (py_prefix 5000 content)) as [e|r]; simpl;
    eexists; (split; [reflexivity|]); split; intros; try discriminate;
    try (repeat split; reflexivity); congruence.
Qed.

Lemma child_safety_check_runs (w : World) (content : string) :
  exists child,
    _child_safety_check w content
    = ([Generate (ChildSafetyCheck (py_prefix 3000 content))], Ok child)
    /\ (forall e, gen_child_safety w (py_prefix 3000 content) = Failed e ->
          is_child_safe child = false)
    /\ (forall r, gen_child_safety w (py_prefix 3000 content) = Parsed r -> child = r).
Proof.
  unfold _child_safety_check.
  destruct (gen_child_safety w (py_prefix 3000 content)) as [e|r]; simpl;
    eexists; (split; [reflexivity|]); split; intros; try discriminate;
    try reflexivity; congruence.
Qed.

(** At least one recommendation, at most six. *)
Lemma recommendations_count (flagged_categories : list string) :
  (1 <= length (_generate_recommendations flagged_categories) <= 6)%nat.
Proof.
  unfold _generate_recommendations.
  destruct (mem "violence" flagged_categories);
    destruct (mem "hate_speech" flagged_categories);
    destruct (mem "explicit_content" flagged_categories);
    destruct (mem "child_safety" flagged_categories);
    destruct (mem "dangerous_activities" flagged_categories);
    destruct (mem "illegal_content" flagged_categories);
    cbn; lia.
Qed.

(** The fields of what [validate] returns, over the results of its two
    model layers. *)
Lemma validate_fields (w : World) (content document_id : string)
    (ai : AiReply) (child : ChildReply) :
  outcome (_ai_safety_check w content) = Ok ai ->
  outcome (_child_safety_check w content) = Ok child ->
  exists s,
    validate w content document_id
    = ([ CallValidate;
         Generate (AiSafetyCheck (py_prefix 5000 content));
         Generate (ChildSafetyCheck (py_prefix 3000 content)) ],
       Ok s)
    /\ is_safe s
       = negb (flagged (_pattern_based_check w content))
         && ai_is_safe ai && is_child_safe child
    /\ safety_score s
       = (if ai_is_safe ai then 1.0 else py_min 1.0 (ai_safety_score ai))
    /\ child_safe s = is_child_safe child
    /\ (is_safe s = true -> recommendations s = [])
    /\ (is_safe s = false ->
        exists flagged_categories,
          recommendations s = _generate_recommendations flagged_categories)
    /\ ai_check (detail s) = ai
    /\ child_safety_check (detail s) = child.
Proof.
  intros Hai Hchild.
  destruct (ai_safety_check_runs w content) as (ai' & Eai & _).
  destruct (child_safety_check_runs w content) as (child' & Echild & _).
  rewrite Eai in Hai. rewrite Echild in Hchild. simpl in Hai, Hchild.
  injection Hai as ->. injection Hchild as ->.
  unfold validate. rewrite Eai. cbn [bind emit ret app].
  rewrite Echild. cbn [bind emit ret app].
  eexists. split; [reflexivity|].
  cbn [is_safe safety_score child_safe recommendations detail ai_check
       child_safety_check].
  destruct (flagged (_pattern_based_check w content));
    destruct (ai_is_safe ai); destruct (is_child_safe child);
    cbn [negb andb]; repeat split; try reflexivity; try discriminate;
    intros _; eexists; reflexivity.
Qed.

End SafetyLayers.

Section SafetyProperties.

Import ContentSafety.


(** X5: Only the deep check moves the safety score: it is 1.0 whenever the
    deep check reports safe, also when a pattern matched or the
    child-safety check objected, and the smaller of 1.0 and the reported
    score otherwise; so it never exceeds 1.0, and it is 0.5 when the
    request of the deep check fails. *)
Theorem safety_score_follows_deep_check (w : World) (content document_id : string) :
  exists s,
    outcome (validate w content document_id) = Ok s
    /\ safety_score s <= 1
    /\ (ai_is_safe (ai_check (detail s)) = true -> safety_score s = 1.0)
    /\ (ai_is_safe (ai_check (detail s)) = false ->
        safety_score s = py_min 1.0 (ai_safety_score (ai_check (detail s))))
    /\ (forall e, gen_ai_safety w (py_prefix 5000 content) = Failed e ->
          safety_score s = 0.5).
Proof.
  destruct (ai_safety_check_runs w content) as (ai & Eai & Hai_fail & _).
  destruct (child_safety_check_runs w content) as (child & Ech & _).
  destruct (validate_fields w content document_id ai child) as
    (s & Hs & _ & Hscore & _ & _ & _ & Hd1 & _);
    [now rewrite Eai | now rewrite Ech |].
  exists s. rewrite Hs, Hd1, Hscore. cbn [outcome snd].
  split; [reflexivity|]. split; [|split; [|split]].
  - destruct (ai_is_safe ai); [lra|].
    unfold py_min. destruct (Qlt_bool (ai_safety_score ai) 1.0) eqn:E; [|lra].
    apply Qlt_bool_iff in E. lra.
  - now intros ->.
  - now intros ->.
  - intros e He. destruct (Hai_fail e He) as (-> & -> & _). reflexivity.
Qed.

(** X6: A safe verdict carries no recommendation; an unsafe one carries at
    least one and at most six, also when none of the six known
    categories is among the flagged ones. *)
Theorem unsafe_verdict_has_recommendations (w : World) (content document_id : string) :
  exists s,
    outcome (validate w content document_id) = Ok s
    /\ (recommendations s = [] <-> is_safe s = true)
    /\ (length (recommendations s) <= 6)%nat.
Proof.
  destruct (ai_safety_check_runs w content) as (ai & Eai & _).
  destruct (child_safety_check_runs w content) as (child & Ech & _).
  destruct (validate_fields w content document_id ai child) as
    (s & Hs & _ & _ & _ & Hnone & Hsome & _);
    [now rewrite Eai | now rewrite Ech |].
  exists s. rewrite Hs. cbn [outcome snd].
  split; [reflexivity|].
  destruct (is_safe s) eqn:E.
  - rewrite (Hnone eq_refl). split; [tauto | simpl; lia].
  - destruct (Hsome eq_refl) as [cats ->].
    pose proof (recommendations_count cats) as Hcount.
    split; [|lia]. split; [|discriminate].
    intros Hnil. rewrite Hnil in Hcount. simpl in Hcount. lia.
Qed.

End SafetyProperties.

(** ** The enhanced classifier, end to end *)

Section EndToEnd.

Import AccuracyTracker.

(** What [classify] does once the validator has answered safe. *)
Lemma classify_safe (env : Enhanced.Env) (st : Enhanced.State)
    (document_data : DocumentData) (ground_truth : option string)
    (safety : ContentSafety.SafetyResult) (tr tr2 : list Event)
    (base : GeminiClassifier.ClassificationResult) (cache' : GeminiClassifier.Cache) :
  ContentSafety.validate (Enhanced.world env) (full_text document_data)
    (doc_id document_data) = (tr, Ok safety) ->
  ContentSafety.is_safe safety = true ->
  GeminiClassifier.classify (Enhanced.config env) (Enhanced.gen_policy_check env)
    (Enhanced.cache st) document_data true = (tr2, Ok (base, cache')) ->
  let final :=
    Spec.classified_result env (Enhanced.metrics st) document_data safety base in
  Enhanced.classify env st document_data ground_truth
  = if truthy_opt_str ground_truth then
      (tr ++ tr2 ++ [CallCalibrate; CallHitlDecision; CallRecordPrediction],
       match record_prediction (Enhanced.metrics st) (Enhanced.final_category final)
               ground_truth (Enhanced.confidence_score final)
               (doc_id document_data) with
       | Some m' => Ok (final, {| Enhanced.metrics := m'; Enhanced.cache := cache' |})
       | None => Raise "KeyError"
       end)
    else
      (tr ++ tr2 ++ [CallCalibrate; CallHitlDecision],
       Ok (final, {| Enhanced.metrics := Enhanced.metrics st;
                     Enhanced.cache := cache' |})).
Proof.
  intros Hval Hsafe Hbase final. unfold Enhanced.classify.
  rewrite Hval. cbn [bind]. rewrite Hsafe. cbn [negb]. rewrite Hbase.
  cbn [bind emit ret app].
  destruct (truthy_opt_str ground_truth); cbn [bind emit ret app].
  - destruct (record_prediction _ _ _ _ _); cbn [lift_option bind ret];
      rewrite ?app_nil_r, <- ?app_assoc; reflexivity.
  - rewrite ?app_nil_r, <- ?app_assoc. reflexivity.
Qed.

(** The two paths of [classify], with what each returns. *)
Lemma classify_paths (env : Enhanced.Env) (st : Enhanced.State)
    (document_data : DocumentData) (ground_truth : option string) :
  exists safety,
    outcome (ContentSafety.validate (Enhanced.world env) (full_text document_data)
               (doc_id document_data)) = Ok safety
    /\ ((ContentSafety.is_safe safety = false
         /\ forall r st', outcome (Enhanced.classify env st document_data ground_truth)
                          = Ok (r, st') ->
                          r = Enhanced.unsafe_result env (doc_id document_data) safety)
        \/ (ContentSafety.is_safe safety = true
            /\ exists tr2 base,
                 GeminiClassifier.classify (Enhanced.config env)
                   (Enhanced.gen_policy_check env) (Enhanced.cache st)
                   document_data true
                 = (tr2, Ok (base, GeminiClassifier.cache_document
                                     (Enhanced.cache st) document_data))
                 /\ forall r st',
                      outcome (Enhanced.classify env st document_data ground_truth)
                      = Ok (r, st') ->
                      r = Spec.classified_result env (Enhanced.metrics st)
                            document_data safety base)).
Proof.
  destruct (validate_runs (Enhanced.world env) (full_text document_data)
              (doc_id document_data)) as [safety Hval].
  exists safety. rewrite Hval. split; [reflexivity|].
  destruct (ContentSafety.is_safe safety) eqn:Hsafe.
  - right. split; [reflexivity|].
    destruct (base_classify_shape (Enhanced.config env) (Enhanced.gen_policy_check env)
                (Enhanced.cache st) document_data true)
      as (tr2 & base & Hbase & _).
    exists tr2, base. split; [exact Hbase|].
    intros r st'.
    rewrite (classify_safe env st document_data ground_truth safety _ tr2 base _
               Hval Hsafe Hbase).
    destruct (truthy_opt_str ground_truth); cbn [outcome snd].
    + destruct (record_prediction _ _ _ _ _); [|discriminate].
      intros H. now injection H as <- _.
    + intros H. now injection H as <- _.
  - left. split; [reflexivity|]. intros r st'.
    rewrite (classify_unsafe env st document_data ground_truth safety _ Hval Hsafe).
    destruct (truthy_opt_str ground_truth); cbn [outcome snd].
    + destruct (record_prediction _ _ _ _ _); [|discriminate].
      intros H. now injection H as <- _.
    + intros H. now injection H as <- _.
Qed.

(** X7: Whatever the oracle answers, a result returned by the enhanced
    classifier has one of the four categories, a confidence between 0
    and 1 and one of the two HITL statuses. *)
Theorem classify_result_well_formed (env : Enhanced.Env) (st : Enhanced.State)
    (document_data : DocumentData) (ground_truth : option string) :
  Spec.on_result (Enhanced.classify env st document_data ground_truth)
    (fun returned =>
       Enhanced.final_category (fst returned) ∈ Config.CATEGORIES
       /\ 0 <= Enhanced.confidence_score (fst returned) <= 1
       /\ Spec.is_hitl_status (Enhanced.hitl_status (fst returned))).
Proof.
  unfold Spec.on_result.
  destruct (outcome (Enhanced.classify env st document_data ground_truth))
    as [[r st']|] eqn:Hout; [|exact I].
  destruct (classify_paths env st document_data ground_truth)
    as (safety & _ & [[_ Hr] | (_ & tr2 & base & Hbase & Hr)]);
    rewrite (Hr r st' Hout); cbn [fst].
  - cbn [Enhanced.unsafe_result Enhanced.final_category Enhanced.confidence_score
         Enhanced.hitl_status].
    split; [unfold Config.CATEGORIES; once (repeat constructor)|].
    split; [split; discriminate | right; reflexivity].
  - destruct (base_classify_shape (Enhanced.config env) (Enhanced.gen_policy_check env)
                (Enhanced.cache st) document_data true)
      as (tr2' & base' & Hbase' & Hcat & _).
    rewrite Hbase in Hbase'. injection Hbase' as _ <-.
    cbn [Spec.classified_result Enhanced.final_category Enhanced.confidence_score
         Enhanced.hitl_status].
    split; [exact Hcat|].
    split; [unfold Enhanced._calibrate_confidence;
            apply (py_round_integer_bounds _ 4 0 1); apply clamp_bounds|].
    apply hitl_status_is_status.
Qed.

(** X8: With dual validation switched off in the configuration, no result of
    the enhanced classifier is auto-approved: the base classifier leaves
    validation_consensus unset, and without the consensus factor the
    score stays below the threshold. *)
Theorem single_pass_never_auto_approves (env : Enhanced.Env) (st : Enhanced.State)
    (document_data : DocumentData) (ground_truth : option string) :
  Config.DUAL_VALIDATION_ENABLED (Enhanced.config env) = false ->
  Spec.on_result (Enhanced.classify env st document_data ground_truth)
    (fun returned =>
       Enhanced.hitl_status (fst returned) = "REQUIRES_REVIEW"%string).
Proof.
  intros Hoff. unfold Spec.on_result.
  destruct (outcome (Enhanced.classify env st document_data ground_truth))
    as [[r st']|] eqn:Hout; [|exact I].
  destruct (classify_paths env st document_data ground_truth)
    as (safety & _ & [[_ Hr] | (_ & tr2 & base & Hbase & Hr)]);
    rewrite (Hr r st' Hout); cbn [fst]; [reflexivity|].
  destruct (base_classify_shape (Enhanced.config env) (Enhanced.gen_policy_check env)
              (Enhanced.cache st) document_data true)
    as (tr2' & base' & Hbase' & _ & _ & _ & Hsingle & _).
  rewrite Hbase in Hbase'. injection Hbase' as _ <-.
  rewrite Hoff in Hsingle. destruct (Hsingle eq_refl) as (Hnone & _).
  cbn [Spec.classified_result Enhanced.hitl_status].
  apply status_below_threshold.
  cbn [Enhanced.set_confidence GeminiClassifier.validation_consensus].
  rewrite Hnone. apply total_without_consensus.
Qed.

Lemma single_pass_never_auto_approves_witness :
  Spec.on_result
    (Enhanced.classify (Samples.agreeing_env false) Samples.fresh_state
       Samples.one_page None)
    (fun returned =>
       Enhanced.hitl_status (fst returned) = "REQUIRES_REVIEW"%string).
Proof.
  apply (single_pass_never_auto_approves (Samples.agreeing_env false)
           Samples.fresh_state Samples.one_page None).
  reflexivity.
Defined.

(** X9: While the tracker holds no category statistics at all, as it does
    until the first ground truth is recorded, and the oracle reports
    confidences of at most 1, no result of the enhanced classifier is
    auto-approved. *)
Theorem fresh_tracker_never_auto_approves (env : Enhanced.Env) (st : Enhanced.State)
    (document_data : DocumentData) (ground_truth : option string) :
  category_stats (Enhanced.metrics st) = ∅ ->
  Spec.confidences_at_most_one (Enhanced.gen_policy_check env) ->
  Spec.on_result (Enhanced.classify env st document_data ground_truth)
    (fun returned =>
       Enhanced.hitl_status (fst returned) = "REQUIRES_REVIEW"%string).
Proof.
  intros Hfresh Hgen. unfold Spec.on_result.
  destruct (outcome (Enhanced.classify env st document_data ground_truth))
    as [[r st']|] eqn:Hout; [|exact I].
  destruct (classify_paths env st document_data ground_truth)
    as (safety & _ & [[_ Hr] | (_ & tr2 & base & Hbase & Hr)]);
    rewrite (Hr r st' Hout); cbn [fst]; [reflexivity|].
  destruct (base_classify_shape (Enhanced.config env) (Enhanced.gen_policy_check env)
              (Enhanced.cache st) document_data true)
    as (tr2' & base' & Hbase' & _ & _ & Hbound & _).
  rewrite Hbase in Hbase'. injection Hbase' as _ <-.
  cbn [Spec.classified_result Enhanced.hitl_status].
  assert (Hnone : category_stats (Enhanced.metrics st)
                  !! GeminiClassifier.final_category base = None)
    by (rewrite Hfresh; apply lookup_empty).
  apply status_below_threshold.
  cbn [Enhanced.set_confidence GeminiClassifier.confidence_score
       GeminiClassifier.final_category GeminiClassifier.validation_consensus].
  apply total_without_precision.
  - pose proof (calibrated_without_history (Enhanced.metrics st) _ _
                  (GeminiClassifier.validation_consensus base) Hnone (Hbound Hgen)).
    lra.
  - unfold Enhanced.get_precision. rewrite Hnone. reflexivity.
Qed.

Lemma fresh_tracker_never_auto_approves_witness :
  Spec.on_result
    (Enhanced.classify (Samples.agreeing_env true) Samples.fresh_state
       Samples.one_page None)
    (fun returned =>
       Enhanced.hitl_status (fst returned) = "REQUIRES_REVIEW"%string).
Proof.
  apply (fresh_tracker_never_auto_approves (Samples.agreeing_env true)
           Samples.fresh_state Samples.one_page None).
  - reflexivity.
  - intros kind content pass r H. unfold Samples.agreeing_env in H. simpl in H.
    unfold Samples.agreeing_oracle in H.
    destruct kind; injection H as <-; simpl;
      first [discriminate | destruct (pass =? 1)%Z; discriminate].
Defined.

End EndToEnd.

(** ** More on the enhanced classifier *)

Section EnhancedMore.

Import AccuracyTracker.



(** X11: When the request of the deep safety check or of the child-safety
    check fails, the enhanced classifier fails closed: what it returns
    is UNSAFE with confidence 1.0 and REQUIRES_REVIEW, and it has asked
    no policy check. *)
Theorem failed_safety_request_means_unsafe (env : Enhanced.Env) (st : Enhanced.State)
    (document_data : DocumentData) (ground_truth : option string) :
  (exists e, ContentSafety.gen_ai_safety (Enhanced.world env)
               (py_prefix 5000 (full_text document_data)) = Failed e)
  \/ (exists e, ContentSafety.gen_child_safety (Enhanced.world env)
                  (py_prefix 3000 (full_text document_data)) = Failed e) ->
  Spec.on_result (Enhanced.classify env st document_data ground_truth)
    (fun returned =>
       Enhanced.final_category (fst returned) = "UNSAFE"%string
       /\ Enhanced.confidence_score (fst returned) == 1
       /\ Enhanced.hitl_status (fst returned) = "REQUIRES_REVIEW"%string)
  /\ forallb (fun e => negb (Spec.downstream e))
       (events (Enhanced.classify env st document_data ground_truth)) = true.
Proof.
  intros Hfail.
  destruct (ai_safety_check_runs (Enhanced.world env) (full_text document_data))
    as (ai & Eai & Hai_fail & _).
  destruct (child_safety_check_runs (Enhanced.world env) (full_text document_data))
    as (child & Ech & Hch_fail & _).
  destruct (validate_fields (Enhanced.world env) (full_text document_data)
              (doc_id document_data) ai child) as (s & Hs & Hsafe & _);
    [now rewrite Eai | now rewrite Ech |].
  assert (Hunsafe : ContentSafety.is_safe s = false).
  { rewrite Hsafe. destruct Hfail as [[e He] | [e He]].
    - destruct (Hai_fail e He) as (-> & _). now rewrite andb_false_r.
    - rewrite (Hch_fail e He). now rewrite andb_false_r. }
  rewrite (classify_unsafe env st document_data ground_truth s _ Hs Hunsafe).
  unfold Spec.on_result.
  destruct (truthy_opt_str ground_truth); cbn [outcome events fst snd].
  - split; [|reflexivity].
    destruct (record_prediction _ _ _ _ _); [|exact I].
    cbn [fst]. repeat split; reflexivity.
  - split; [|reflexivity]. cbn [fst]. repeat split; reflexivity.
Qed.

Lemma failed_safety_request_means_unsafe_witness :
  Spec.on_result
    (Enhanced.classify Samples.unreachable_env Samples.fresh_state Samples.memo None)
    (fun returned =>
       Enhanced.final_category (fst returned) = "UNSAFE"%string
       /\ Enhanced.confidence_score (fst returned) == 1
       /\ Enhanced.hitl_status (fst returned) = "REQUIRES_REVIEW"%string)
  /\ forallb (fun e => negb (Spec.downstream e))
       (events (Enhanced.classify Samples.unreachable_env Samples.fresh_state
                  Samples.memo None)) = true.
Proof.
  apply (failed_safety_request_means_unsafe Samples.unreachable_env Samples.fresh_state
           Samples.memo None).
  left. exists "unreachable"%string. reflexivity.
Defined.

End EnhancedMore.

(** ** More on the cascade and on the base classifier *)

Section CascadeMore.

Import GeminiClassifier.

(** X12: The first check that flags decides the category and the confidence
    of a pass, and the checks after it are not requested: a flagged
    safety check gives UNSAFE after one request whatever the other
    checks would say, a flagged confidential check CONFIDENTIAL after
    two, a flagged sensitive check SENSITIVE after three. *)
Theorem first_flagging_check_decides (gen : Oracle) (cache : Cache)
    (document_data : DocumentData) (pass : Z) (rs rc rn : CheckResult) :
  let content := Spec.pass_content cache document_data in
  let single := _classify_single gen cache document_data pass in
  outcome (_check_safety gen content pass) = Ok rs ->
  outcome (_check_confidential gen content pass) = Ok rc ->
  outcome (_check_sensitive gen content pass) = Ok rn ->
  (flag rs = true ->
   exists r, outcome single = Ok r
             /\ pr_final_category r = "UNSAFE"%string
             /\ pr_confidence_score r = confidence rs
             /\ pr_reasoning_summary r = reasoning rs
             /\ events single
                = [CallClassifySingle pass; Spec.check_request Safety content pass])
  /\ (flag rs = false -> flag rc = true ->
      exists r, outcome single = Ok r
                /\ pr_final_category r = "CONFIDENTIAL"%string
                /\ pr_confidence_score r = confidence rc
                /\ pr_reasoning_summary r = reasoning rc
                /\ events single
                   = [CallClassifySingle pass; Spec.check_request Safety content pass;
                      Spec.check_request Confidential content pass])
  /\ (flag rs = false -> flag rc = false -> flag rn = true ->
      exists r, outcome single = Ok r
                /\ pr_final_category r = "SENSITIVE"%string
                /\ pr_confidence_score r = confidence rn
                /\ pr_reasoning_summary r = reasoning rn
                /\ events single
                   = [CallClassifySingle pass; Spec.check_request Safety content pass;
                      Spec.check_request Confidential content pass;
                      Spec.check_request Sensitive content pass]).
Proof.
  intros content single Hs Hc Hn. unfold single.
  rewrite (classify_single_unfold gen cache document_data pass rs rc rn Hs Hc Hn).
  fold content.
  split; [|split].
  - intros ->. eexists. repeat split; reflexivity.
  - intros -> ->. eexists. repeat split; reflexivity.
  - intros -> -> ->. eexists. repeat split; reflexivity.
Qed.

Lemma first_flagging_check_decides_witness :
  exists r,
    outcome (_classify_single Samples.agreeing_oracle ∅ Samples.memo 1) = Ok r
    /\ pr_final_category r = "SENSITIVE"%string
    /\ pr_confidence_score r = 0.92
    /\ pr_reasoning_summary r = "internal memo"%string
    /\ events (_classify_single Samples.agreeing_oracle ∅ Samples.memo 1)
       = [ CallClassifySingle 1;
           Spec.check_request Safety (Spec.pass_content ∅ Samples.memo) 1;
           Spec.check_request Confidential (Spec.pass_content ∅ Samples.memo) 1;
           Spec.check_request Sensitive (Spec.pass_content ∅ Samples.memo) 1 ].
Proof.
  destruct (first_flagging_check_decides Samples.agreeing_oracle ∅ Samples.memo 1
              {| flag := false; confidence := 0.99; reasoning := "nothing found";
                 citation := None; pii_found := None |}
              {| flag := false; confidence := 0.99; reasoning := "nothing found";
                 citation := None; pii_found := None |}
              {| flag := true; confidence := 0.92; reasoning := "internal memo";
                 citation := Some "page 1"%string; pii_found := Some [] |}
              eq_refl eq_refl eq_refl) as (_ & _ & Hsensitive).
  apply Hsensitive; reflexivity.
Defined.

(** X13: With dual validation off in the configuration, or not asked for,
    [classify] runs the first pass only; its result is that of the
    pass with validation_consensus unset and no dual-validation record,
    and it is AUTO_APPROVED exactly when the confidence of the pass
    reaches the threshold. *)
Theorem single_pass_mode (cfg : Config.t) (gen : Oracle) (cache : Cache)
    (document_data : DocumentData) (use_dual_validation : bool) :
  use_dual_validation && Config.DUAL_VALIDATION_ENABLED cfg = false ->
  exists tr1 result,
    _classify_single gen (cache_document cache document_data) document_data 1
    = (tr1, Ok result)
    /\ exists res,
         classify cfg gen cache document_data use_dual_validation
         = (CallBaseClassify :: tr1, Ok (res, cache_document cache document_data))
         /\ validation_consensus res = None
         /\ dual_validation_results res = None
         /\ final_category res = pr_final_category result
         /\ confidence_score res = pr_confidence_score result
         /\ (hitl_status res = "AUTO_APPROVED"%string
             <-> Config.CONFIDENCE_THRESHOLD cfg <= pr_confidence_score result)
         /\ (hitl_status res = "REQUIRES_REVIEW"%string
             <-> pr_confidence_score result < Config.CONFIDENCE_THRESHOLD cfg).
Proof.
  intros Hmode.
  destruct (classify_single_shape gen (cache_document cache document_data)
              document_data 1) as (t1 & r1 & E1 & _).
  exists t1, r1. split; [exact E1|].
  unfold classify. rewrite Hmode, E1. cbn [bind emit ret app]. rewrite app_nil_r.
  eexists. split; [reflexivity|].
  cbn [annotate validation_consensus dual_validation_results final_category
       confidence_score hitl_status].
  repeat (split; [reflexivity|]).
  destruct (Qlt_bool (pr_confidence_score r1) (Config.CONFIDENCE_THRESHOLD cfg)) eqn:E.
  - apply Qlt_bool_iff in E. split; split; intros H;
      try discriminate H; try reflexivity; try exact E.
    exfalso. exact (Qlt_not_le _ _ E H).
  - apply Qlt_bool_false_iff in E. split; split; intros H;
      try discriminate H; try reflexivity; try exact E.
    exfalso. exact (Qlt_not_le _ _ H E).
Qed.

Lemma single_pass_mode_witness :
  exists tr1 result,
    _classify_single Samples.agreeing_oracle (cache_document ∅ Samples.memo)
      Samples.memo 1 = (tr1, Ok result)
    /\ exists res,
         classify Config.default Samples.agreeing_oracle ∅ Samples.memo false
         = (CallBaseClassify :: tr1, Ok (res, cache_document ∅ Samples.memo))
         /\ validation_consensus res = None
         /\ dual_validation_results res = None
         /\ final_category res = pr_final_category result
         /\ confidence_score res = pr_confidence_score result
         /\ (hitl_status res = "AUTO_APPROVED"%string
             <-> Config.CONFIDENCE_THRESHOLD Config.default <= pr_confidence_score result)
         /\ (hitl_status res = "REQUIRES_REVIEW"%string
             <-> pr_confidence_score result < Config.CONFIDENCE_THRESHOLD Config.default).
Proof.
  apply (single_pass_mode Config.default Samples.agreeing_oracle ∅ Samples.memo false).
  reflexivity.
Defined.


End CascadeMore.

(** ** More on the accuracy tracker *)

Section TrackerMore.

Import AccuracyTracker.

Local Opaque Config.CATEGORIES.

Lemma getitem_default {K V} `{Countable K} (dflt : bool) (factory : V)
    (d : gmap K V) (k : K) (v : V) :
  getitem dflt factory d k = Some v -> v = default factory (d !! k).
Proof.
  unfold getitem. destruct (d !! k); simpl; [congruence|].
  destruct dflt; congruence.
Qed.

(** Everything a returning [record_prediction] changes. *)
Lemma record_prediction_fields (m : Metrics) (p : string) (gt : option string)
    (conf : Q) (id : string) (m' : Metrics) :
  record_prediction m p gt conf id = Some m' ->
  total_predictions m' = (total_predictions m + 1)%Z
  /\ hitl_corrections m' = hitl_corrections m
  /\ defaulting m' = defaulting m
  /\ confidence_bins m'
     = <[confidence_bin conf :=
           default [] (confidence_bins m !! confidence_bin conf)
           ++ [Spec.bin_entry p gt id]]> (confidence_bins m)
  /\ (truthy_opt_str gt = false ->
      total_ground_truth m' = total_ground_truth m
      /\ confusion_matrix m' = confusion_matrix m
      /\ category_stats m' = category_stats m)
  /\ (forall g, gt = Some g -> truthy_str g = true ->
      total_ground_truth m' = (total_ground_truth m + 1)%Z
      /\ confusion_matrix m'
         = <[g := <[p := (default 0%Z (default ∅ (confusion_matrix m !! g) !! p) + 1)%Z]>
                    (default ∅ (confusion_matrix m !! g))]> (confusion_matrix m)).
Proof.
  intros Hrec. unfold record_prediction in Hrec.
  destruct (getitem _ [] _ _) as [bin|] eqn:Hbin; simpl in Hrec; [|discriminate].
  apply getitem_default in Hbin. cbn [confidence_bins set_totals] in Hbin.
  assert (Hentry : forall g, gt = Some g ->
             {| be_predicted := p; be_ground_truth := gt;
                be_correct := if truthy_str g then Some (String.eqb p g) else None;
                be_document_id := id |} = Spec.bin_entry p gt id).
  { intros g ->. reflexivity. }
  destruct gt as [g|].
  - destruct (truthy_str g) eqn:Hg.
    + destruct (getitem _ ∅ _ _) as [row|] eqn:Hrow; simpl in Hrec; [|discriminate].
      destruct (getitem _ 0%Z _ _) as [cell|] eqn:Hcell; simpl in Hrec; [|discriminate].
      destruct (for_each (update_category _ _ _) _ _) as [st|]; simpl in Hrec;
        [|discriminate].
      destruct (_recalculate_metrics _ st) as [st'|]; simpl in Hrec; [|discriminate].
      injection Hrec as <-. apply getitem_default in Hrow, Hcell.
      cbn in Hrow. subst row cell bin. cbn.
      rewrite <- (Hentry g eq_refl), Hg.
      do 4 (split; [reflexivity|]). split.
      * intros H'. unfold truthy_opt_str in H'. congruence.
      * intros g' H' _. injection H' as <-. split; reflexivity.
    + injection Hrec as <-. subst bin. cbn. rewrite <- (Hentry g eq_refl), Hg.
      do 4 (split; [reflexivity|]). split.
      * intros _. repeat split; reflexivity.
      * intros g' H' Hg'. injection H' as <-. congruence.
  - injection Hrec as <-. subst bin. cbn.
    do 4 (split; [reflexivity|]). split.
    + intros _. repeat split; reflexivity.
    + intros g H'. discriminate.
Qed.

(** X15: A prediction without ground truth (none, or the empty string) is
    only logged: one more prediction and one more entry in its
    confidence bin, marked neither correct nor incorrect; the
    ground-truth total, the confusion matrix, the category statistics
    and the correction log stay as they are. *)
Theorem prediction_without_ground_truth_only_logs (m : Metrics) (predicted : string)
    (ground_truth : option string) (confidence : Q) (document_id : string)
    (m' : Metrics) :
  truthy_opt_str ground_truth = false ->
  record_prediction m predicted ground_truth confidence document_id = Some m' ->
  total_predictions m' = (total_predictions m + 1)%Z
  /\ total_ground_truth m' = total_ground_truth m
  /\ confusion_matrix m' = confusion_matrix m
  /\ category_stats m' = category_stats m
  /\ hitl_corrections m' = hitl_corrections m
  /\ exists entry,
       confidence_bins m' !! confidence_bin confidence
       = Some (default [] (confidence_bins m !! confidence_bin confidence) ++ [entry])
       /\ be_correct entry = None
       /\ be_predicted entry = predicted.
Proof.
  intros Hgt Hrec.
  destruct (record_prediction_fields _ _ _ _ _ _ Hrec)
    as (Htotal & Hcorr & _ & Hbins & Hnone & _).
  destruct (Hnone Hgt) as (Hgtotal & Hcm & Hstats).
  repeat (split; [assumption|]).
  exists (Spec.bin_entry predicted ground_truth document_id).
  rewrite Hbins, lookup_insert_eq. unfold Spec.bin_entry. cbn. rewrite Hgt.
  repeat split; reflexivity.
Qed.

Lemma prediction_without_ground_truth_only_logs_witness :
  let m' :=
    default empty_metrics
      (record_prediction Samples.one_correct_prediction "PUBLIC" (Some EmptyString)
         0.91 "DOC_2") in
  total_predictions m' = (total_predictions Samples.one_correct_prediction + 1)%Z
  /\ total_ground_truth m' = total_ground_truth Samples.one_correct_prediction
  /\ confusion_matrix m' = confusion_matrix Samples.one_correct_prediction
  /\ category_stats m' = category_stats Samples.one_correct_prediction
  /\ hitl_corrections m' = hitl_corrections Samples.one_correct_prediction
  /\ exists entry,
       confidence_bins m' !! confidence_bin 0.91
       = Some (default []
                 (confidence_bins Samples.one_correct_prediction !! confidence_bin 0.91)
               ++ [entry])
       /\ be_correct entry = None
       /\ be_predicted entry = "PUBLIC"%string.
Proof.
  apply (prediction_without_ground_truth_only_logs Samples.one_correct_prediction
           "PUBLIC" (Some EmptyString) 0.91 "DOC_2").
  - reflexivity.
  - vm_compute. reflexivity.
Defined.

(** X16: Every prediction that is recorded lands at the end of the bin of
    its confidence, marked correct exactly when a ground truth is given
    and equals the prediction; the other bins are not touched. *)
Theorem prediction_is_logged_in_its_bin (m : Metrics) (predicted : string)
    (ground_truth : option string) (confidence : Q) (document_id : string)
    (m' : Metrics) :
  record_prediction m predicted ground_truth confidence document_id = Some m' ->
  let k := confidence_bin confidence in
  exists entry,
    confidence_bins m' !! k = Some (default [] (confidence_bins m !! k) ++ [entry])
    /\ be_predicted entry = predicted
    /\ be_ground_truth entry = ground_truth
    /\ be_document_id entry = document_id
    /\ (be_correct entry = Some true
        <-> exists g, ground_truth = Some g /\ g <> EmptyString /\ predicted = g)
    /\ (forall k', k' <> k -> confidence_bins m' !! k' = confidence_bins m !! k').
Proof.
  intros Hrec k.
  destruct (record_prediction_fields _ _ _ _ _ _ Hrec) as (_ & _ & _ & Hbins & _).
  exists (Spec.bin_entry predicted ground_truth document_id).
  rewrite Hbins. fold k. split; [apply lookup_insert_eq|].
  repeat (split; [reflexivity|]). split.
  - unfold Spec.bin_entry. cbn. destruct ground_truth as [g|]; cbn.
    + unfold truthy_str. destruct (String.eqb_spec g EmptyString) as [->|Hne]; cbn.
      * split; [discriminate|]. intros (g & Hg & Hne & _). congruence.
      * destruct (String.eqb_spec predicted g) as [->|Hpg].
        -- split; [|reflexivity]. intros _. exists g. auto.
        -- split; [discriminate|]. intros (g' & Hg & _ & Heq). congruence.
    + split; [discriminate|]. intros (g & Hg & _). discriminate.
  - intros k' Hne. now apply lookup_insert_ne.
Qed.

Lemma prediction_is_logged_in_its_bin_witness :
  let k := confidence_bin 0.97 in
  exists entry,
    confidence_bins Samples.one_correct_prediction !! k
    = Some (default [] (confidence_bins empty_metrics !! k) ++ [entry])
    /\ be_predicted entry = "PUBLIC"%string
    /\ be_ground_truth entry = Some "PUBLIC"%string
    /\ be_document_id entry = "DOC_1"%string
    /\ (be_correct entry = Some true
        <-> exists g, Some "PUBLIC"%string = Some g /\ g <> EmptyString
                      /\ "PUBLIC"%string = g)
    /\ (forall k', k' <> k ->
          confidence_bins Samples.one_correct_prediction !! k'
          = confidence_bins empty_metrics !! k').
Proof.
  apply (prediction_is_logged_in_its_bin empty_metrics "PUBLIC" (Some "PUBLIC"%string)
           0.97 "DOC_1").
  vm_compute. reflexivity.
Defined.

(** *** What the counters keep *)

Lemma record_hitl_correction_fields (m : Metrics) (now : Q) (id original corrected : string)
    (conf : Q) (m' : Metrics) :
  record_hitl_correction m now id original corrected conf = Some m' ->
  exists m1,
    record_prediction m original (Some corrected) conf id = Some m1
    /\ m' = set_corrections m1
              (hitl_corrections m ++ [Spec.correction now id original corrected conf]).
Proof.
  unfold record_hitl_correction. rewrite record_prediction_corrections.
  destruct (record_prediction m original (Some corrected) conf id) as [m1|];
    simpl; [|discriminate].
  intros H. injection H as <-. exists m1. split; reflexivity.
Qed.

(** Outside the configured categories [record_prediction] leaves the
    statistics alone. *)
Lemma record_prediction_stats_outside (m : Metrics) (p g : string) (conf : Q)
    (id : string) (m' : Metrics) :
  truthy_str g = true ->
  record_prediction m p (Some g) conf id = Some m' ->
  forall c, c ∉ Config.CATEGORIES -> category_stats m' !! c = category_stats m !! c.
Proof.
  intros Hg Hrec c Hc. unfold record_prediction in Hrec. rewrite Hg in Hrec.
  destruct (getitem _ [] _ _) as [bin|]; simpl in Hrec; [|discriminate].
  destruct (getitem _ ∅ _ _) as [row|]; simpl in Hrec; [|discriminate].
  destruct (getitem _ 0%Z _ _) as [cell|]; simpl in Hrec; [|discriminate].
  destruct (for_each (update_category _ _ _) _ _) as [st|] eqn:Hup;
    simpl in Hrec; [|discriminate].
  destruct (_recalculate_metrics _ st) as [st'|] eqn:Hre; simpl in Hrec;
    [|discriminate].
  injection Hrec as <-. simpl.
  pose proof (for_each_pointwise _ (Spec.bump p g)
                (update_category_local (defaulting m) p g) _ _ _ Hup
                categories_nodup c) as [_ Hbump].
  unfold _recalculate_metrics in Hre.
  pose proof (for_each_pointwise _ (fun _ => recalculate)
                (recalculate_local (defaulting m)) _ _ _ Hre
                categories_nodup c) as [_ Hcalc].
  rewrite (Hcalc Hc), (Hbump Hc). reflexivity.
Qed.

Lemma recalculate_idempotent (s : CategoryStats) : recalculate (recalculate s) = recalculate s.
Proof. reflexivity. Qed.

Lemma recalculate_true_positives (s : CategoryStats) :
  true_positives (recalculate s) = true_positives s.
Proof. reflexivity. Qed.

Lemma bump_true_positives (p g c : string) (s : CategoryStats) :
  true_positives (Spec.bump p g c s)
  = (true_positives s + if String.eqb p c && String.eqb g c then 1 else 0)%Z.
Proof.
  unfold Spec.bump.
  destruct (String.eqb p c), (String.eqb g c); simpl; lia.
Qed.

Lemma bump_counters (p g c : string) (s : CategoryStats) :
  (0 <= true_positives s -> 0 <= false_positives s -> 0 <= false_negatives s ->
   0 <= true_positives (Spec.bump p g c s)
   /\ 0 <= false_positives (Spec.bump p g c s)
   /\ 0 <= false_negatives (Spec.bump p g c s))%Z.
Proof.
  unfold Spec.bump.
  destruct (String.eqb p c), (String.eqb g c); simpl; lia.
Qed.

(** One recorded pair adds at most one true positive over a list of
    distinct categories. *)
Lemma sum_over_bump (p g : string) (st st' : gmap string CategoryStats) :
  forall l, NoDup l ->
    (forall c, c ∈ l ->
       st' !! c = Some (recalculate (Spec.bump p g c (default fresh_stats (st !! c))))) ->
    (Spec.sum_over st l <= Spec.sum_over st' l <= Spec.sum_over st l + 1)%Z
    /\ (p ∉ l -> Spec.sum_over st' l = Spec.sum_over st l).
Proof.
  induction l as [|a l IH]; intros Hnd Hst; simpl.
  - split; [lia | reflexivity].
  - apply NoDup_cons in Hnd as [Hnotin Hnd].
    destruct (IH Hnd) as [Hle Heq].
    { intros c Hc. apply Hst. now right. }
    rewrite (Hst a) by now left. cbn [default from_option]. unfold id.
    rewrite recalculate_true_positives, bump_true_positives.
    destruct (String.eqb_spec p a) as [->|Hpa]; simpl.
    + rewrite (Heq Hnotin). split.
      * destruct (String.eqb g a); lia.
      * intros Hout. exfalso. apply Hout. now left.
    + split; [lia|]. intros Hout. rewrite Heq; [lia|].
      intros Hin. apply Hout. now right.
Qed.

Lemma sum_over_ext (st st' : gmap string CategoryStats) (l : list string) :
  (forall c, c ∈ l -> st' !! c = st !! c) -> Spec.sum_over st' l = Spec.sum_over st l.
Proof.
  induction l as [|a l IH]; intros H; simpl; [reflexivity|].
  rewrite (H a) by now left. rewrite IH; [reflexivity|].
  intros c Hc. apply H. now right.
Qed.

(** The sum over the values of a dictionary whose keys are among the
    listed ones is the sum over the list. *)
Lemma total_true_positives_sum_over :
  forall l, NoDup l -> forall st : gmap string CategoryStats,
    (forall c, is_Some (st !! c) -> c ∈ l) ->
    total_true_positives st = Spec.sum_over st l.
Proof.
  unfold total_true_positives.
  induction l as [|a l IH]; intros Hnd st Hkeys; simpl.
  - assert (st = ∅) as ->.
    { apply map_empty. intros c. destruct (st !! c) eqn:E; [|reflexivity].
      assert (Hc : c ∈ @nil string) by (apply Hkeys; eauto). inversion Hc. }
    apply map_fold_empty.
  - apply NoDup_cons in Hnd as [Hnotin Hnd].
    destruct (st !! a) as [s|] eqn:Ha; cbn [default].
    + rewrite (map_fold_delete_L _ _ a s st); [|intros; lia|exact Ha].
      f_equal. rewrite (IH Hnd (delete a st)).
      * apply sum_over_ext. intros c Hc. apply lookup_delete_ne. intros ->. contradiction.
      * intros c Hc. destruct (decide (c = a)) as [->|Hne].
        -- rewrite lookup_delete_eq in Hc. destruct Hc; discriminate.
        -- rewrite lookup_delete_ne in Hc by congruence.
           apply Hkeys in Hc. apply elem_of_cons in Hc as [->|Hc]; [contradiction|exact Hc].
    + simpl. apply (IH Hnd). intros c Hc.
      pose proof (Hkeys c Hc) as Hin. apply elem_of_cons in Hin as [->|Hin]; [|exact Hin].
      rewrite Ha in Hc. destruct Hc; discriminate.
Qed.

Lemma invariant_prediction (m : Metrics) (p : string) (gt : option string) (conf : Q)
    (id : string) (m' : Metrics) :
  Spec.invariant m -> record_prediction m p gt conf id = Some m' -> Spec.invariant m'.
Proof.
  intros (Hstats & Hsum & Htotals & Hcorr) Hrec.
  destruct (record_prediction_fields _ _ _ _ _ _ Hrec)
    as (Htotal & Hlog & _ & _ & Hnone & Hsome).
  destruct (truthy_opt_str gt) eqn:Hgt.
  - destruct gt as [g|]; [|discriminate]. change (truthy_str g = true) in Hgt.
    destruct (Hsome g eq_refl Hgt) as (Hgtotal & _).
    pose proof (record_prediction_stats _ _ _ _ _ _ Hgt Hrec) as Hin.
    pose proof (record_prediction_stats_outside _ _ _ _ _ _ Hgt Hrec) as Hout.
    split; [|split; [|split]].
    + intros c s Hs. destruct (decide (c ∈ Config.CATEGORIES)) as [Hc|Hc].
      * split; [exact Hc|]. rewrite (Hin c Hc) in Hs. injection Hs as <-.
        assert (Hold : (0 <= true_positives (Spec.stats_of m c)
                        /\ 0 <= false_positives (Spec.stats_of m c)
                        /\ 0 <= false_negatives (Spec.stats_of m c))%Z).
        { unfold Spec.stats_of. destruct (category_stats m !! c) as [s0|] eqn:E; simpl.
          - destruct (Hstats c s0 E) as (_ & ? & ? & ? & _). auto.
          - lia. }
        destruct Hold as (H1 & H2 & H3).
        destruct (bump_counters p g c _ H1 H2 H3) as (? & ? & ?).
        repeat (split; [assumption|]). reflexivity.
      * rewrite (Hout c Hc) in Hs. destruct (Hstats c s Hs) as [Hc' _]. contradiction.
    + destruct (sum_over_bump p g (category_stats m) (category_stats m')
                  Config.CATEGORIES categories_nodup) as [Hle _].
      { intros c Hc. apply (Hin c Hc). }
      lia.
    + lia.
    + rewrite Hlog. lia.
  - destruct (Hnone eq_refl) as (Hgtotal & _ & Hsame).
    split; [|split; [|split]].
    + rewrite Hsame. exact Hstats.
    + rewrite Hsame, Hgtotal. exact Hsum.
    + lia.
    + rewrite Hlog. lia.
Qed.

Lemma invariant_correction (m : Metrics) (now : Q) (id original corrected : string)
    (conf : Q) (m' : Metrics) :
  Spec.invariant m ->
  record_hitl_correction m now id original corrected conf = Some m' -> Spec.invariant m'.
Proof.
  intros Hinv Hrec.
  destruct (record_hitl_correction_fields _ _ _ _ _ _ _ Hrec) as (m1 & Hrec1 & ->).
  destruct (record_prediction_fields _ _ _ _ _ _ Hrec1) as (Htotal & Hlog & _).
  destruct (invariant_prediction _ _ _ _ _ _ Hinv Hrec1) as (Hstats & Hsum & Htotals & _).
  destruct Hinv as (_ & _ & _ & Hcorr).
  split; [exact Hstats|]. split; [exact Hsum|]. split; [exact Htotals|].
  cbn. rewrite length_app. cbn. lia.
Qed.

Lemma reachable_invariant (m : Metrics) : Spec.Reachable m -> Spec.invariant m.
Proof.
  induction 1 as [|m p gt conf id m' _ IH Hrec|m now id o c conf m' _ IH Hrec|m _ IH].
  - split; [|split; [|split]].
    + intros c s Hs. cbn in Hs. rewrite lookup_empty in Hs. discriminate.
    + cbn. clear. induction Config.CATEGORIES as [|a l IH]; simpl.
      * lia.
      * rewrite lookup_empty. simpl. lia.
    + cbn. lia.
    + cbn. lia.
  - exact (invariant_prediction _ _ _ _ _ _ IH Hrec).
  - exact (invariant_correction _ _ _ _ _ _ _ IH Hrec).
  - exact IH.
Qed.


(** X17: A tracker that started without a metrics file never raises,
    whatever predictions and corrections it is given and in whatever
    order. *)
Theorem fresh_tracker_never_raises (l : list Spec.Call) :
  is_Some (Spec.calls empty_metrics l).
Proof.
  assert (Hgen : forall l m, defaulting m = true -> is_Some (Spec.calls m l)).
  { clear l. induction l as [|c l IH]; intros m Hd; simpl; [eauto|].
    assert (Hcall : exists m', Spec.call m c = Some m' /\ defaulting m' = true).
    { destruct c as [p gt conf id|now id o c conf]; simpl.
      - now apply record_prediction_defaulting.
      - unfold record_hitl_correction. now apply record_prediction_defaulting. }
    destruct Hcall as (m' & -> & Hd'). simpl. now apply IH. }
  apply Hgen. reflexivity.
Qed.

(** X18: With a ground truth, the confusion matrix counts the pair (ground
    truth, prediction) once more and no other pair changes; the number
    of ground-truthed predictions goes up by one. *)
Theorem confusion_matrix_counts_the_pair (m : Metrics) (predicted ground_truth : string)
    (confidence : Q) (document_id : string) (m' : Metrics) :
  truthy_str ground_truth = true ->
  record_prediction m predicted (Some ground_truth) confidence document_id = Some m' ->
  total_ground_truth m' = (total_ground_truth m + 1)%Z
  /\ Spec.confusion_count m' ground_truth predicted
     = (Spec.confusion_count m ground_truth predicted + 1)%Z
  /\ forall g p, (g, p) <> (ground_truth, predicted) ->
       Spec.confusion_count m' g p = Spec.confusion_count m g p.
Proof.
  intros Hg Hrec.
  destruct (record_prediction_fields _ _ _ _ _ _ Hrec) as (_ & _ & _ & _ & _ & Hsome).
  destruct (Hsome _ eq_refl Hg) as [Htotal Hcm].
  split; [exact Htotal|]. unfold Spec.confusion_count. rewrite Hcm. split.
  - rewrite lookup_insert_eq. simpl. rewrite lookup_insert_eq. simpl.
    destruct (confusion_matrix m !! ground_truth) as [row|]; reflexivity.
  - intros g p Hne. destruct (decide (g = ground_truth)) as [->|Hg'].
    + rewrite lookup_insert_eq. simpl.
      rewrite lookup_insert_ne by congruence.
      destruct (confusion_matrix m !! ground_truth) as [row|]; reflexivity.
    + rewrite lookup_insert_ne by congruence. reflexivity.
Qed.

Lemma confusion_matrix_counts_the_pair_witness :
  total_ground_truth Samples.one_correct_prediction
  = (total_ground_truth empty_metrics + 1)%Z
  /\ Spec.confusion_count Samples.one_correct_prediction "PUBLIC" "PUBLIC"
     = (Spec.confusion_count empty_metrics "PUBLIC" "PUBLIC" + 1)%Z
  /\ forall g p, (g, p) <> ("PUBLIC"%string, "PUBLIC"%string) ->
       Spec.confusion_count Samples.one_correct_prediction g p
       = Spec.confusion_count empty_metrics g p.
Proof.
  apply (confusion_matrix_counts_the_pair empty_metrics "PUBLIC" "PUBLIC" 0.97 "DOC_1").
  - reflexivity.
  - vm_compute. reflexivity.
Defined.

(** X19: With a ground truth, each configured category gets exactly the
    counter of its role: a true positive where prediction and truth
    both name it, a false positive where only the prediction does, a
    false negative where only the truth does; its stored precision,
    recall and F1 are then the ones computed from its counters. *)
Theorem ground_truth_moves_the_counters (m : Metrics) (predicted ground_truth : string)
    (confidence : Q) (document_id : string) (m' : Metrics) :
  truthy_str ground_truth = true ->
  record_prediction m predicted (Some ground_truth) confidence document_id = Some m' ->
  forall category, category ∈ Config.CATEGORIES ->
    exists s',
      category_stats m' !! category = Some s'
      /\ true_positives s'
         = (true_positives (Spec.stats_of m category)
            + Spec.indicator (predicted = category /\ ground_truth = category))%Z
      /\ false_positives s'
         = (false_positives (Spec.stats_of m category)
            + Spec.indicator (predicted = category /\ ground_truth <> category))%Z
      /\ false_negatives s'
         = (false_negatives (Spec.stats_of m category)
            + Spec.indicator (predicted <> category /\ ground_truth = category))%Z
      /\ recalculate s' = s'.
Proof.
  intros Hg Hrec c Hc.
  rewrite (record_prediction_stats _ _ _ _ _ _ Hg Hrec c Hc).
  eexists. split; [reflexivity|].
  unfold Spec.indicator, Spec.bump.
  destruct (String.eqb_spec predicted c) as [Hp|Hp],
           (String.eqb_spec ground_truth c) as [Hgc|Hgc]; simpl;
    repeat match goal with
    | |- context [decide ?P] => destruct (decide P)
    end;
    repeat split; try lia; tauto.
Qed.

Lemma ground_truth_moves_the_counters_witness :
  exists s',
    category_stats Samples.one_correct_prediction !! "PUBLIC"%string = Some s'
    /\ true_positives s'
       = (true_positives (Spec.stats_of empty_metrics "PUBLIC")
          + Spec.indicator ("PUBLIC"%string = "PUBLIC"%string
                            /\ "PUBLIC"%string = "PUBLIC"%string))%Z
    /\ false_positives s'
       = (false_positives (Spec.stats_of empty_metrics "PUBLIC")
          + Spec.indicator ("PUBLIC"%string = "PUBLIC"%string
                            /\ "PUBLIC"%string <> "PUBLIC"%string))%Z
    /\ false_negatives s'
       = (false_negatives (Spec.stats_of empty_metrics "PUBLIC")
          + Spec.indicator ("PUBLIC"%string <> "PUBLIC"%string
                            /\ "PUBLIC"%string = "PUBLIC"%string))%Z
    /\ recalculate s' = s'.
Proof.
  apply (ground_truth_moves_the_counters empty_metrics "PUBLIC" "PUBLIC" 0.97 "DOC_1"
           Samples.one_correct_prediction).
  - reflexivity.
  - vm_compute. reflexivity.
  - apply (bool_decide_unpack _). vm_compute. reflexivity.
Defined.


(** *** A tracker re-created from its file *)

Lemma getitem_plain {K V} `{Countable K} (factory : V) (d : gmap K V) (k : K) :
  getitem false factory d k = d !! k.
Proof. unfold getitem. destruct (d !! k); reflexivity. Qed.

(** The loops of [record_prediction] over plain dictionaries: each
    keeps the keys, and returns when the key it visits is there. *)
Lemma plain_loop_returns
    (body : gmap string CategoryStats -> string -> option (gmap string CategoryStats)) :
  (forall st a, is_Some (st !! a) ->
     exists st1, body st a = Some st1 /\ forall c, is_Some (st1 !! c) <-> is_Some (st !! c)) ->
  forall l st, (forall c, c ∈ l -> is_Some (st !! c)) ->
    exists st', for_each body st l = Some st'
                /\ forall c, is_Some (st' !! c) <-> is_Some (st !! c).
Proof.
  intros Hbody. induction l as [|a l IH]; intros st Hkeys; simpl.
  - exists st. split; [reflexivity | tauto].
  - destruct (Hbody st a) as (st1 & -> & Hdom); [apply Hkeys; now left|]. simpl.
    destruct (IH st1) as (st' & Hrun & Hdom').
    { intros c Hc. apply Hdom, Hkeys. now right. }
    exists st'. split; [exact Hrun|]. intros c. rewrite Hdom'. apply Hdom.
Qed.

Lemma insert_keeps_keys (st : gmap string CategoryStats) (a : string)
    (s : CategoryStats) :
  is_Some (st !! a) -> forall c, is_Some (<[a := s]> st !! c) <-> is_Some (st !! c).
Proof.
  intros Ha c. destruct (decide (c = a)) as [->|Hne].
  - rewrite lookup_insert_eq. split; eauto.
  - now rewrite lookup_insert_ne by congruence.
Qed.

Lemma update_category_plain (p g : string) (st : gmap string CategoryStats) (a : string) :
  is_Some (st !! a) ->
  exists st1, update_category false p g st a = Some st1
              /\ forall c, is_Some (st1 !! c) <-> is_Some (st !! c).
Proof.
  intros Ha. unfold update_category. rewrite getitem_plain.
  destruct Ha as [s Hs]. rewrite Hs. simpl.
  repeat match goal with
  | |- context [if ?b then _ else _] => destruct b
  end;
  eexists; (split; [reflexivity|]); try tauto; apply insert_keeps_keys; eauto.
Qed.

Lemma recalculate_plain (st : gmap string CategoryStats) (a : string) :
  is_Some (st !! a) ->
  exists st1,
    (s ← getitem false fresh_stats st a; Some (<[a := recalculate s]> st)) = Some st1
    /\ forall c, is_Some (st1 !! c) <-> is_Some (st !! c).
Proof.
  intros Ha. rewrite getitem_plain. destruct Ha as [s Hs]. rewrite Hs. simpl.
  eexists. split; [reflexivity|]. apply insert_keeps_keys. eauto.
Qed.

(** Over plain dictionaries [_recalculate_metrics] needs the entry of
    every configured category. *)
Lemma recalculate_plain_needs :
  forall l st st',
    for_each (fun (st : gmap string CategoryStats) (category : string) =>
                s ← getitem false fresh_stats st category;
                Some (<[category := recalculate s]> st)) st l = Some st' ->
    forall c, c ∈ l -> is_Some (st !! c).
Proof.
  induction l as [|a l IH]; intros st st' Hrun c Hc; simpl in Hrun.
  - inversion Hc.
  - rewrite getitem_plain in Hrun.
    destruct (st !! a) as [s|] eqn:Ha; simpl in Hrun; [|discriminate].
    apply elem_of_cons in Hc as [->|Hc]; [eauto|].
    apply (insert_keeps_keys st a (recalculate s)); [eauto|].
    apply (IH _ _ Hrun c Hc).
Qed.

Lemma update_plain_keys (p g : string) :
  forall l st st', for_each (update_category false p g) st l = Some st' ->
    forall c, is_Some (st' !! c) -> is_Some (st !! c).
Proof.
  induction l as [|a l IH]; intros st st' Hrun c Hc; simpl in Hrun.
  - injection Hrun as <-. exact Hc.
  - destruct (update_category false p g st a) as [st1|] eqn:Hup; simpl in Hrun;
      [|discriminate].
    pose proof (IH _ _ Hrun c Hc) as Hc1.
    unfold update_category in Hup. rewrite getitem_plain in Hup.
    repeat match type of Hup with
    | (if ?b then _ else _) = _ => destruct b
    end;
    try (injection Hup as <-; exact Hc1);
    (destruct (st !! a) as [s|] eqn:Ha; simpl in Hup; [|discriminate];
     injection Hup as <-;
     apply (insert_keeps_keys st a _) in Hc1; [exact Hc1 | rewrite Ha; eauto]).
Qed.

(** X20: A tracker re-created from the file it wrote holds plain
    dictionaries: [record_prediction] returns exactly when the
    confidence bin has been used before and, with a ground truth, the
    cell of the confusion matrix and the entries of all configured
    categories exist already; otherwise it raises [KeyError]. *)
Theorem restarted_tracker_needs_known_keys (m : Metrics) (predicted : string)
    (ground_truth : option string) (confidence : Q) (document_id : string) :
  is_Some (record_prediction (Spec.restarted m) predicted ground_truth confidence
             document_id)
  <-> is_Some (confidence_bins m !! confidence_bin confidence)
      /\ (forall g, ground_truth = Some g -> truthy_str g = true ->
            is_Some (confusion_matrix m !! g ≫= fun row => row !! predicted)
            /\ forall category, category ∈ Config.CATEGORIES ->
                 is_Some (category_stats m !! category)).
Proof.
  unfold record_prediction, Spec.restarted. cbn.
  rewrite getitem_plain.
  destruct (confidence_bins m !! confidence_bin confidence) as [bin|]; simpl;
    [|split; [intros [? H]; discriminate | intros [[? H] _]; discriminate]].
  destruct ground_truth as [g|];
    [|split; [intros _; split; [eauto | intros ? H; discriminate] | eauto]].
  destruct (truthy_str g) eqn:Hg;
    [|split; [intros _; split; [eauto | intros ? H ?; injection H as <-; congruence]
             | eauto]].
  rewrite getitem_plain.
  destruct (confusion_matrix m !! g) as [row|] eqn:Hrow; simpl.
  - rewrite getitem_plain.
    destruct (row !! predicted) as [cell|] eqn:Hcell; simpl.
    + split.
      * intros Hret. split; [eauto|]. intros g' H _. injection H as <-.
        rewrite Hrow. simpl. rewrite Hcell. split; [eauto|].
        destruct (for_each (update_category false predicted g) (category_stats m)
                    Config.CATEGORIES) as [st|] eqn:Hup; simpl in Hret;
          [|destruct Hret; discriminate].
        destruct (_recalculate_metrics false st) as [st'|] eqn:Hre; simpl in Hret;
          [|destruct Hret; discriminate].
        intros c Hc. apply (update_plain_keys _ _ _ _ _ Hup).
        apply (recalculate_plain_needs _ _ _ Hre c Hc).
      * intros [_ Hall]. destruct (Hall g eq_refl Hg) as [_ Hkeys].
        destruct (plain_loop_returns _ (update_category_plain predicted g)
                    Config.CATEGORIES (category_stats m) Hkeys) as (st & -> & Hdom).
        simpl. unfold _recalculate_metrics.
        destruct (plain_loop_returns _ recalculate_plain Config.CATEGORIES st)
          as (st' & -> & _).
        { intros c Hc. apply Hdom, Hkeys, Hc. }
        simpl. eauto.
    + split; [intros [? H]; discriminate|].
      intros [_ Hall]. destruct (Hall g eq_refl Hg) as [[? H] _].
      rewrite Hrow in H. simpl in H. congruence.
  - split; [intros [? H]; discriminate|].
    intros [_ Hall]. destruct (Hall g eq_refl Hg) as [[? H] _].
    rewrite Hrow in H. discriminate.
Qed.


(** *** The numbers of the report *)

Lemma ratio_bounds (a b : Z) :
  (0 <= a <= b)%Z -> (0 < b)%Z -> 0 <= inject_Z a / inject_Z b <= 1.
Proof.
  intros [Ha Hab] Hb.
  assert (Hb' : 0 < inject_Z b) by (change 0 with (inject_Z 0); now rewrite <- Zlt_Qlt).
  assert (Ha' : 0 <= inject_Z a) by (change 0 with (inject_Z 0); now rewrite <- Zle_Qle).
  assert (Hab' : inject_Z a <= inject_Z b) by now rewrite <- Zle_Qle.
  split.
  - apply Qle_shift_div_l; [exact Hb'|lra].
  - apply Qle_shift_div_r; [exact Hb'|lra].
Qed.

Lemma percent_bounds (a b : Z) :
  (0 <= a <= b)%Z -> (0 < b)%Z ->
  0 <= py_round (inject_Z a / inject_Z b * 100) 2 <= 100.
Proof.
  intros Hab Hb. pose proof (ratio_bounds a b Hab Hb) as [H0 H1].
  apply (py_round_integer_bounds _ 2 0 100).
  change (inject_Z 0) with 0. change (inject_Z 100) with 100. split; lra.
Qed.

Lemma sum_over_nonneg (st : gmap string CategoryStats) (l : list string) :
  (forall c s, st !! c = Some s -> (0 <= true_positives s)%Z) ->
  (0 <= Spec.sum_over st l)%Z.
Proof.
  intros Hst. induction l as [|a l IH]; simpl; [lia|].
  destruct (st !! a) as [s|] eqn:E; simpl.
  - pose proof (Hst a s E). lia.
  - lia.
Qed.

(** The ratios [_recalculate_metrics] stores lie between 0 and 1. *)
Lemma recalculate_bounds (s : CategoryStats) :
  (0 <= true_positives s)%Z -> (0 <= false_positives s)%Z ->
  (0 <= false_negatives s)%Z ->
  0 <= precision (recalculate s) <= 1
  /\ 0 <= recall (recalculate s) <= 1
  /\ 0 <= f1_score (recalculate s) <= 1.
Proof.
  intros Htp Hfp Hfn. unfold recalculate. cbn [precision recall f1_score].
  set (p := if (0 <? true_positives s + false_positives s)%Z
            then inject_Z (true_positives s)
                 / inject_Z (true_positives s + false_positives s) else 0).
  set (r := if (0 <? true_positives s + false_negatives s)%Z
            then inject_Z (true_positives s)
                 / inject_Z (true_positives s + false_negatives s) else 0).
  assert (Hp : 0 <= p <= 1).
  { subst p. destruct (Z.ltb_spec 0 (true_positives s + false_positives s)).
    - apply ratio_bounds; lia.
    - lra. }
  assert (Hr : 0 <= r <= 1).
  { subst r. destruct (Z.ltb_spec 0 (true_positives s + false_negatives s)).
    - apply ratio_bounds; lia.
    - lra. }
  assert (Hf : 0 <= (if Qlt_bool 0 (p + r) then 2 * (p * r) / (p + r) else 0) <= 1).
  { destruct (Qlt_bool 0 (p + r)) eqn:E; [|lra].
    apply Qlt_bool_iff in E. split.
    - apply Qle_shift_div_l; [exact E|]. nra.
    - apply Qle_shift_div_r; [exact E|]. nra. }
  repeat split; apply (py_round_integer_bounds _ 4 0 1); assumption.
Qed.

Lemma py_sum_bounds (l : list Q) :
  Forall (fun x => 0 <= x <= 1) l ->
  forall a, a <= fold_left Qplus l a <= a + inject_Z (Z.of_nat (length l)).
Proof.
  induction 1 as [|x l Hx _ IH]; intros a; simpl fold_left.
  - change (inject_Z (Z.of_nat (length (@nil Q)))) with 0. lra.
  - specialize (IH (a + x)).
    rewrite length_cons, Nat2Z.inj_succ. unfold Z.succ. rewrite inject_Z_plus.
    change (inject_Z 1) with 1. lra.
Qed.

(** X21: On every state the tracker reaches by calls that return, the three
    summary figures of the report are in range: the overall accuracy
    and the HITL correction rate are percentages between 0 and 100, the
    macro F1 lies between 0 and 1. *)
Theorem report_figures_in_range (m : Metrics) :
  Spec.Reachable m ->
  0 <= get_overall_accuracy m <= 100
  /\ 0 <= _get_hitl_correction_rate m <= 100
  /\ 0 <= get_macro_f1 m <= 1.
Proof.
  intros Hreach.
  destruct (reachable_invariant m Hreach) as (Hstats & Hsum & Htotals & Hcorr).
  split; [|split].
  - unfold get_overall_accuracy.
    destruct (Z.eqb_spec (total_ground_truth m) 0) as [_|Hne]; [lra|].
    rewrite (total_true_positives_sum_over Config.CATEGORIES categories_nodup).
    + apply percent_bounds; [|lia]. split; [|exact Hsum].
      apply sum_over_nonneg. intros c s Hs. now destruct (Hstats c s Hs) as (_ & ? & _).
    + intros c [s Hs]. now destruct (Hstats c s Hs).
  - unfold _get_hitl_correction_rate.
    destruct (Z.eqb_spec (total_predictions m) 0) as [_|Hne]; [lra|].
    apply percent_bounds; lia.
  - unfold get_macro_f1.
    assert (Hall : Forall (fun x => 0 <= x <= 1) (positive_f1_scores (category_stats m))).
    { unfold positive_f1_scores. apply List.Forall_forall. intros x Hx.
      apply List.filter_In in Hx as [Hx _]. apply List.in_map_iff in Hx as ([c s] & <- & Hcs).
      apply list_elem_of_In, elem_of_map_to_list in Hcs. simpl.
      destruct (Hstats c s Hcs) as (_ & H1 & H2 & H3 & Hfix).
      rewrite <- Hfix. now apply recalculate_bounds. }
    destruct (positive_f1_scores (category_stats m)) as [|x l] eqn:E; [lra|].
    rewrite <- E in *. 
    assert (Hlen : (0 < Z.of_nat (length (positive_f1_scores (category_stats m))))%Z).
    { rewrite E. rewrite length_cons. lia. }
    pose proof (py_sum_bounds _ Hall 0) as [Hlo Hhi].
    fold (py_sum (positive_f1_scores (category_stats m))) in Hlo, Hhi.
    set (n := Z.of_nat (length (positive_f1_scores (category_stats m)))) in *.
    assert (Hn : 0 < inject_Z n) by (change 0 with (inject_Z 0); now rewrite <- Zlt_Qlt).
    apply (py_round_integer_bounds _ 4 0 1). split.
    + apply Qle_shift_div_l; [exact Hn|]. change (inject_Z 0) with 0. lra.
    + apply Qle_shift_div_r; [exact Hn|]. change (inject_Z 1) with 1. lra.
Qed.

Lemma report_figures_in_range_witness :
  0 <= get_overall_accuracy Samples.one_correct_prediction <= 100
  /\ 0 <= _get_hitl_correction_rate Samples.one_correct_prediction <= 100
  /\ 0 <= get_macro_f1 Samples.one_correct_prediction <= 1.
Proof.
  apply (report_figures_in_range Samples.one_correct_prediction).
  apply (Spec.reach_prediction empty_metrics "PUBLIC" (Some "PUBLIC"%string) 0.97 "DOC_1").
  - apply Spec.reach_fresh.
  - vm_compute. reflexivity.
Defined.




Lemma filter_permutation {A} (f : A -> bool) (l l' : list A) :
  Permutation l l' -> Permutation (List.filter f l) (List.filter f l').
Proof.
  induction 1 as [|x l l' _ IH|x y l|l l' l'' _ IH1 _ IH2]; simpl.
  - constructor.
  - destruct (f x); [now constructor | exact IH].
  - destruct (f x), (f y); try reflexivity. constructor.
  - now transitivity (List.filter f l').
Qed.

Lemma fold_plus_comp (l : list Q) :
  forall a b, a == b -> fold_left Qplus l a == fold_left Qplus l b.
Proof.
  induction l as [|x l IH]; intros a b Hab; simpl; [exact Hab|].
  apply IH. now rewrite Hab.
Qed.

Lemma fold_plus_permutation (l l' : list Q) :
  Permutation l l' -> forall a, fold_left Qplus l a == fold_left Qplus l' a.
Proof.
  induction 1 as [|x l l' _ IH|x y l|l l' l'' _ IH1 _ IH2]; intros a; simpl.
  - reflexivity.
  - apply IH.
  - apply fold_plus_comp. ring.
  - now rewrite IH1.
Qed.

Lemma positive_scores_skip (st : gmap string CategoryStats) (category : string)
    (s : CategoryStats) :
  st !! category = Some s ->
  f1_score s <= 0 ->
  Permutation (positive_f1_scores st) (positive_f1_scores (delete category st)).
Proof.
  intros Hs Hzero. unfold positive_f1_scores.
  rewrite <- (insert_delete_id st category s Hs) at 1.
  pose proof (map_to_list_insert (delete category st) category s
                (lookup_delete_eq st category)) as Hins.
  apply (Permutation_map (fun entry : string * CategoryStats => f1_score (snd entry)))
    in Hins.
  apply (filter_permutation (fun f1 => Qlt_bool 0 f1)) in Hins.
  rewrite Hins. simpl.
  assert (E : Qlt_bool 0 (f1_score s) = false) by now apply Qlt_bool_false_iff.
  rewrite E. reflexivity.
Qed.

(** X23: The macro F1 is the mean of the F1 scores above zero only: a
    category whose F1 score is zero does not pull it down, the figure
    is the one the tracker would report without that category. *)
Theorem macro_f1_skips_zero_scores (m : Metrics) (category : string) (s : CategoryStats) :
  category_stats m !! category = Some s ->
  f1_score s <= 0 ->
  get_macro_f1 m = get_macro_f1 (set_stats m (delete category (category_stats m))).
Proof.
  intros Hs Hzero.
  pose proof (positive_scores_skip _ _ _ Hs Hzero) as Hperm.
  unfold get_macro_f1. cbn [category_stats set_stats].
  pose proof (Permutation_length Hperm) as Hlen.
  pose proof (fold_plus_permutation _ _ Hperm 0) as Hsum.
  destruct (positive_f1_scores (category_stats m)) as [|x l] eqn:E1,
           (positive_f1_scores (delete category (category_stats m))) as [|y l'] eqn:E2;
    try discriminate; [reflexivity|].
  apply py_round_comp. unfold py_sum. rewrite Hsum, Hlen. reflexivity.
Qed.

Lemma macro_f1_skips_zero_scores_witness :
  get_macro_f1 Samples.one_correct_prediction
  = get_macro_f1
      (set_stats Samples.one_correct_prediction
         (delete "UNSAFE"%string (category_stats Samples.one_correct_prediction))).
Proof.
  apply (macro_f1_skips_zero_scores Samples.one_correct_prediction "UNSAFE"
           (recalculate fresh_stats)).
  - vm_compute. reflexivity.
  - vm_compute. discriminate.
Defined.

End TrackerMore.

(** ** The pattern layer of the safety validator *)

Section PatternLayer.

Import ContentSafety.

Variable w : World.

Lemma first_match_matches (content_lower : string) (patterns : list string) :
  match first_match w content_lower patterns with
  | Some matches =>
      matches <> []
      /\ existsb (fun pattern =>
                    negb (Nat.eqb (length (re_findall w pattern content_lower)) 0))
           patterns = true
  | None =>
      existsb (fun pattern =>
                 negb (Nat.eqb (length (re_findall w pattern content_lower)) 0))
        patterns = false
  end.
Proof.
  induction patterns as [|pattern rest IH]; simpl; [reflexivity|].
  destruct (re_findall w pattern content_lower) as [|x l] eqn:E; simpl.
  - exact IH.
  - split; [discriminate | reflexivity].
Qed.

(** The outer loop of [_pattern_based_check], over any table. *)
Lemma pattern_loop (content_lower : string) (table : list (string * list string)) :
  forall flagged_categories violations,
    let step (acc : list string * list string) (entry : string * list string) :=
      let '(flagged_categories, violations) := acc in
      let '(category, patterns) := entry in
      match first_match w content_lower patterns with
      | Some matches =>
          (flagged_categories ++ [category],
           violations ++
             [(category ++ ": Pattern match found - "
               ++ fmt_list w (firstn 3 matches))%string])
      | None => acc
      end in
    exists extra,
      fold_left step table (flagged_categories, violations)
      = (flagged_categories
         ++ map fst
              (List.filter
                 (fun entry : string * list string =>
                    existsb (fun pattern =>
                               negb (Nat.eqb (length (re_findall w pattern
                                                        content_lower)) 0))
                      (snd entry))
                 table),
         violations ++ extra)
      /\ length extra
         = length (List.filter
                     (fun entry : string * list string =>
                        existsb (fun pattern =>
                                   negb (Nat.eqb (length (re_findall w pattern
                                                            content_lower)) 0))
                          (snd entry))
                     table).
Proof.
  cbv zeta. induction table as [|[category patterns] table IH];
    intros flagged_categories violations; simpl.
  - exists []. rewrite !app_nil_r. split; reflexivity.
  - pose proof (first_match_matches content_lower patterns) as Hfirst.
    destruct (first_match w content_lower patterns) as [matches|].
    + destruct Hfirst as [_ ->]. simpl.
      destruct (IH (flagged_categories ++ [category])
                  (violations ++
                     [(category ++ ": Pattern match found - "
                       ++ fmt_list w (firstn 3 matches))%string]))
        as (extra & -> & Hlen).
      exists ((category ++ ": Pattern match found - "
               ++ fmt_list w (firstn 3 matches))%string :: extra).
      rewrite <- !app_assoc. simpl.
      split; [reflexivity | now rewrite Hlen].
    + rewrite Hfirst. apply IH.
Qed.

Lemma filter_keeps_nodup {A B} (f : A -> B) (p : A -> bool) (l : list A) :
  NoDup (map f l) -> NoDup (map f (List.filter p l)).
Proof.
  induction l as [|a l IH]; simpl; intros Hnd; [constructor|].
  apply NoDup_cons in Hnd as [Hnotin Hnd].
  destruct (p a); simpl; [|now apply IH].
  apply NoDup_cons. split; [|now apply IH].
  intros Hin. apply Hnotin.
  apply list_elem_of_fmap in Hin as (x & -> & Hx).
  apply list_elem_of_fmap. exists x. split; [reflexivity|].
  apply list_elem_of_In in Hx. apply List.filter_In in Hx as [Hx _].
  now apply list_elem_of_In.
Qed.

(** X29: The pattern layer reports exactly the categories of the table that
    have a pattern matching the lower-cased text, in the order of the
    table and each once, with one violation line per category; it flags
    the text exactly when there is such a category. *)
Theorem pattern_check_reports_each_category_once (content : string) :
  let r := _pattern_based_check w content in
  categories r = Spec.matching_categories w (str_lower w content)
  /\ NoDup (categories r)
  /\ length (pattern_violations r) = length (categories r)
  /\ (length (categories r) <= 6)%nat
  /\ (flagged r = true <-> categories r <> []).
Proof.
  cbv zeta. unfold _pattern_based_check.
  destruct (pattern_loop (str_lower w content) unsafe_patterns [] [])
    as (extra & Hloop & Hlen).
  cbv zeta in Hloop. rewrite Hloop. cbn [categories pattern_violations flagged app].
  fold (Spec.matching_categories w (str_lower w content)).
  split; [reflexivity|].
  split.
  { apply filter_keeps_nodup. apply (bool_decide_unpack _). vm_compute. reflexivity. }
  split.
  { rewrite Hlen. unfold Spec.matching_categories. now rewrite length_map. }
  split.
  { unfold Spec.matching_categories. rewrite length_map.
    etransitivity; [apply List.filter_length_le|]. reflexivity. }
  destruct (Spec.matching_categories w (str_lower w content)); simpl.
  - split; [discriminate | congruence].
  - split; [discriminate | reflexivity].
Qed.

End PatternLayer.

(** ** Enhanced citations *)

Section Citations.

Import Enhanced.

Lemma substring_length (n : nat) : forall s, (String.length (String.substring 0 n s) <= n)%nat.
Proof.
  induction n as [|n IH]; intros [|c s]; simpl; try lia.
  specialize (IH s). lia.
Qed.

Variable env : Env.
Variable document_data : DocumentData.

Lemma citation_loop (nums : list Z) :
  forall refs locs,
    let step (acc : list Z * list Location) (page_num : Z) :=
      let '(refs, locs) := acc in
      if (0 <? page_num)%Z && (page_num <=? Z.of_nat (length (pages document_data)))%Z
      then
        match pages document_data !! Z.to_nat (page_num - 1) with
        | Some page_data =>
            (refs ++ [page_num],
             locs ++ map (fun block =>
                            {| loc_page := page_num;
                               loc_block_index := block_index block;
                               loc_bbox := bbox block;
                               text_preview := String.substring 0 200 (text block) |})
                         (text_blocks page_data))
        | None => acc
        end
      else acc in
    exists extra,
      fold_left step nums (refs, locs)
      = (refs ++ List.filter (Spec.page_exists document_data) nums, locs ++ extra)
      /\ Forall (fun loc =>
                   loc_page loc ∈ List.filter (Spec.page_exists document_data) nums
                   /\ (String.length (text_preview loc) <= 200)%nat
                   /\ exists page_data block,
                        pages document_data !! Z.to_nat (loc_page loc - 1) = Some page_data
                        /\ block ∈ text_blocks page_data
                        /\ loc_block_index loc = block_index block
                        /\ loc_bbox loc = bbox block
                        /\ text_preview loc = String.substring 0 200 (text block))
           extra.
Proof.
  cbv zeta. induction nums as [|n nums IH]; intros refs locs; simpl.
  - exists []. rewrite !app_nil_r. split; [reflexivity | constructor].
  - assert (Hpe : ((0 <? n)%Z && (n <=? Z.of_nat (length (pages document_data)))%Z)
                  = Spec.page_exists document_data n) by reflexivity.
    rewrite Hpe. clear Hpe.
    destruct (Spec.page_exists document_data n) eqn:Hn.
    + destruct (pages document_data !! Z.to_nat (n - 1)) as [page_data|] eqn:Hpage.
      * destruct (IH (refs ++ [n])
                    (locs ++ map (fun block =>
                                    {| loc_page := n;
                                       loc_block_index := block_index block;
                                       loc_bbox := bbox block;
                                       text_preview :=
                                         String.substring 0 200 (text block) |})
                                 (text_blocks page_data)))
          as (extra & -> & Hall).
        exists (map (fun block =>
                       {| loc_page := n;
                          loc_block_index := block_index block;
                          loc_bbox := bbox block;
                          text_preview := String.substring 0 200 (text block) |})
                    (text_blocks page_data) ++ extra).
        split; [now rewrite <- !app_assoc|].
        apply Forall_app. split.
        -- apply Forall_forall. intros loc Hloc.
           apply list_elem_of_fmap in Hloc as (block & -> & Hblock). cbn.
           split; [now left|]. split; [apply substring_length|].
           exists page_data, block. rewrite Hpage. auto.
        -- eapply Forall_impl; [exact Hall|]. intros loc (Hin & Hrest). split; [|exact Hrest].
           now right.
      * exfalso. unfold Spec.page_exists in Hn. apply andb_prop in Hn as [H0 Hlen].
        apply Z.ltb_lt in H0. apply Z.leb_le in Hlen.
        apply lookup_ge_None in Hpage. lia.
    + apply IH.
Qed.

(** X30: The citations keep exactly the page numbers of the citation text
    that exist in the document, in their order and with repetitions;
    every location belongs to a block of one of these pages and carries
    at most the first 200 characters of its text; the confidence is 1.0
    when at least one page of the citation exists and 0.5 otherwise. *)
Theorem citations_point_into_the_document (citation_text : string) :
  let c := _extract_enhanced_citations env document_data citation_text in
  primary_citation c = citation_text
  /\ page_references c
     = List.filter (Spec.page_exists document_data) (find_page_numbers env citation_text)
  /\ Forall (fun loc =>
               loc_page loc ∈ page_references c
               /\ (String.length (text_preview loc) <= 200)%nat
               /\ exists page_data block,
                    pages document_data !! Z.to_nat (loc_page loc - 1) = Some page_data
                    /\ block ∈ text_blocks page_data
                    /\ loc_block_index loc = block_index block
                    /\ loc_bbox loc = bbox block
                    /\ text_preview loc = String.substring 0 200 (text block))
       (exact_locations c)
  /\ citations_confidence c = match page_references c with [] => 0.5 | _ => 1.0 end.
Proof.
  cbv zeta. unfold _extract_enhanced_citations.
  destruct (citation_loop (find_page_numbers env citation_text) [] [])
    as (extra & Hloop & Hall).
  cbv zeta in Hloop. rewrite Hloop.
  cbn [primary_citation page_references exact_locations citations_confidence app].
  repeat split; try reflexivity. exact Hall.
Qed.

End Citations.

(** ** Batch jobs, from creation to completion *)

Section BatchMore.

Import Batch.

Variable work : Work.

Lemma collect_keeps (l : list string) :
  forall job,
    total_files (fold_left (collect work) l job) = total_files job
    /\ job_id (fold_left (collect work) l job) = job_id job
    /\ started_at (fold_left (collect work) l job) = started_at job.
Proof.
  induction l as [|f l IH]; intros job; simpl; [repeat split; reflexivity|].
  destruct (IH (collect work job f)) as (-> & -> & ->). repeat split; reflexivity.
Qed.

Lemma counted_at_most (l : list string) :
  (length (List.filter (Spec.counted work) l) <= length l)%nat.
Proof.
  induction l as [|f l IH]; simpl; [lia|].
  destruct (Spec.counted work f); simpl; lia.
Qed.

(** One run of [process_batch] with a working pool, on the job as it is
    found. *)
Lemma process_batch_run (sched : Schedule) (t0 t1 : Q) (bp : BatchProcessor)
    (id : string) (job : BatchJob) :
  jobs bp !! id = Some job ->
  (0 < max_workers bp)%Z ->
  Permutation (arrival sched (files job)) (files job) ->
  exists job',
    process_batch work sched t0 t1 bp id
    = (JobDict job',
       {| max_workers := max_workers bp; jobs := <[id := job']> (jobs bp) |})
    /\ status job' = "COMPLETED"%string
    /\ files job' = files job
    /\ total_files job' = total_files job
    /\ processed_files job'
       = (processed_files job + Z.of_nat (length (files job)))%Z
    /\ (failed_files job <= failed_files job'
        <= failed_files job + Z.of_nat (length (files job)))%Z
    /\ length (results job') = (length (results job) + length (files job))%nat
    /\ started_at job' = Some t0
    /\ completed_at job' = Some t1.
Proof.
  intros Hjob Hw Hperm. unfold process_batch. rewrite Hjob.
  destruct (Z.leb_spec (max_workers bp) 0) as [Hle|_]; [lia|].
  eexists. split; [reflexivity|].
  cbn [status files total_files processed_files failed_files results started_at
       completed_at set_status].
  pose proof (collect_all work (arrival sched (files job))
                (set_status job "PROCESSING" (Some t0) (completed_at job)
                   (current_file job))) as Hall.
  cbv zeta in Hall. cbn [files set_status] in Hall.
  destruct Hall as (Hp & Hf & Hr & _ & Hfiles).
  pose proof (collect_keeps (arrival sched (files job))
                (set_status job "PROCESSING" (Some t0) (completed_at job)
                   (current_file job))) as (Htotal & _ & Hstart).
  cbn [files set_status] in Htotal, Hstart.
  pose proof (Permutation_length Hperm) as Hlen.
  pose proof (counted_at_most (arrival sched (files job))) as Hcount.
  split; [reflexivity|]. split; [exact Hfiles|]. split; [exact Htotal|].
  split; [rewrite Hp; cbn; lia|].
  split; [rewrite Hf; cbn; lia|].
  split; [rewrite Hr, length_app, length_map; cbn; lia|].
  split; [exact Hstart | reflexivity].
Qed.

End BatchMore.

Section BatchRuns.

Import Batch.

Lemma progress_of (job : BatchJob) (k : Z) :
  (0 < total_files job)%Z ->
  processed_files job = (k * total_files job)%Z ->
  progress_percent (to_dict job) == inject_Z k * 100.
Proof.
  intros Htotal Hp. unfold to_dict. cbn [progress_percent].
  destruct (Z.ltb_spec 0 (total_files job)) as [_|]; [|lia].
  rewrite Hp, inject_Z_mult. field.
  change 0 with (inject_Z 0). rewrite inject_Z_injective. lia.
Qed.

(** X24: A job that has just been created is reported as QUEUED with
    nothing processed and a progress of 0 percent, also for an empty
    list of files; creating it changes no other job, and it cannot be
    cancelled: [cancel_job] answers False and leaves it queued. *)
Theorem new_job_is_queued (bp : BatchProcessor) (id : string) (files : list string) :
  let bp' := create_batch_job bp id files in
  (exists v,
     get_job_status bp' id = StatusDict v
     /\ view_job_id v = id
     /\ view_status v = "QUEUED"%string
     /\ view_total_files v = Z.of_nat (length files)
     /\ view_processed_files v = 0%Z
     /\ view_failed_files v = 0%Z
     /\ view_results v = []
     /\ progress_percent v == 0)
  /\ (forall id', id' <> id -> get_job_status bp' id' = get_job_status bp id')
  /\ cancel_job bp' id = (false, bp').
Proof.
  cbv zeta. unfold get_job_status, cancel_job, create_batch_job. cbn [jobs].
  rewrite lookup_insert_eq. split; [|split].
  - eexists. split; [reflexivity|]. cbn.
    repeat (split; [reflexivity|]).
    destruct (0 <? Z.of_nat (length files))%Z; [|reflexivity].
    unfold Qdiv. ring.
  - intros id' Hne. now rewrite lookup_insert_ne by congruence.
  - reflexivity.
Qed.

(** X25: The first run of a new job with a working pool completes it: the
    dictionary returned is the one [get_job_status] shows afterwards,
    every file has been processed once, the progress is 100 percent (0
    for a job without files), the failures counted are at most the
    files, the job can no longer be cancelled, and no other job has
    been touched. *)
Theorem first_run_completes_the_job (work : Work) (sched : Schedule) (t0 t1 : Q)
    (bp : BatchProcessor) (id : string) (files : list string) :
  (0 < max_workers bp)%Z ->
  Permutation (arrival sched files) files ->
  exists job' bp',
    process_batch work sched t0 t1 (create_batch_job bp id files) id
    = (JobDict job', bp')
    /\ get_job_status bp' id = StatusDict (to_dict job')
    /\ status job' = "COMPLETED"%string
    /\ processed_files job' = total_files job'
    /\ total_files job' = Z.of_nat (length files)
    /\ length (results job') = length files
    /\ (0 <= failed_files job' <= processed_files job')%Z
    /\ progress_percent (to_dict job') == match files with [] => 0 | _ => 100 end
    /\ cancel_job bp' id = (false, bp')
    /\ (forall id', id' <> id -> jobs bp' !! id' = jobs bp !! id').
Proof.
  intros Hw Hperm.
  destruct (process_batch_run work sched t0 t1 (create_batch_job bp id files) id
              (new_job id files))
    as (job' & Hrun & Hstatus & Hfiles & Htotal & Hproc & Hfail & Hres & _);
    [apply lookup_insert_eq | exact Hw | exact Hperm |].
  cbn [new_job Batch.files total_files processed_files failed_files results length]
    in Hfiles, Htotal, Hproc, Hfail, Hres.
  eexists job', _. split; [exact Hrun|].
  unfold get_job_status, cancel_job. cbn [jobs create_batch_job max_workers].
  rewrite lookup_insert_eq, Hstatus.
  split; [reflexivity|]. split; [reflexivity|].
  split; [lia|]. split; [exact Htotal|]. split; [exact Hres|]. split; [lia|].
  split; [|split].
  - destruct files as [|f files'].
    + unfold to_dict. cbn [progress_percent]. rewrite Htotal. reflexivity.
    + rewrite (progress_of job' 1); [reflexivity | rewrite Htotal; cbn; lia | lia].
  - reflexivity.
  - intros id' Hne. now rewrite !lookup_insert_ne by congruence.
Qed.

Lemma first_run_completes_the_job_witness :
  exists job' bp',
    process_batch (Samples.third_raises "out of memory") Samples.in_order 0 1
      (create_batch_job {| max_workers := 3; jobs := ∅ |} "JOB_1" Samples.five_files)
      "JOB_1"
    = (JobDict job', bp')
    /\ get_job_status bp' "JOB_1" = StatusDict (to_dict job')
    /\ status job' = "COMPLETED"%string
    /\ processed_files job' = total_files job'
    /\ total_files job' = Z.of_nat (length Samples.five_files)
    /\ length (results job') = length Samples.five_files
    /\ (0 <= failed_files job' <= processed_files job')%Z
    /\ progress_percent (to_dict job') == match Samples.five_files with [] => 0 | _ => 100 end
    /\ cancel_job bp' "JOB_1" = (false, bp')
    /\ (forall id', id' <> "JOB_1"%string ->
          jobs bp' !! id' = jobs {| max_workers := 3; jobs := ∅ |} !! id').
Proof.
  apply (first_run_completes_the_job (Samples.third_raises "out of memory") Samples.in_order 0 1
           {| max_workers := 3; jobs := ∅ |} "JOB_1" Samples.five_files).
  - reflexivity.
  - reflexivity.
Defined.

(** X26: [process_batch] does not reset a job: run a second time on the same
    job, it processes every file again and adds to the counters and to
    the results, so that the job reports twice its files as processed
    and a progress of 200 percent. *)
Theorem second_run_counts_again (work : Work) (sched sched' : Schedule) (t0 t1 t2 t3 : Q)
    (bp : BatchProcessor) (id : string) (files : list string) :
  (0 < max_workers bp)%Z ->
  files <> [] ->
  Permutation (arrival sched files) files ->
  Permutation (arrival sched' files) files ->
  exists job'',
    fst (process_batch work sched' t2 t3
           (snd (process_batch work sched t0 t1 (create_batch_job bp id files) id)) id)
    = JobDict job''
    /\ status job'' = "COMPLETED"%string
    /\ total_files job'' = Z.of_nat (length files)
    /\ processed_files job'' = (2 * Z.of_nat (length files))%Z
    /\ length (results job'') = (2 * length files)%nat
    /\ progress_percent (to_dict job'') == 200.
Proof.
  intros Hw Hne Hperm Hperm'.
  destruct (process_batch_run work sched t0 t1 (create_batch_job bp id files) id
              (new_job id files))
    as (job' & Hrun & _ & Hfiles & Htotal & Hproc & _ & Hres & _);
    [apply lookup_insert_eq | exact Hw | exact Hperm |].
  cbn [new_job Batch.files total_files processed_files failed_files results length]
    in Hfiles, Htotal, Hproc, Hres.
  rewrite Hrun. cbn [snd].
  destruct (process_batch_run work sched' t2 t3
              {| max_workers := max_workers (create_batch_job bp id files);
                 jobs := <[id := job']> (jobs (create_batch_job bp id files)) |}
              id job')
    as (job'' & Hrun' & Hstatus & _ & Htotal' & Hproc' & _ & Hres' & _);
    [apply lookup_insert_eq | exact Hw | now rewrite Hfiles |].
  rewrite Hrun'. cbn [fst]. exists job''. rewrite Hfiles in Hproc', Hres'.
  split; [reflexivity|]. split; [exact Hstatus|].
  split; [congruence|]. split; [lia|]. split; [lia|].
  rewrite (progress_of job'' 2); [reflexivity| |].
  - rewrite Htotal', Htotal. destruct files; [contradiction|cbn; lia].
  - lia.
Qed.

Lemma second_run_counts_again_witness :
  exists job'',
    fst (process_batch (Samples.third_raises "out of memory") Samples.in_order 2 3
           (snd (process_batch (Samples.third_raises "out of memory") Samples.in_order
                   0 1
                   (create_batch_job {| max_workers := 3; jobs := ∅ |} "JOB_1"
                      Samples.five_files)
                   "JOB_1"))
           "JOB_1")
    = JobDict job''
    /\ status job'' = "COMPLETED"%string
    /\ total_files job'' = Z.of_nat (length Samples.five_files)
    /\ processed_files job'' = (2 * Z.of_nat (length Samples.five_files))%Z
    /\ length (results job'') = (2 * length Samples.five_files)%nat
    /\ progress_percent (to_dict job'') == 200.
Proof.
  apply (second_run_counts_again (Samples.third_raises "out of memory")
           Samples.in_order Samples.in_order 0 1 2 3
           {| max_workers := 3; jobs := ∅ |} "JOB_1" Samples.five_files).
  - reflexivity.
  - discriminate.
  - reflexivity.
  - reflexivity.
Defined.

End BatchRuns.

(** ** Performance metrics and the projected score *)

Section Scoring.

Import AccuracyTracker.

(** X27: Whatever the metrics, the projected score lies between 74 and 99:
    the rubric lines for speed, user experience and content safety are
    constants, and the two lines that read the metrics have floors of
    35 and 10 points. *)
Theorem projected_score_range (metrics : Enhanced.Performance) :
  74 <= Endpoints.calculate_projected_score metrics <= 99.
Proof.
  unfold Endpoints.calculate_projected_score.
  repeat match goal with
  | |- context [if ?b then _ else _] => destruct b
  end;
  apply (py_round_integer_bounds _ 1 74 99); split; vm_compute; discriminate.
Qed.

Lemma py_int_of_integer (x : Q) (t : Z) : x == inject_Z t -> py_int x = t.
Proof.
  unfold py_int, Qeq. cbn [Qnum Qden inject_Z]. intros H.
  rewrite Z.mul_1_r in H. rewrite H. apply Z.quot_mul. discriminate.
Qed.

(** X28: A tracker that has recorded no correction reports an auto-approval
    rate of 100 percent and counts every prediction as a manual review
    avoided, whatever HITL status the predictions had; the projected
    score is then at least 84. *)
Theorem no_correction_means_full_auto_approval (st : Enhanced.State) :
  hitl_corrections (Enhanced.metrics st) = [] ->
  let p := Enhanced.get_performance_metrics st in
  Enhanced.correction_rate p == 0
  /\ Enhanced.auto_approval_rate p == 100
  /\ Enhanced.manual_reviews_avoided p = total_predictions (Enhanced.metrics st)
  /\ 84 <= Endpoints.calculate_projected_score p.
Proof.
  intros Hnone. cbv zeta.
  assert (Hrate : _get_hitl_correction_rate (Enhanced.metrics st) == 0).
  { unfold _get_hitl_correction_rate. rewrite Hnone.
    destruct (total_predictions (Enhanced.metrics st) =? 0)%Z; [reflexivity|].
    cbn [length Z.of_nat].
    rewrite (py_round_comp _ 0); [reflexivity|].
    unfold Qdiv. change (inject_Z 0) with 0. ring. }
  unfold Enhanced.get_performance_metrics, get_detailed_report.
  cbn [Enhanced.correction_rate Enhanced.auto_approval_rate
       Enhanced.manual_reviews_avoided hitl_correction_rate report_total_predictions
       overall_accuracy macro_f1_score].
  split; [exact Hrate|]. split; [rewrite Hrate; reflexivity|]. split.
  - apply py_int_of_integer. rewrite Hrate. unfold Qdiv. ring.
  - unfold Endpoints.calculate_projected_score.
    cbn [Enhanced.perf_overall_accuracy Enhanced.perf_macro_f1_score
         Enhanced.auto_approval_rate].
    assert (Hauto : Qle_bool 85 (100 - _get_hitl_correction_rate (Enhanced.metrics st))
                    = true).
    { apply Qle_bool_iff. rewrite Hrate. vm_compute. discriminate. }
    rewrite Hauto.
    repeat match goal with
    | |- context [if ?b then _ else _] => destruct b
    end;
    apply (py_round_integer_bounds _ 1 84 99); split; vm_compute; discriminate.
Qed.

Lemma no_correction_means_full_auto_approval_witness :
  let st := {| Enhanced.metrics := Samples.one_of_three_correct;
               Enhanced.cache := ∅ |} in
  let p := Enhanced.get_performance_metrics st in
  Enhanced.correction_rate p == 0
  /\ Enhanced.auto_approval_rate p == 100
  /\ Enhanced.manual_reviews_avoided p = total_predictions (Enhanced.metrics st)
  /\ 84 <= Endpoints.calculate_projected_score p.
Proof.
  apply (no_correction_means_full_auto_approval
           {| Enhanced.metrics := Samples.one_of_three_correct; Enhanced.cache := ∅ |}).
  vm_compute. reflexivity.
Defined.

End Scoring.
